(** * Znode synchronisation coordinator (src/znode-sync.cpp)

    A shallow embedding of [CZnodeSync]: the peer height check, the
    blockchain sync gate, the asset state machine ([Fail], [Reset],
    [SwitchToNextAsset]) and the tick ([ProcessTick]), followed by the
    properties of the coordinator.

    Conventions of the embedding.
    - Integers ([int], [int64_t]) are [Z]; no arithmetic of the coordinator
      is meant to wrap (signed overflow is undefined in C++), so none is
      modelled.
    - One call of an entry point reads the clock once: every [GetTime()]
      of a call yields the same value, the field [GetTime] of the
      environment [Env] of that call.
    - The collaborators (chain parameters, peer statistics, roster, payment
      ledger, the try-lock on the peer list) are read through [Env].
    - What the coordinator does to its collaborators is kept in [World]:
      the fulfilled-request ledger is a finite set of (address, label),
      the peers carry their disconnect flag, and the requests sent are
      appended to a trace of [Event]s.
    - Logging is not modelled. *)

From stdpp Require Import gmap strings list.
From Stdlib Require Import ZArith Lia.

Open Scope Z_scope.

Set Warnings "-clear-no-such-hyp".

(** ** Constants and plain data *)

(** The sync assets, the values of [nRequestedZnodeAssets]. *)
Inductive Asset :=
| ZNODE_SYNC_FAILED
| ZNODE_SYNC_INITIAL
| ZNODE_SYNC_SPORKS
| ZNODE_SYNC_LIST
| ZNODE_SYNC_MNW
| ZNODE_SYNC_GOVERNANCE
| ZNODE_SYNC_FINISHED.

#[global] Instance Asset_eq_dec : EqDecision Asset.
Proof. solve_decision. Defined.

(** Modelled from the spec: the integer behind each asset constant is
    declared in znode-sync.h, which is not among the sources.  The phases
    are ordered as the transition table of section 4.3 lists them
    (Initial, Sporks, Roster, PaymentVotes, then the disabled Governance),
    with Failed below and Finished above all of them.  The source compares
    assets by [>] only in [ProcessTick], where the asset is neither Failed
    nor Finished. *)
Definition asset_code (a : Asset) : Z :=
  match a with
  | ZNODE_SYNC_FAILED => -1
  | ZNODE_SYNC_INITIAL => 0
  | ZNODE_SYNC_SPORKS => 1
  | ZNODE_SYNC_LIST => 2
  | ZNODE_SYNC_MNW => 3
  | ZNODE_SYNC_GOVERNANCE => 4
  | ZNODE_SYNC_FINISHED => 999
  end.

(** Modelled from the spec: znode-sync.h is not among the sources; the tick
    does work on every 6th invocation (section 4.4). *)
Definition ZNODE_SYNC_TICK_SECONDS : Z := 6.

(** Modelled from the spec: znode-sync.h is not among the sources; the
    phase timeout is 5 times the tick interval (section 4.4, step c). *)
Definition ZNODE_SYNC_TIMEOUT_SECONDS : Z := 30.

Record CBlockIndex := {
  nHeight : Z;
  GetBlockTime : Z
}.

Record CNodeStateStats := {
  nCommonHeight : Z;
  nSyncHeight : Z
}.

(** A connected peer.  [node_id] is [CNode::id] and [addr] its address,
    the key of the fulfilled-request ledger. *)
Record CNode := {
  node_id : Z;
  addr : Z;
  nVersion : Z;
  fZnode : bool;
  fInbound : bool;
  fDisconnect : bool
}.

Definition set_fDisconnect (b : bool) (p : CNode) : CNode :=
  {| node_id := node_id p; addr := addr p; nVersion := nVersion p;
     fZnode := fZnode p; fInbound := fInbound p; fDisconnect := b |}.

(** The labels of the fulfilled-request ledger. *)
Definition spork_sync : string := "spork-sync".
Definition znode_list_sync : string := "znode-list-sync".
Definition znode_payment_sync : string := "znode-payment-sync".
Definition full_sync : string := "full-sync".

Inductive NetMsg :=
| GETSPORKS
| ZNODEPAYMENTSYNC (n : Z).

(** Calls into the collaborators that leave the coordinator. *)
Inductive Event :=
| PushMessage (peer : Z) (m : NetMsg)
| DsegUpdate (peer : Z)
| RequestLowDataPaymentBlocks (peer : Z)
| ManageState.

(** ** State *)

(** The data members of [CZnodeSync]. *)
Record CZnodeSync := {
  nRequestedZnodeAssets : Asset;
  nRequestedZnodeAttempt : Z;
  nTimeAssetSyncStarted : Z;
  nTimeLastZnodeList : Z;
  nTimeLastPaymentVote : Z;
  nTimeLastGovernanceItem : Z;
  nTimeLastFailure : Z;
  nCountFailures : Z;
  pCurrentBlockIndex : option CBlockIndex
}.

(** The function-local statics of [IsBlockchainSynced].  [nTimeLastProcess]
    is [None] until the first call runs its initialiser [= GetTime()]. *)
Record GateStatics := {
  fBlockchainSynced : bool;
  nTimeLastProcess : option Z;
  nSkipped : Z;
  fFirstBlockAccepted : bool
}.

Record World := {
  sync : CZnodeSync;
  gate : GateStatics;
  nTick : Z;                          (* static of ProcessTick *)
  vNodes : list CNode;                (* the connection manager's peers *)
  fulfilled : gset (Z * string);      (* netfulfilledman *)
  trace : list Event
}.

(** What one call reads from its surroundings. *)
Record Env := {
  GetTime : Z;
  regtest : bool;       (* Params().NetworkIDString() == CBaseChainParams::REGTEST *)
  fZNode : bool;
  fImporting : bool;
  fReindex : bool;
  fCheckpointsEnabled : bool;
  pindexBestHeader : option CBlockIndex;
  GetTotalBlocksEstimate : Z;
  MaxTipAge : Z;
  GetNodeStateStats : Z -> option CNodeStateStats;
  CountZnodes : Z;
  IsEnoughData : bool;
  GetMinZnodePaymentsProto : Z;
  GetStorageLimit : Z;
  lockRecv : bool;      (* outcome of TRY_LOCK(cs_vNodes, lockRecv) *)
  ZNODE_SYNC_ENOUGH_PEERS : Z   (* constant of the absent znode-sync.h *)
}.

Definition with_sync (f : CZnodeSync -> CZnodeSync) (w : World) : World :=
  {| sync := f (sync w); gate := gate w; nTick := nTick w;
     vNodes := vNodes w; fulfilled := fulfilled w; trace := trace w |}.

Definition with_gate (f : GateStatics -> GateStatics) (w : World) : World :=
  {| sync := sync w; gate := f (gate w); nTick := nTick w;
     vNodes := vNodes w; fulfilled := fulfilled w; trace := trace w |}.

Definition with_nTick (n : Z) (w : World) : World :=
  {| sync := sync w; gate := gate w; nTick := n;
     vNodes := vNodes w; fulfilled := fulfilled w; trace := trace w |}.

Definition with_vNodes (l : list CNode) (w : World) : World :=
  {| sync := sync w; gate := gate w; nTick := nTick w;
     vNodes := l; fulfilled := fulfilled w; trace := trace w |}.

Definition with_fulfilled (F : gset (Z * string)) (w : World) : World :=
  {| sync := sync w; gate := gate w; nTick := nTick w;
     vNodes := vNodes w; fulfilled := F; trace := trace w |}.

Definition emit (ev : Event) (w : World) : World :=
  {| sync := sync w; gate := gate w; nTick := nTick w;
     vNodes := vNodes w; fulfilled := fulfilled w; trace := trace w ++ [ev] |}.

(** [pnode->fDisconnect = true]: the peer object is shared with the
    connection manager, so the flag is set on the peer of that id. *)
Definition disconnect (pnode : CNode) (w : World) : World :=
  with_vNodes
    (map (fun q => if node_id q =? node_id pnode then set_fDisconnect true q else q)
         (vNodes w)) w.

(** Field updates of [CZnodeSync]. *)
Definition set_assets (a : Asset) (s : CZnodeSync) : CZnodeSync :=
  {| nRequestedZnodeAssets := a;
     nRequestedZnodeAttempt := nRequestedZnodeAttempt s;
     nTimeAssetSyncStarted := nTimeAssetSyncStarted s;
     nTimeLastZnodeList := nTimeLastZnodeList s;
     nTimeLastPaymentVote := nTimeLastPaymentVote s;
     nTimeLastGovernanceItem := nTimeLastGovernanceItem s;
     nTimeLastFailure := nTimeLastFailure s;
     nCountFailures := nCountFailures s;
     pCurrentBlockIndex := pCurrentBlockIndex s |}.

Definition set_attempt (n : Z) (s : CZnodeSync) : CZnodeSync :=
  {| nRequestedZnodeAssets := nRequestedZnodeAssets s;
     nRequestedZnodeAttempt := n;
     nTimeAssetSyncStarted := nTimeAssetSyncStarted s;
     nTimeLastZnodeList := nTimeLastZnodeList s;
     nTimeLastPaymentVote := nTimeLastPaymentVote s;
     nTimeLastGovernanceItem := nTimeLastGovernanceItem s;
     nTimeLastFailure := nTimeLastFailure s;
     nCountFailures := nCountFailures s;
     pCurrentBlockIndex := pCurrentBlockIndex s |}.

Definition set_started (t : Z) (s : CZnodeSync) : CZnodeSync :=
  {| nRequestedZnodeAssets := nRequestedZnodeAssets s;
     nRequestedZnodeAttempt := nRequestedZnodeAttempt s;
     nTimeAssetSyncStarted := t;
     nTimeLastZnodeList := nTimeLastZnodeList s;
     nTimeLastPaymentVote := nTimeLastPaymentVote s;
     nTimeLastGovernanceItem := nTimeLastGovernanceItem s;
     nTimeLastFailure := nTimeLastFailure s;
     nCountFailures := nCountFailures s;
     pCurrentBlockIndex := pCurrentBlockIndex s |}.

Definition set_lastZnodeList (t : Z) (s : CZnodeSync) : CZnodeSync :=
  {| nRequestedZnodeAssets := nRequestedZnodeAssets s;
     nRequestedZnodeAttempt := nRequestedZnodeAttempt s;
     nTimeAssetSyncStarted := nTimeAssetSyncStarted s;
     nTimeLastZnodeList := t;
     nTimeLastPaymentVote := nTimeLastPaymentVote s;
     nTimeLastGovernanceItem := nTimeLastGovernanceItem s;
     nTimeLastFailure := nTimeLastFailure s;
     nCountFailures := nCountFailures s;
     pCurrentBlockIndex := pCurrentBlockIndex s |}.

Definition set_lastPaymentVote (t : Z) (s : CZnodeSync) : CZnodeSync :=
  {| nRequestedZnodeAssets := nRequestedZnodeAssets s;
     nRequestedZnodeAttempt := nRequestedZnodeAttempt s;
     nTimeAssetSyncStarted := nTimeAssetSyncStarted s;
     nTimeLastZnodeList := nTimeLastZnodeList s;
     nTimeLastPaymentVote := t;
     nTimeLastGovernanceItem := nTimeLastGovernanceItem s;
     nTimeLastFailure := nTimeLastFailure s;
     nCountFailures := nCountFailures s;
     pCurrentBlockIndex := pCurrentBlockIndex s |}.

Definition set_lastGovernanceItem (t : Z) (s : CZnodeSync) : CZnodeSync :=
  {| nRequestedZnodeAssets := nRequestedZnodeAssets s;
     nRequestedZnodeAttempt := nRequestedZnodeAttempt s;
     nTimeAssetSyncStarted := nTimeAssetSyncStarted s;
     nTimeLastZnodeList := nTimeLastZnodeList s;
     nTimeLastPaymentVote := nTimeLastPaymentVote s;
     nTimeLastGovernanceItem := t;
     nTimeLastFailure := nTimeLastFailure s;
     nCountFailures := nCountFailures s;
     pCurrentBlockIndex := pCurrentBlockIndex s |}.

Definition set_lastFailure (t : Z) (s : CZnodeSync) : CZnodeSync :=
  {| nRequestedZnodeAssets := nRequestedZnodeAssets s;
     nRequestedZnodeAttempt := nRequestedZnodeAttempt s;
     nTimeAssetSyncStarted := nTimeAssetSyncStarted s;
     nTimeLastZnodeList := nTimeLastZnodeList s;
     nTimeLastPaymentVote := nTimeLastPaymentVote s;
     nTimeLastGovernanceItem := nTimeLastGovernanceItem s;
     nTimeLastFailure := t;
     nCountFailures := nCountFailures s;
     pCurrentBlockIndex := pCurrentBlockIndex s |}.

(** ** The fulfilled-request ledger *)

(** Modelled from the spec: netfulfilledman is an external collaborator
    (section 6: hasFulfilled, addFulfilled, removeFulfilled over the four
    labels); its expiry policy is opaque to the coordinator and no record
    expires within one call. *)
Definition HasFulfilledRequest (a : Z) (l : string) (w : World) : bool :=
  bool_decide ((a, l) ∈ fulfilled w).

Definition AddFulfilledRequest (a : Z) (l : string) (w : World) : World :=
  with_fulfilled ({[ (a, l) ]} ∪ fulfilled w) w.

Definition RemoveFulfilledRequest (a : Z) (l : string) (w : World) : World :=
  with_fulfilled (fulfilled w ∖ {[ (a, l) ]}) w.

(** ** CheckNodeHeight (lines 20-45) *)

(** [cur] is [*pCurrentBlockIndex], which the callers have checked to be
    non-null.  The result carries the peer as the call leaves it. *)
Definition CheckNodeHeight (e : Env) (cur : CBlockIndex) (pnode : CNode)
    (fDisconnectStuckNodes : bool) : bool * CNode :=
  match GetNodeStateStats e (node_id pnode) with
  | None => (false, pnode)
  | Some stats =>
    if (nCommonHeight stats =? -1) || (nSyncHeight stats =? -1) then (false, pnode)
    else if nHeight cur - 1 >? nCommonHeight stats then
      (false, if fDisconnectStuckNodes then set_fDisconnect true pnode else pnode)
    else if nHeight cur <? nSyncHeight stats - 1 then (false, pnode)
    else (true, pnode)
  end.

(** ** Fail and Reset (lines 129-143) *)

Definition Fail (e : Env) (w : World) : World :=
  with_sync (fun s => set_assets ZNODE_SYNC_FAILED (set_lastFailure (GetTime e) s)) w.

Definition Reset (e : Env) (w : World) : World :=
  with_sync (fun s =>
    {| nRequestedZnodeAssets := ZNODE_SYNC_INITIAL;
       nRequestedZnodeAttempt := 0;
       nTimeAssetSyncStarted := GetTime e;
       nTimeLastZnodeList := GetTime e;
       nTimeLastPaymentVote := GetTime e;
       nTimeLastGovernanceItem := GetTime e;
       nTimeLastFailure := 0;
       nCountFailures := 0;
       pCurrentBlockIndex := pCurrentBlockIndex s |}) w.

(** Modelled from the spec: [IsSynced] and [IsFailed] are defined in the
    absent znode-sync.h.  Section 4.4 reads [if (IsSynced())] of the tick as
    "if phase is Finished" and [if (IsFailed())] as "if phase is Failed". *)
Definition IsSynced (w : World) : bool :=
  bool_decide (nRequestedZnodeAssets (sync w) = ZNODE_SYNC_FINISHED).

Definition IsFailed (w : World) : bool :=
  bool_decide (nRequestedZnodeAssets (sync w) = ZNODE_SYNC_FAILED).

(** ** IsBlockchainSynced (lines 47-127) *)

(** The [return] statement by which a call of the gate leaves, kept next to
    the returned value so that properties can name the branch taken. *)
Inductive GateExit :=
| ExitNotReady      (* line 60 *)
| ExitRestart       (* line 70 *)
| ExitThrottled     (* line 76 *)
| ExitMemoized      (* line 86 *)
| ExitCheckpoint    (* line 90 *)
| ExitPeers         (* line 113 *)
| ExitNoFirstBlock  (* line 120 *)
| ExitTipAge.       (* line 126 *)

#[global] Instance GateExit_eq_dec : EqDecision GateExit.
Proof. solve_decision. Defined.

(** Field updates of the statics. *)
Definition set_fBlockchainSynced (b : bool) (g : GateStatics) : GateStatics :=
  {| fBlockchainSynced := b; nTimeLastProcess := nTimeLastProcess g;
     nSkipped := nSkipped g; fFirstBlockAccepted := fFirstBlockAccepted g |}.

Definition set_nTimeLastProcess (t : Z) (g : GateStatics) : GateStatics :=
  {| fBlockchainSynced := fBlockchainSynced g; nTimeLastProcess := Some t;
     nSkipped := nSkipped g; fFirstBlockAccepted := fFirstBlockAccepted g |}.

Definition set_nSkipped (n : Z) (g : GateStatics) : GateStatics :=
  {| fBlockchainSynced := fBlockchainSynced g; nTimeLastProcess := nTimeLastProcess g;
     nSkipped := n; fFirstBlockAccepted := fFirstBlockAccepted g |}.

Definition set_fFirstBlockAccepted (b : bool) (g : GateStatics) : GateStatics :=
  {| fBlockchainSynced := fBlockchainSynced g; nTimeLastProcess := nTimeLastProcess g;
     nSkipped := nSkipped g; fFirstBlockAccepted := b |}.

(** The value of the static [nTimeLastProcess] once its initialiser has run. *)
Definition last_process (e : Env) (w : World) : Z :=
  default (GetTime e) (nTimeLastProcess (gate w)).

(** The loop of lines 100-115: [true] when the running count
    [nNodesAtSameHeight] reaches the peer threshold.  [CheckNodeHeight] is
    called with one argument; the default of the second one is declared in
    the absent znode-sync.h and is [false] (section 4.2, step 7: the peers
    are counted without disconnect side effects), so the call writes nothing
    to the peer (lemma [CheckNodeHeight_keeps_peer]). *)
Fixpoint enough_at_same_height (e : Env) (cur : CBlockIndex)
    (nodes : list CNode) (nNodesAtSameHeight : Z) : bool :=
  match nodes with
  | [] => false
  | pnode :: rest =>
    if negb (CheckNodeHeight e cur pnode false).1 then
      enough_at_same_height e cur rest nNodesAtSameHeight
    else
      let n := nNodesAtSameHeight + 1 in
      if n >=? ZNODE_SYNC_ENOUGH_PEERS e then true
      else enough_at_same_height e cur rest n
  end.

(** Lines 48-58: the initialisers of the statics and the idle reset. *)
Definition gate_enter (e : Env) (w : World) : World :=
  (* static int64_t nTimeLastProcess = GetTime(); *)
  let last := last_process e w in
  let w := with_gate (set_nTimeLastProcess last) w in
  (* the client slept for more than 60 minutes: reset the sync process *)
  if GetTime e - last >? 60 * 60
  then with_gate (set_fBlockchainSynced false) (Reset e w)
  else w.

(** Lines 60-126. *)
Definition gate_decide (fBlockAccepted : bool) (e : Env) (w : World)
    : GateExit * bool * World :=
  let now := GetTime e in
  match pCurrentBlockIndex (sync w), pindexBestHeader e with
  | Some cur, Some best =>
    if fImporting e || fReindex e then (ExitNotReady, false, w)
    else if fBlockAccepted && negb (IsSynced w) then
      (ExitRestart, false,
       with_gate (fun g => set_nTimeLastProcess now
                   (set_fBlockchainSynced false (set_fFirstBlockAccepted true g))) w)
    else if negb fBlockAccepted && (now - last_process e w <? ZNODE_SYNC_TICK_SECONDS) then
      (ExitThrottled, fBlockchainSynced (gate w),
       with_gate (fun g => set_nSkipped (nSkipped g + 1) g) w)
    else
      let w := with_gate (fun g => set_nSkipped 0 (set_nTimeLastProcess now g)) w in
      if fBlockchainSynced (gate w) then (ExitMemoized, true, w)
      else if fCheckpointsEnabled e && (nHeight cur <? GetTotalBlocksEstimate e) then
        (ExitCheckpoint, false, w)
      else if (Z.of_nat (length (vNodes w)) >=? ZNODE_SYNC_ENOUGH_PEERS e)
              && enough_at_same_height e cur (vNodes w) 0 then
        (ExitPeers, true, with_gate (set_fBlockchainSynced true) w)
      else if negb (fFirstBlockAccepted (gate w)) then (ExitNoFirstBlock, false, w)
      else
        let nMaxBlockTime := Z.max (GetBlockTime cur) (GetBlockTime best) in
        let b := (nHeight best - nHeight cur <? 24 * 6)
                 && (now - nMaxBlockTime <? MaxTipAge e) in
        (ExitTipAge, b, with_gate (set_fBlockchainSynced b) w)
  | _, _ => (ExitNotReady, false, w)
  end.

(** The whole function: the exit taken, the value returned and the state
    left behind. *)
Definition IsBlockchainSynced_run (fBlockAccepted : bool) (e : Env) (w : World)
    : GateExit * bool * World :=
  gate_decide fBlockAccepted e (gate_enter e w).

(** The function as its callers see it. *)
Definition IsBlockchainSynced (fBlockAccepted : bool) (e : Env) (w : World)
    : bool * World :=
  let '(_, b, w') := IsBlockchainSynced_run fBlockAccepted e w in (b, w').

(** The return statement taken by a call of the gate. *)
Definition gate_exit (fBlockAccepted : bool) (e : Env) (w : World) : GateExit :=
  (IsBlockchainSynced_run fBlockAccepted e w).1.1.

(** ** ClearFulfilledRequests (lines 257-268) and SwitchToNextAsset (lines 166-220) *)

Definition ClearFulfilledRequests (e : Env) (w : World) : World :=
  if negb (lockRecv e) then w
  else
    foldl (fun w pnode =>
             RemoveFulfilledRequest (addr pnode) full_sync
               (RemoveFulfilledRequest (addr pnode) znode_payment_sync
                  (RemoveFulfilledRequest (addr pnode) znode_list_sync
                     (RemoveFulfilledRequest (addr pnode) spork_sync w))))
          w (vNodes w).

(** A call either returns or throws [std::runtime_error]. *)
Inductive Exc (A : Type) :=
| Ok (a : A)
| runtime_error (what : string).
Arguments Ok {A} a.
Arguments runtime_error {A} what.

(** Lines 218-219, the statements after the [switch]. *)
Definition after_switch (e : Env) (w : World) : World :=
  with_sync (fun s => set_started (GetTime e) (set_attempt 0 s)) w.

Definition SwitchToNextAsset (e : Env) (w : World) : Exc World :=
  match nRequestedZnodeAssets (sync w) with
  | ZNODE_SYNC_FAILED =>
    runtime_error "Can't switch to next asset from failed, should use Reset() first!"
  | ZNODE_SYNC_INITIAL =>
    Ok (after_switch e
          (with_sync (set_assets ZNODE_SYNC_SPORKS) (ClearFulfilledRequests e w)))
  | ZNODE_SYNC_SPORKS =>
    Ok (after_switch e
          (with_sync (fun s => set_assets ZNODE_SYNC_LIST
                                 (set_lastZnodeList (GetTime e) s)) w))
  | ZNODE_SYNC_LIST =>
    Ok (after_switch e
          (with_sync (fun s => set_assets ZNODE_SYNC_MNW
                                 (set_lastPaymentVote (GetTime e) s)) w))
  | ZNODE_SYNC_MNW =>
    let w := with_sync (fun s => set_assets ZNODE_SYNC_FINISHED
                                   (set_lastGovernanceItem (GetTime e) s)) w in
    (* try to activate our znode if possible *)
    let w := emit ManageState w in
    if negb (lockRecv e) then Ok w     (* if (!lockRecv) return; *)
    else
      Ok (after_switch e
            (foldl (fun w pnode => AddFulfilledRequest (addr pnode) full_sync w)
                   w (vNodes w)))
  | ZNODE_SYNC_GOVERNANCE | ZNODE_SYNC_FINISHED =>
    (* no case of the switch applies *)
    Ok (after_switch e w)
  end.

(** ** UpdatedBlockTip (lines 528-530) and ProcessMessage (lines 243-255) *)

Definition set_pCurrentBlockIndex (p : option CBlockIndex) (s : CZnodeSync) : CZnodeSync :=
  {| nRequestedZnodeAssets := nRequestedZnodeAssets s;
     nRequestedZnodeAttempt := nRequestedZnodeAttempt s;
     nTimeAssetSyncStarted := nTimeAssetSyncStarted s;
     nTimeLastZnodeList := nTimeLastZnodeList s;
     nTimeLastPaymentVote := nTimeLastPaymentVote s;
     nTimeLastGovernanceItem := nTimeLastGovernanceItem s;
     nTimeLastFailure := nTimeLastFailure s;
     nCountFailures := nCountFailures s;
     pCurrentBlockIndex := p |}.

Definition UpdatedBlockTip (pindex : option CBlockIndex) (w : World) : World :=
  with_sync (set_pCurrentBlockIndex pindex) w.

(** The status-count message is read and logged; nothing is stored. *)
Definition ProcessMessage (w : World) : World := w.

(** ** ProcessTick (lines 270-514) *)

(** How the body of the peer loop ends for one peer: [continue] (or the end
    of the body), [return], or an exception escaping [SwitchToNextAsset]. *)
Inductive Flow :=
| Continue (w : World)
| Return (w : World)
| Throw (what : string).

(** [SwitchToNextAsset(); ReleaseNodeVector(vNodesCopy); return;] *)
Definition switch_and_return (e : Env) (w : World) : Flow :=
  match SwitchToNextAsset e w with
  | Ok w' => Return w'
  | runtime_error what => Throw what
  end.

(** [nRequestedZnodeAttempt++] *)
Definition incr_attempt (w : World) : World :=
  with_sync (fun s => set_attempt (nRequestedZnodeAttempt s + 1) s) w.

(** The body of the loop over the peer snapshot, lines 326-510. *)
Definition peer_body (e : Env) (pnode : CNode) (w : World) : Flow :=
  if fZnode pnode || (fZNode e && fInbound pnode) then Continue w
  else if regtest e then
    (* QUICK MODE (REGTEST ONLY!) *)
    let a := nRequestedZnodeAttempt (sync w) in
    let w :=
      if a <=? 2 then emit (PushMessage (node_id pnode) GETSPORKS) w
      else if a <? 4 then emit (DsegUpdate (node_id pnode)) w
      else if a <? 6 then
        (* SendGovernanceSyncRequest has an empty body *)
        emit (PushMessage (node_id pnode) (ZNODEPAYMENTSYNC (CountZnodes e))) w
      else with_sync (set_assets ZNODE_SYNC_FINISHED) w in
    Return (incr_attempt w)
  else if HasFulfilledRequest (addr pnode) full_sync w then
    Continue (disconnect pnode w)
  else if negb (HasFulfilledRequest (addr pnode) spork_sync w) then
    Continue (emit (PushMessage (node_id pnode) GETSPORKS)
                (AddFulfilledRequest (addr pnode) spork_sync w))
  else
    match nRequestedZnodeAssets (sync w) with
    | ZNODE_SYNC_LIST =>
      if nTimeLastZnodeList (sync w) <? GetTime e - ZNODE_SYNC_TIMEOUT_SECONDS then
        if nRequestedZnodeAttempt (sync w) =? 0 then Return (Fail e w)
        else switch_and_return e w
      else if HasFulfilledRequest (addr pnode) znode_list_sync w then Continue w
      else
        let w := AddFulfilledRequest (addr pnode) znode_list_sync w in
        if nVersion pnode <? GetMinZnodePaymentsProto e then Continue w
        else Return (emit (DsegUpdate (node_id pnode)) (incr_attempt w))
    | ZNODE_SYNC_MNW =>
      if nTimeLastPaymentVote (sync w) <? GetTime e - ZNODE_SYNC_TIMEOUT_SECONDS then
        if nRequestedZnodeAttempt (sync w) =? 0 then Return (Fail e w)
        else switch_and_return e w
      else if (nRequestedZnodeAttempt (sync w) >? 1) && IsEnoughData e then
        switch_and_return e w
      else if HasFulfilledRequest (addr pnode) znode_payment_sync w then Continue w
      else
        let w := AddFulfilledRequest (addr pnode) znode_payment_sync w in
        if nVersion pnode <? GetMinZnodePaymentsProto e then Continue w
        else
          Return (emit (RequestLowDataPaymentBlocks (node_id pnode))
                    (emit (PushMessage (node_id pnode)
                             (ZNODEPAYMENTSYNC (GetStorageLimit e)))
                       (incr_attempt w)))
    | _ => Continue w
    end.

(** The loop over [vNodesCopy], lines 324-513. *)
Fixpoint ProcessTick_peers (e : Env) (vNodesCopy : list CNode) (w : World) : Exc World :=
  match vNodesCopy with
  | [] => Ok w
  | pnode :: rest =>
    match peer_body e pnode w with
    | Continue w' => ProcessTick_peers e rest w'
    | Return w' => Ok w'
    | Throw what => runtime_error what
    end
  end.

(** The part of the tick before the peer loop, lines 271-320: either the
    tick returns there, or it goes on to the loop. *)
Inductive Setup :=
| Returned (w : World)
| Proceed (w : World).

(** Lines 313-315. *)
Definition refresh_timestamps (e : Env) (w : World) : World :=
  with_sync (fun s => set_lastGovernanceItem (GetTime e)
                        (set_lastPaymentVote (GetTime e)
                           (set_lastZnodeList (GetTime e) s))) w.

(** Lines 306-320: the chain-sync gating and the phase bootstrap.  The tick
    calls [IsBlockchainSynced()] without argument: [fBlockAccepted] takes
    its default [false] (declared in the absent znode-sync.h; [true] is what
    the block-accepted notification passes). *)
Definition ProcessTick_bootstrap (e : Env) (w : World) : Exc Setup :=
  (* line 312: the gate is evaluated only outside regtest, and the asset is
     compared after the call *)
  let '(wait, w) :=
    if regtest e then (false, w)
    else
      let '(synced, w') := IsBlockchainSynced false e w in
      (negb synced
       && (asset_code (nRequestedZnodeAssets (sync w'))
           >? asset_code ZNODE_SYNC_SPORKS), w') in
  if wait then Ok (Returned (refresh_timestamps e w))
  else
    (* line 318 *)
    let '(advance, w) :=
      if bool_decide (nRequestedZnodeAssets (sync w) = ZNODE_SYNC_INITIAL)
      then (true, w)
      else if bool_decide (nRequestedZnodeAssets (sync w) = ZNODE_SYNC_SPORKS)
      then IsBlockchainSynced false e w
      else (false, w) in
    if advance then
      match SwitchToNextAsset e w with
      | Ok w' => Ok (Proceed w')
      | runtime_error what => runtime_error what
      end
    else Ok (Proceed w).

(** Lines 271-320. *)
Definition ProcessTick_setup (e : Env) (w : World) : Exc Setup :=
  let tick := nTick w in
  let w := with_nTick (tick + 1) w in
  if negb (Z.rem tick ZNODE_SYNC_TICK_SECONDS =? 0) then Ok (Returned w)
  else if negb (bool_decide (is_Some (pCurrentBlockIndex (sync w)))) then Ok (Returned w)
  else
    let nMnCount := CountZnodes e in
    (* RESET SYNCING INCASE OF FAILURE *)
    if IsSynced w && negb (nMnCount =? 0) then Ok (Returned w)
    else
      let w := if IsSynced w then Reset e w else w in
      if IsFailed w then
        Ok (Returned (if nTimeLastFailure (sync w) + 1 * 60 <? GetTime e
                      then Reset e w else w))
      else ProcessTick_bootstrap e w.

(** The tick: the setup, then the loop over a copy of the peer list. *)
Definition ProcessTick (e : Env) (w : World) : Exc World :=
  match ProcessTick_setup e w with
  | Ok (Returned w') => Ok w'
  | Ok (Proceed w') => ProcessTick_peers e (vNodes w') w'
  | runtime_error what => runtime_error what
  end.

(** ** Running several ticks *)

Fixpoint run_ticks (es : list Env) (w : World) : Exc World :=
  match es with
  | [] => Ok w
  | e :: rest =>
    match ProcessTick e w with
    | Ok w' => run_ticks rest w'
    | runtime_error what => runtime_error what
    end
  end.

(** A tick that does work: every [ZNODE_SYNC_TICK_SECONDS]-th invocation,
    with a chain index present (lines 272-273). *)
Definition working_tick (w : World) : Prop :=
  Z.rem (nTick w) ZNODE_SYNC_TICK_SECONDS = 0 ∧ is_Some (pCurrentBlockIndex (sync w)).

(** The only thing every invocation does: [nTick++]. *)
Definition tick_counted (w : World) : World := with_nTick (nTick w + 1) w.

(** The events a call appended to the trace. *)
Definition new_events (w w' : World) : list Event :=
  drop (length (trace w)) (trace w').

(** ** Sample configurations

    Concrete peers, environments and states on which the properties below
    are exercised. *)
Module Sample.

Definition tip : CBlockIndex := {| nHeight := 100; GetBlockTime := 900 |}.

(** Peer 2 lags two blocks behind, peer 3 announced three more headers
    than we have blocks, peer 4 has an unknown common height, nothing is
    known about peer 9; every other peer is at our height. *)
Definition stats_of (i : Z) : option CNodeStateStats :=
  if i =? 2 then Some {| nCommonHeight := 98; nSyncHeight := 100 |}
  else if i =? 3 then Some {| nCommonHeight := 100; nSyncHeight := 103 |}
  else if i =? 4 then Some {| nCommonHeight := -1; nSyncHeight := 100 |}
  else if i =? 9 then None
  else Some {| nCommonHeight := 100; nSyncHeight := 100 |}.

(** An environment at time [now]; [rt] is the regtest mode, [lk] the
    outcome of the try-lock, [n] the roster size. *)
Definition env (now : Z) (rt lk : bool) (n : Z) : Env :=
  {| GetTime := now; regtest := rt; fZNode := false;
     fImporting := false; fReindex := false; fCheckpointsEnabled := false;
     pindexBestHeader := Some tip; GetTotalBlocksEstimate := 0;
     MaxTipAge := 3600; GetNodeStateStats := stats_of; CountZnodes := n;
     IsEnoughData := true; GetMinZnodePaymentsProto := 90000;
     GetStorageLimit := 5000; lockRecv := lk; ZNODE_SYNC_ENOUGH_PEERS := 6 |}.

Definition peer (i : Z) : CNode :=
  {| node_id := i; addr := 100 + i; nVersion := 90026;
     fZnode := false; fInbound := false; fDisconnect := false |}.

(** A coordinator in asset [a] after [attempt] requests, all phase
    timestamps at [t] and the last failure at [tf]. *)
Definition coordinator (a : Asset) (attempt t tf : Z) : CZnodeSync :=
  {| nRequestedZnodeAssets := a; nRequestedZnodeAttempt := attempt;
     nTimeAssetSyncStarted := t; nTimeLastZnodeList := t;
     nTimeLastPaymentVote := t; nTimeLastGovernanceItem := t;
     nTimeLastFailure := tf; nCountFailures := 0;
     pCurrentBlockIndex := Some tip |}.

(** A gate that memoized [synced] at time [t]. *)
Definition statics (synced : bool) (t : Z) : GateStatics :=
  {| fBlockchainSynced := synced; nTimeLastProcess := Some t;
     nSkipped := 0; fFirstBlockAccepted := true |}.

Definition world (s : CZnodeSync) (g : GateStatics) (nodes : list CNode)
    (F : gset (Z * string)) : World :=
  {| sync := s; gate := g; nTick := 0; vNodes := nodes; fulfilled := F; trace := [] |}.

End Sample.

(** ** Vocabulary of the properties *)

(** The gate found more than an hour between two evaluations (line 54). *)
Definition idle (e : Env) (w : World) : Prop :=
  GetTime e - last_process e w > 60 * 60.

(** The chain references of line 60 are usable. *)
Definition chain_ready (e : Env) (w : World) : Prop :=
  is_Some (pCurrentBlockIndex (sync w)) ∧ is_Some (pindexBestHeader e)
  ∧ fImporting e = false ∧ fReindex e = false.

(** The idle-reset property as the specification words it: an evaluation
    more than an hour after the previous one answers not-synced and leaves
    the memoized flag cleared. *)
Definition idle_reset_as_stated (fb : bool) (e : Env) (w : World) : Prop :=
  idle e w →
  (IsBlockchainSynced fb e w).1 = false
  ∧ fBlockchainSynced (gate (IsBlockchainSynced fb e w).2) = false.

(** The restart branch as the specification words it: with a block just
    accepted, the branch of lines 64-71 is taken exactly when the phase is
    neither Finished nor Failed. *)
Definition restart_branch_as_stated (e : Env) (w : World) : Prop :=
  gate_exit true e w = ExitRestart
  ↔ nRequestedZnodeAssets (sync w) ≠ ZNODE_SYNC_FINISHED
    ∧ nRequestedZnodeAssets (sync w) ≠ ZNODE_SYNC_FAILED.

(** The cooldown as the specification words it: in the Failed phase a tick
    earlier than 60 seconds after the failure only counts the tick, and a
    tick at or after that time performs the full reset. *)
Definition cooldown_as_stated (e : Env) (w : World) : Prop :=
  nRequestedZnodeAssets (sync w) = ZNODE_SYNC_FAILED →
  working_tick w →
  (GetTime e < nTimeLastFailure (sync w) + 60 →
   ProcessTick e w = Ok (tick_counted w))
  ∧ (nTimeLastFailure (sync w) + 60 ≤ GetTime e →
     ProcessTick e w = Ok (Reset e (tick_counted w))).

(** A peer the loop does not skip as a znode connection (line 330). *)
Definition sync_source (e : Env) (p : CNode) : Prop :=
  fZnode p = false ∧ (fZNode e && fInbound p) = false.

(** A sync source we have not fully synced from already (line 352). *)
Definition eligible (e : Env) (w : World) (p : CNode) : Prop :=
  sync_source e p ∧ (addr p, full_sync) ∉ fulfilled w.

(** The peer addressed by a phase-specific request: a roster refresh or a
    payment-vote sync. *)
Definition phase_specific_target (ev : Event) : option Z :=
  match ev with
  | DsegUpdate i => Some i
  | PushMessage i (ZNODEPAYMENTSYNC _) => Some i
  | RequestLowDataPaymentBlocks i => Some i
  | PushMessage _ GETSPORKS => None
  | ManageState => None
  end.

(** The peers addressed by the phase-specific requests of a trace. *)
Definition phase_specific_targets (evs : list Event) : list Z :=
  omap phase_specific_target evs.

(** The state in which the setup of a tick ends. *)
Definition setup_world (r : Setup) : World :=
  match r with Returned w | Proceed w => w end.

(** The pacing property as the specification words it: at most one peer
    gets a phase-specific request, and every eligible peer of the snapshot
    that is not yet recorded for the sporks is asked for them in the same
    tick. *)
Definition one_request_as_stated (e : Env) (w : World) : Prop :=
  regtest e = false → working_tick w →
  ∀ w', ProcessTick e w = Ok w' →
  (∀ i j, i ∈ phase_specific_targets (new_events w w') →
          j ∈ phase_specific_targets (new_events w w') → i = j)
  ∧ (∀ p, p ∈ vNodes w → eligible e w p → (addr p, spork_sync) ∉ fulfilled w →
          PushMessage (node_id p) GETSPORKS ∈ new_events w w').

(** The shortcut as the specification words it: payment phase, more than
    one attempt, enough data, no timeout; then the next working tick
    finishes the sync whatever the peer snapshot holds. *)
Definition sufficiency_shortcut_as_stated (e : Env) (w : World) : Prop :=
  working_tick w →
  nRequestedZnodeAssets (sync w) = ZNODE_SYNC_MNW →
  nRequestedZnodeAttempt (sync w) > 1 →
  IsEnoughData e = true →
  GetTime e - ZNODE_SYNC_TIMEOUT_SECONDS ≤ nTimeLastPaymentVote (sync w) →
  ∃ w', ProcessTick e w = Ok w'
        ∧ nRequestedZnodeAssets (sync w') = ZNODE_SYNC_FINISHED.

(** The resync guard as the specification words it: the tick of a finished
    coordinator with an empty roster performs the full reset and returns,
    so that the phase at the end of the tick is Initial. *)
Definition resync_as_stated (e : Env) (w : World) : Prop :=
  working_tick w →
  nRequestedZnodeAssets (sync w) = ZNODE_SYNC_FINISHED →
  CountZnodes e = 0 →
  ∃ w', ProcessTick e w = Ok w'
        ∧ nRequestedZnodeAssets (sync w') = ZNODE_SYNC_INITIAL.

(** An operation left the failure counter alone or set it to 0. *)
Definition count_kept (w w' : World) : Prop :=
  nCountFailures (sync w') = nCountFailures (sync w) ∨ nCountFailures (sync w') = 0.

(** The operations of the coordinator, and what its collaborators may do
    between two of them (connect and drop peers, expire ledger records). *)
Inductive step : World → World → Prop :=
| step_ProcessTick e w w' : ProcessTick e w = Ok w' → step w w'
| step_IsBlockchainSynced fb e w : step w (IsBlockchainSynced fb e w).2
| step_UpdatedBlockTip pindex w : step w (UpdatedBlockTip pindex w)
| step_ProcessMessage w : step w (ProcessMessage w)
| step_Reset e w : step w (Reset e w)
| step_Fail e w : step w (Fail e w)
| step_SwitchToNextAsset e w w' : SwitchToNextAsset e w = Ok w' → step w w'
| step_collaborators w w' :
    sync w' = sync w → gate w' = gate w → nTick w' = nTick w → step w w'.

(** The states the coordinator can be in.  Its constructor is declared in
    znode-sync.h, which is not among the sources; the states considered are
    those reached from a reset coordinator. *)
Inductive reachable : World → Prop :=
| reachable_init e w : reachable (Reset e w)
| reachable_step w w' : reachable w → step w w' → reachable w'.

(** ** GetAssetName (lines 145-164) *)

(** The [default] of the source answers "UNKNOWN" for an integer that is
    none of the constants; [Asset] has no such value. *)
Definition GetAssetName (w : World) : string :=
  match nRequestedZnodeAssets (sync w) with
  | ZNODE_SYNC_INITIAL => "ZNODE_SYNC_INITIAL"
  | ZNODE_SYNC_SPORKS => "ZNODE_SYNC_SPORKS"
  | ZNODE_SYNC_LIST => "ZNODE_SYNC_LIST"
  | ZNODE_SYNC_MNW => "ZNODE_SYNC_MNW"
  | ZNODE_SYNC_GOVERNANCE => "ZNODE_SYNC_GOVERNANCE"
  | ZNODE_SYNC_FAILED => "ZNODE_SYNC_FAILED"
  | ZNODE_SYNC_FINISHED => "ZNODE_SYNC_FINISHED"
  end.

(** ** Vocabulary of the further properties *)

(** The peer passes the height check of the gate (line 103). *)
Definition at_same_height (e : Env) (cur : CBlockIndex) (p : CNode) : bool :=
  (CheckNodeHeight e cur p false).1.

(** How many peers of a list pass the height check. *)
Definition count_at_same_height (e : Env) (cur : CBlockIndex) (nodes : list CNode) : Z :=
  Z.of_nat (length (List.filter (at_same_height e cur) nodes)).

(** The labels that [ClearFulfilledRequests] removes. *)
Definition sync_labels : list string :=
  [spork_sync; znode_list_sync; znode_payment_sync; full_sync].

(** The asset after a call of [SwitchToNextAsset] that returns. *)
Definition next_asset (a : Asset) : Asset :=
  match a with
  | ZNODE_SYNC_INITIAL => ZNODE_SYNC_SPORKS
  | ZNODE_SYNC_SPORKS => ZNODE_SYNC_LIST
  | ZNODE_SYNC_LIST => ZNODE_SYNC_MNW
  | ZNODE_SYNC_MNW => ZNODE_SYNC_FINISHED
  | a => a
  end.

(** The phase at hand has been without news for longer than the timeout
    (lines 375 and 409). *)
Definition timed_out (e : Env) (w : World) : Prop :=
  match nRequestedZnodeAssets (sync w) with
  | ZNODE_SYNC_LIST =>
    nTimeLastZnodeList (sync w) < GetTime e - ZNODE_SYNC_TIMEOUT_SECONDS
  | ZNODE_SYNC_MNW =>
    nTimeLastPaymentVote (sync w) < GetTime e - ZNODE_SYNC_TIMEOUT_SECONDS
  | _ => False
  end.

(** The ways the normal-mode loop returns at a peer [r] before the end of
    the snapshot, by what the call left behind: [w] is the state before,
    [w'] the state after, [evs] the events in between.  Either [r] got the
    roster or payment request of the phase (lines 393-399, 437-446); or
    nothing phase-specific was sent and the phase timed out without an
    attempt (Failed, lines 377-383 and 411-417), the roster timed out after
    attempts (on to the payment votes, line 384), or the payment phase timed
    out after attempts or has enough data (Finished, lines 418 and 426-430). *)
Definition returned_early (e : Env) (w w' : World) (r : CNode) (evs : list Event) : Prop :=
  ((nRequestedZnodeAssets (sync w') = ZNODE_SYNC_LIST
    ∨ nRequestedZnodeAssets (sync w') = ZNODE_SYNC_MNW)
   ∧ ¬ timed_out e w'
   ∧ GetMinZnodePaymentsProto e ≤ nVersion r
   ∧ phase_specific_targets evs ≠ []
   ∧ ∀ i, i ∈ phase_specific_targets evs → i = node_id r)
  ∨ (phase_specific_targets evs = []
     ∧ ((timed_out e w ∧ nRequestedZnodeAttempt (sync w) = 0
         ∧ nRequestedZnodeAssets (sync w') = ZNODE_SYNC_FAILED)
        ∨ (nRequestedZnodeAssets (sync w) = ZNODE_SYNC_LIST
           ∧ timed_out e w ∧ nRequestedZnodeAttempt (sync w) ≠ 0
           ∧ nRequestedZnodeAssets (sync w') = ZNODE_SYNC_MNW)
        ∨ (nRequestedZnodeAssets (sync w) = ZNODE_SYNC_MNW
           ∧ (timed_out e w ∧ nRequestedZnodeAttempt (sync w) ≠ 0
              ∨ nRequestedZnodeAttempt (sync w) > 1 ∧ IsEnoughData e = true)
           ∧ nRequestedZnodeAssets (sync w') = ZNODE_SYNC_FINISHED))).

(** The assets a tick can leave the coordinator in, by the asset it starts
    from and the network mode, when the gate does no idle reset. *)
Definition tick_successors (rt : bool) (a : Asset) : list Asset :=
  match a with
  | ZNODE_SYNC_INITIAL => [ZNODE_SYNC_INITIAL; ZNODE_SYNC_SPORKS]
  | ZNODE_SYNC_SPORKS =>
    if rt then [ZNODE_SYNC_SPORKS; ZNODE_SYNC_LIST; ZNODE_SYNC_FINISHED]
    else [ZNODE_SYNC_SPORKS; ZNODE_SYNC_LIST]
  | ZNODE_SYNC_LIST =>
    if rt then [ZNODE_SYNC_LIST; ZNODE_SYNC_FINISHED]
    else [ZNODE_SYNC_LIST; ZNODE_SYNC_MNW; ZNODE_SYNC_FAILED]
  | ZNODE_SYNC_MNW =>
    if rt then [ZNODE_SYNC_MNW; ZNODE_SYNC_FINISHED]
    else [ZNODE_SYNC_MNW; ZNODE_SYNC_FINISHED; ZNODE_SYNC_FAILED]
  | ZNODE_SYNC_GOVERNANCE =>
    if rt then [ZNODE_SYNC_GOVERNANCE; ZNODE_SYNC_FINISHED]
    else [ZNODE_SYNC_GOVERNANCE]
  | ZNODE_SYNC_FAILED => [ZNODE_SYNC_FAILED; ZNODE_SYNC_INITIAL]
  | ZNODE_SYNC_FINISHED => [ZNODE_SYNC_FINISHED; ZNODE_SYNC_SPORKS]
  end.

(** The asset the peer loop can end in, from the state it starts in. *)
Definition loop_successor (e : Env) (w : World) (a' : Asset) : Prop :=
  a' = nRequestedZnodeAssets (sync w)
  ∨ (regtest e = true ∧ 6 ≤ nRequestedZnodeAttempt (sync w)
     ∧ a' = ZNODE_SYNC_FINISHED)
  ∨ (regtest e = false ∧ nRequestedZnodeAssets (sync w) = ZNODE_SYNC_LIST
     ∧ timed_out e w ∧ (a' = ZNODE_SYNC_FAILED ∨ a' = ZNODE_SYNC_MNW))
  ∨ (regtest e = false ∧ nRequestedZnodeAssets (sync w) = ZNODE_SYNC_MNW
     ∧ (a' = ZNODE_SYNC_FAILED ∨ a' = ZNODE_SYNC_FINISHED)).

(** The peer [q'] is the peer [q], possibly marked for disconnection. *)
Definition flag_raised (q q' : CNode) : Prop :=
  q' = q ∨ q' = set_fDisconnect true q.

(** What holds of the coordinator in every reachable state: the attempt
    counter is not negative and the disabled governance asset is not
    entered. *)
Definition well_formed (s : CZnodeSync) : Prop :=
  0 ≤ nRequestedZnodeAttempt s
  ∧ nRequestedZnodeAssets s ≠ ZNODE_SYNC_GOVERNANCE.

(** The request of the regtest quick mode at a given attempt counter; none
    from 6 on. *)
Definition quick_request (e : Env) (attempt : Z) (peer : Z) : list Event :=
  if attempt <=? 2 then [PushMessage peer GETSPORKS]
  else if attempt <? 4 then [DsegUpdate peer]
  else if attempt <? 6 then [PushMessage peer (ZNODEPAYMENTSYNC (CountZnodes e))]
  else [].

(** * Properties *)

(** ** Basic facts on the state updates *)

(** Case analysis on the integer comparisons of the goal. *)
Ltac zcmp :=
  repeat match goal with
  | |- context [?a >? ?b] => rewrite (Z.gtb_ltb a b)
  | |- context [?a >=? ?b] => rewrite (Z.geb_leb a b)
  | |- context [?a <? ?b] => destruct (Z.ltb_spec a b); try lia
  | |- context [?a <=? ?b] => destruct (Z.leb_spec a b); try lia
  | |- context [?a =? ?b] => destruct (Z.eqb_spec a b); try lia
  end.

Lemma working_tick_rem w :
  working_tick w → negb (Z.rem (nTick w) ZNODE_SYNC_TICK_SECONDS =? 0) = false.
Proof. intros [-> _]. reflexivity. Qed.

Lemma working_tick_index w :
  working_tick w →
  negb (bool_decide (is_Some (pCurrentBlockIndex (sync (with_nTick (nTick w + 1) w))))) = false.
Proof. intros [_ H]. simpl. by rewrite bool_decide_true. Qed.

(** ** CheckNodeHeight *)

Lemma CheckNodeHeight_keeps_peer e cur pnode :
  (CheckNodeHeight e cur pnode false).2 = pnode.
Proof.
  unfold CheckNodeHeight.
  destruct (GetNodeStateStats e (node_id pnode)) as [stats|]; [|done].
  repeat case_match; done.
Qed.

(** C7. The peer health check, case by case: without usable statistics the
    answer is [false] and the peer is left alone; a peer whose common height
    is more than one block below the local height gets [false], and its
    disconnect flag is written exactly when [fDisconnectStuckNodes] is set:
    the flag is then [true] after the call, it keeps its value otherwise,
    and no other field of the peer changes; a peer that announced a sync
    height more than one block above the local height gets [false] and is
    left alone; every other peer gets [true]. *)
Theorem C7_CheckNodeHeight_classification
    (e : Env) (cur : CBlockIndex) (pnode : CNode) (fDisconnectStuckNodes : bool) :
  (* statistics unavailable, or a height of -1 *)
  ((GetNodeStateStats e (node_id pnode) = None
    ∨ ∃ stats, GetNodeStateStats e (node_id pnode) = Some stats
               ∧ (nCommonHeight stats = -1 ∨ nSyncHeight stats = -1)) →
   CheckNodeHeight e cur pnode fDisconnectStuckNodes = (false, pnode))
  ∧ (∀ stats,
      GetNodeStateStats e (node_id pnode) = Some stats →
      nCommonHeight stats ≠ -1 → nSyncHeight stats ≠ -1 →
      (* stuck peer *)
      (nHeight cur - nCommonHeight stats > 1 →
       CheckNodeHeight e cur pnode fDisconnectStuckNodes
       = (false, if fDisconnectStuckNodes then set_fDisconnect true pnode else pnode)
       (* the flag of the peer after the call, and its other fields *)
       ∧ (fDisconnectStuckNodes = true →
          fDisconnect (CheckNodeHeight e cur pnode fDisconnectStuckNodes).2 = true)
       ∧ (fDisconnectStuckNodes = false →
          fDisconnect (CheckNodeHeight e cur pnode fDisconnectStuckNodes).2
          = fDisconnect pnode)
       ∧ node_id (CheckNodeHeight e cur pnode fDisconnectStuckNodes).2 = node_id pnode
       ∧ addr (CheckNodeHeight e cur pnode fDisconnectStuckNodes).2 = addr pnode
       ∧ nVersion (CheckNodeHeight e cur pnode fDisconnectStuckNodes).2 = nVersion pnode
       ∧ fZnode (CheckNodeHeight e cur pnode fDisconnectStuckNodes).2 = fZnode pnode
       ∧ fInbound (CheckNodeHeight e cur pnode fDisconnectStuckNodes).2 = fInbound pnode)
      (* peer that announced more headers than we have blocks *)
      ∧ (nHeight cur - nCommonHeight stats ≤ 1 →
         nSyncHeight stats - nHeight cur > 1 →
         CheckNodeHeight e cur pnode fDisconnectStuckNodes = (false, pnode))
      (* healthy peer *)
      ∧ (nHeight cur - nCommonHeight stats ≤ 1 →
         nSyncHeight stats - nHeight cur ≤ 1 →
         CheckNodeHeight e cur pnode fDisconnectStuckNodes = (true, pnode))).
Proof.
  unfold CheckNodeHeight. split.
  - intros [-> | (stats & -> & Hm)]; [done|].
    destruct Hm as [-> | ->]; simpl; [done|].
    by rewrite orb_true_r.
  - intros stats -> Hc Hs.
    apply Z.eqb_neq in Hc, Hs. rewrite Hc, Hs. simpl.
    split; [|split; intros; by zcmp].
    intros Hstuck.
    assert ((nHeight cur - 1 >? nCommonHeight stats) = true) as ->
      by (apply Z.gtb_gt; lia).
    split; [done|]. cbn [snd].
    split; [by intros ->|]. split; [by intros ->|].
    by destruct fDisconnectStuckNodes.
Qed.

Lemma C7_CheckNodeHeight_classification_witness :
  CheckNodeHeight (Sample.env 1000 false true 0) Sample.tip (Sample.peer 9) true
    = (false, Sample.peer 9)
  ∧ fDisconnect (Sample.peer 2) = false
  ∧ fDisconnect
      (CheckNodeHeight (Sample.env 1000 false true 0) Sample.tip (Sample.peer 2) true).2
    = true
  ∧ CheckNodeHeight (Sample.env 1000 false true 0) Sample.tip (Sample.peer 2) true
    = (false, set_fDisconnect true (Sample.peer 2))
  ∧ CheckNodeHeight (Sample.env 1000 false true 0) Sample.tip (Sample.peer 2) false
    = (false, Sample.peer 2)
  ∧ CheckNodeHeight (Sample.env 1000 false true 0) Sample.tip (Sample.peer 3) true
    = (false, Sample.peer 3)
  ∧ CheckNodeHeight (Sample.env 1000 false true 0) Sample.tip (Sample.peer 1) true
    = (true, Sample.peer 1).
Proof.
  refine (conj _ (conj _ (conj _ (conj _ (conj _ (conj _ _)))))).
  - apply (proj1 (C7_CheckNodeHeight_classification
             (Sample.env 1000 false true 0) Sample.tip (Sample.peer 9) true)).
    left. reflexivity.
  - reflexivity.
  - destruct (proj2 (C7_CheckNodeHeight_classification
             (Sample.env 1000 false true 0) Sample.tip (Sample.peer 2) true)
             {| nCommonHeight := 98; nSyncHeight := 100 |})
      as (Hstuck & _ & _); [reflexivity | simpl; lia | simpl; lia |].
    destruct Hstuck as (_ & Hflag & _); [simpl; lia|].
    exact (Hflag eq_refl).
  - destruct (proj2 (C7_CheckNodeHeight_classification
             (Sample.env 1000 false true 0) Sample.tip (Sample.peer 2) true)
             {| nCommonHeight := 98; nSyncHeight := 100 |})
      as (Hstuck & _ & _); [reflexivity | simpl; lia | simpl; lia |].
    apply Hstuck. simpl. lia.
  - destruct (proj2 (C7_CheckNodeHeight_classification
             (Sample.env 1000 false true 0) Sample.tip (Sample.peer 2) false)
             {| nCommonHeight := 98; nSyncHeight := 100 |})
      as (Hstuck & _ & _); [reflexivity | simpl; lia | simpl; lia |].
    apply Hstuck. simpl. lia.
  - destruct (proj2 (C7_CheckNodeHeight_classification
             (Sample.env 1000 false true 0) Sample.tip (Sample.peer 3) true)
             {| nCommonHeight := 100; nSyncHeight := 103 |})
      as (_ & Hahead & _); [reflexivity | simpl; lia | simpl; lia |].
    apply Hahead; simpl; lia.
  - destruct (proj2 (C7_CheckNodeHeight_classification
             (Sample.env 1000 false true 0) Sample.tip (Sample.peer 1) true)
             {| nCommonHeight := 100; nSyncHeight := 100 |})
      as (_ & _ & Hok); [reflexivity | simpl; lia | simpl; lia |].
    apply Hok; simpl; lia.
Defined.

(** ** SwitchToNextAsset *)

(** The transition function throws from Failed and nowhere else. *)
Lemma SwitchToNextAsset_returns e w :
  nRequestedZnodeAssets (sync w) ≠ ZNODE_SYNC_FAILED →
  ∃ w', SwitchToNextAsset e w = Ok w'.
Proof.
  intros H. unfold SwitchToNextAsset.
  destruct (nRequestedZnodeAssets (sync w)); try done; eauto.
  destruct (negb (lockRecv e)); eauto.
Qed.

(** Whenever the statements after the [switch] are reached, that is from
    every asset but Failed, and from the payment votes only when the
    try-lock on the peer list succeeds, the attempt counter is 0 and the
    phase start is stamped. *)
Lemma SwitchToNextAsset_resets_attempt e w w' :
  SwitchToNextAsset e w = Ok w' →
  nRequestedZnodeAssets (sync w) ≠ ZNODE_SYNC_MNW ∨ lockRecv e = true →
  nRequestedZnodeAttempt (sync w') = 0 ∧ nTimeAssetSyncStarted (sync w') = GetTime e.
Proof.
  unfold SwitchToNextAsset. intros H Hl.
  destruct (nRequestedZnodeAssets (sync w)) eqn:Ha; try done;
    try (injection H as <-; done).
  destruct Hl as [Hl | Hl]; [done|]. rewrite Hl in H. simpl in H. by injection H as <-.
Qed.

(** C3. From the payment votes, when the try-lock on the peer list fails,
    the transition function sets the asset to Finished, stamps the
    governance timestamp, runs the activation and then returns at line 209:
    the attempt counter and the phase start keep their old values. *)
Theorem C3_SwitchToNextAsset_lock_failure_keeps_attempt (e : Env) (w : World) :
  nRequestedZnodeAssets (sync w) = ZNODE_SYNC_MNW →
  lockRecv e = false →
  ∃ w', SwitchToNextAsset e w = Ok w'
        ∧ nRequestedZnodeAssets (sync w') = ZNODE_SYNC_FINISHED
        ∧ nTimeLastGovernanceItem (sync w') = GetTime e
        ∧ trace w' = trace w ++ [ManageState]
        ∧ fulfilled w' = fulfilled w
        ∧ nRequestedZnodeAttempt (sync w') = nRequestedZnodeAttempt (sync w)
        ∧ nTimeAssetSyncStarted (sync w') = nTimeAssetSyncStarted (sync w).
Proof.
  intros Ha Hl. unfold SwitchToNextAsset. rewrite Ha, Hl. simpl.
  eexists. split; [reflexivity|]. done.
Qed.

Lemma C3_SwitchToNextAsset_lock_failure_keeps_attempt_witness :
  ∃ w', SwitchToNextAsset (Sample.env 1000 false false 5)
          (Sample.world (Sample.coordinator ZNODE_SYNC_MNW 3 990 0)
             (Sample.statics true 995) [Sample.peer 1] ∅) = Ok w'
        ∧ nRequestedZnodeAssets (sync w') = ZNODE_SYNC_FINISHED
        ∧ nRequestedZnodeAttempt (sync w') = 3
        ∧ nTimeAssetSyncStarted (sync w') = 990.
Proof.
  destruct (C3_SwitchToNextAsset_lock_failure_keeps_attempt
              (Sample.env 1000 false false 5)
              (Sample.world (Sample.coordinator ZNODE_SYNC_MNW 3 990 0)
                 (Sample.statics true 995) [Sample.peer 1] ∅))
    as (w' & H1 & H2 & _ & _ & _ & H3 & H4); [reflexivity | reflexivity |].
  exists w'. exact (conj H1 (conj H2 (conj H3 H4))).
Defined.

(** ** The blockchain sync gate *)

(** On entry the gate initialises its statics and, after an hour without
    evaluation, resets the coordinator and clears the memoized flag. *)
Lemma gate_enter_idle e w :
  idle e w →
  gate_enter e w
  = with_gate (set_fBlockchainSynced false)
      (Reset e (with_gate (set_nTimeLastProcess (last_process e w)) w)).
Proof.
  unfold idle, gate_enter. intros Hi.
  by rewrite (proj2 (Z.gtb_gt _ _)) by lia.
Qed.

Lemma gate_enter_not_idle e w :
  ¬ idle e w →
  gate_enter e w = with_gate (set_nTimeLastProcess (last_process e w)) w.
Proof.
  unfold idle, gate_enter. intros Hi.
  destruct (Z.gtb_spec (GetTime e - last_process e w) (60 * 60)); [lia|done].
Qed.

Lemma idle_dec e w : idle e w ∨ ¬ idle e w.
Proof. unfold idle. lia. Qed.

Lemma gate_enter_forgets_memo e w memo :
  idle e w →
  gate_enter e (with_gate (set_fBlockchainSynced memo) w) = gate_enter e w.
Proof.
  intros Hi. rewrite !gate_enter_idle by done. by destruct w as [s [] n v F t].
Qed.

(** The decision part of the gate only writes the statics. *)
Lemma gate_decide_frame fb e w :
  let w' := (gate_decide fb e w).2 in
  sync w' = sync w ∧ nTick w' = nTick w ∧ vNodes w' = vNodes w
  ∧ fulfilled w' = fulfilled w ∧ trace w' = trace w.
Proof.
  unfold gate_decide. repeat case_match; simplify_eq; done.
Qed.

(** The gate touches the coordinator only through the idle reset, and never
    the peers, the ledger, the trace or the tick counter. *)
Lemma gate_frame fb e w :
  let w' := (IsBlockchainSynced_run fb e w).2 in
  nTick w' = nTick w ∧ vNodes w' = vNodes w ∧ fulfilled w' = fulfilled w
  ∧ trace w' = trace w.
Proof.
  unfold IsBlockchainSynced_run.
  destruct (gate_decide_frame fb e (gate_enter e w)) as (_ & -> & -> & -> & ->).
  destruct (idle_dec e w) as [Hi|Hi];
    [rewrite gate_enter_idle | rewrite gate_enter_not_idle]; done.
Qed.

Lemma gate_sync_not_idle fb e w :
  ¬ idle e w → sync (IsBlockchainSynced_run fb e w).2 = sync w.
Proof.
  intros Hi. unfold IsBlockchainSynced_run.
  destruct (gate_decide_frame fb e (gate_enter e w)) as (-> & _).
  by rewrite gate_enter_not_idle.
Qed.

Lemma gate_sync_idle fb e w :
  idle e w → sync (IsBlockchainSynced_run fb e w).2 = sync (Reset e w).
Proof.
  intros Hi. unfold IsBlockchainSynced_run.
  destruct (gate_decide_frame fb e (gate_enter e w)) as (-> & _).
  by rewrite gate_enter_idle.
Qed.

Lemma IsBlockchainSynced_unfold fb e w :
  IsBlockchainSynced fb e w
  = ((IsBlockchainSynced_run fb e w).1.2, (IsBlockchainSynced_run fb e w).2).
Proof.
  unfold IsBlockchainSynced. by destruct (IsBlockchainSynced_run fb e w) as [[x b] w'].
Qed.

(** Six peers at our height, an hour and more after the last evaluation:
    the gate resets, clears the flag, evaluates afresh and answers synced. *)
Lemma C4_idle_reset_counterexample :
  ¬ idle_reset_as_stated false (Sample.env 10000 false true 5)
      (Sample.world (Sample.coordinator ZNODE_SYNC_MNW 2 990 0)
         (Sample.statics false 995)
         (map Sample.peer [11; 12; 13; 14; 15; 16]) ∅).
Proof.
  unfold idle_reset_as_stated, idle. intros H.
  destruct H as [H _]; [vm_compute; reflexivity | vm_compute in H; discriminate].
Qed.

(** C4 (amended). An evaluation of the gate more than an hour after the
    previous one performs the full reset of the coordinator and discards
    the memoized flag before it evaluates: the previously memoized value has
    no influence, the value returned is the newly memoized one, it is
    not-synced when a block was just accepted, and it is synced only by a
    fresh evaluation of the current peers (line 113) or of the tip age
    (line 126), with the chain references available. *)
Theorem C4_idle_reset_recomputes (fb : bool) (e : Env) (w : World) :
  idle e w →
  sync (IsBlockchainSynced fb e w).2 = sync (Reset e w)
  ∧ (IsBlockchainSynced fb e w).1 = fBlockchainSynced (gate (IsBlockchainSynced fb e w).2)
  ∧ (fb = true → (IsBlockchainSynced fb e w).1 = false)
  ∧ ((IsBlockchainSynced fb e w).1 = true →
     chain_ready e w
     ∧ (gate_exit fb e w = ExitPeers ∨ gate_exit fb e w = ExitTipAge))
  ∧ (∀ memo, IsBlockchainSynced fb e (with_gate (set_fBlockchainSynced memo) w)
             = IsBlockchainSynced fb e w).
Proof.
  intros Hi. split.
  { rewrite IsBlockchainSynced_unfold. by apply gate_sync_idle. }
  unfold gate_exit, chain_ready. rewrite !IsBlockchainSynced_unfold.
  setoid_rewrite IsBlockchainSynced_unfold.
  unfold IsBlockchainSynced_run.
  assert (∀ memo, gate_decide fb e (gate_enter e (with_gate (set_fBlockchainSynced memo) w))
                  = gate_decide fb e (gate_enter e w)) as Hmemo
    by (intros memo; by rewrite gate_enter_forgets_memo).
  setoid_rewrite Hmemo. clear Hmemo.
  rewrite !gate_enter_idle by done.
  assert ((GetTime e - last_process e w <? ZNODE_SYNC_TICK_SECONDS) = false)
    as Hlt by (apply Z.ltb_ge; unfold idle, ZNODE_SYNC_TICK_SECONDS in *; lia).
  unfold gate_decide. cbn. fold (last_process e w). rewrite Hlt, andb_false_r.
  destruct (pCurrentBlockIndex (sync w)) as [cur|], (pindexBestHeader e) as [best|];
    cbn; try done.
  destruct (fImporting e), (fReindex e); cbn; try done.
  destruct fb; cbn; [done|].
  repeat case_match; simplify_eq; cbn; repeat split; eauto; try done.
Qed.

Lemma C4_idle_reset_recomputes_witness :
  (IsBlockchainSynced true (Sample.env 10000 false true 5)
     (Sample.world (Sample.coordinator ZNODE_SYNC_MNW 2 990 0)
        (Sample.statics true 995) [] ∅)).1 = false.
Proof.
  destruct (C4_idle_reset_recomputes true (Sample.env 10000 false true 5)
              (Sample.world (Sample.coordinator ZNODE_SYNC_MNW 2 990 0)
                 (Sample.statics true 995) [] ∅))
    as (_ & _ & H & _).
  - unfold idle. vm_compute. reflexivity.
  - exact (H eq_refl).
Defined.

(** In the Failed phase the guard [!IsSynced()] holds and the branch is
    taken. *)
Lemma C6_restart_branch_counterexample :
  ¬ restart_branch_as_stated (Sample.env 1000 false true 5)
      (Sample.world (Sample.coordinator ZNODE_SYNC_FAILED 0 990 990)
         (Sample.statics true 995) [] ∅).
Proof.
  unfold restart_branch_as_stated. intros [H _].
  destruct H as [_ H]; [vm_compute; reflexivity | by apply H].
Qed.

(** C6 (amended). Called with a block just accepted, the gate takes the
    restart branch exactly when the chain references are usable and the
    phase, after the idle reset if there was one, is not Finished; the
    branch marks the first block accepted, clears the memoized flag, stamps
    the last evaluation and answers not-synced.  In particular the branch
    is taken in the Failed phase. *)
Theorem C6_restart_branch (e : Env) (w : World) :
  (gate_exit true e w = ExitRestart
   ↔ chain_ready e w
     ∧ (idle e w ∨ nRequestedZnodeAssets (sync w) ≠ ZNODE_SYNC_FINISHED))
  ∧ (gate_exit true e w = ExitRestart →
     (IsBlockchainSynced true e w).1 = false
     ∧ fFirstBlockAccepted (gate (IsBlockchainSynced true e w).2) = true
     ∧ fBlockchainSynced (gate (IsBlockchainSynced true e w).2) = false
     ∧ nTimeLastProcess (gate (IsBlockchainSynced true e w).2) = Some (GetTime e))
  ∧ (nRequestedZnodeAssets (sync w) = ZNODE_SYNC_FAILED → chain_ready e w →
     gate_exit true e w = ExitRestart).
Proof.
  assert (gate_exit true e w = ExitRestart
          ↔ chain_ready e w
            ∧ (idle e w ∨ nRequestedZnodeAssets (sync w) ≠ ZNODE_SYNC_FINISHED)) as Hiff.
  { unfold gate_exit, IsBlockchainSynced_run, chain_ready.
    destruct (idle_dec e w) as [Hi|Hi];
      [rewrite gate_enter_idle by done | rewrite gate_enter_not_idle by done];
      unfold gate_decide; cbn;
      destruct (pCurrentBlockIndex (sync w)) as [cur|], (pindexBestHeader e) as [best|];
      cbn; try (split; [done | intros [(? & ? & ? & ?) ?]; by eapply is_Some_None]);
      destruct (fImporting e), (fReindex e); cbn;
      try (split; [done | by intros [(? & ? & ? & ?) ?]]).
    - split; [|done]. intros _. split; [by eauto|by left].
    - unfold IsSynced. case_bool_decide as Hs; cbn.
      + split; [by repeat case_match|]. intros [_ [?|?]]; done.
      + split; [|done]. intros _. split; [by eauto|by right]. }
  split; [exact Hiff|]. split.
  - rewrite IsBlockchainSynced_unfold. unfold gate_exit, IsBlockchainSynced_run.
    unfold gate_decide. repeat case_match; simplify_eq; done.
  - intros Hf Hr. apply Hiff. split; [done|]. right. by rewrite Hf.
Qed.

Lemma C6_restart_branch_witness :
  gate_exit true (Sample.env 1000 false true 5)
    (Sample.world (Sample.coordinator ZNODE_SYNC_FAILED 0 990 990)
       (Sample.statics true 995) [] ∅) = ExitRestart.
Proof.
  apply (C6_restart_branch (Sample.env 1000 false true 5)
           (Sample.world (Sample.coordinator ZNODE_SYNC_FAILED 0 990 990)
              (Sample.statics true 995) [] ∅)).
  - reflexivity.
  - unfold chain_ready. cbn. eauto.
Defined.

(** ** The guards of the tick *)

Lemma ProcessTick_not_working e w :
  ¬ working_tick w → ProcessTick e w = Ok (tick_counted w).
Proof.
  unfold working_tick, ProcessTick, ProcessTick_setup. intros Hw.
  destruct (Z.eqb_spec (Z.rem (nTick w) ZNODE_SYNC_TICK_SECONDS) 0) as [Hr|Hr]; cbn; [|done].
  case_bool_decide as Hp; cbn; [|done]. destruct Hw. by split.
Qed.

(** The tick in the Failed phase, lines 298-303. *)
Lemma ProcessTick_failed e w :
  working_tick w →
  nRequestedZnodeAssets (sync w) = ZNODE_SYNC_FAILED →
  ProcessTick e w
  = Ok (if nTimeLastFailure (sync w) + 1 * 60 <? GetTime e
        then Reset e (tick_counted w) else tick_counted w).
Proof.
  intros Hw Hf. unfold ProcessTick, ProcessTick_setup.
  rewrite (working_tick_rem w Hw), (working_tick_index w Hw).
  unfold IsSynced, IsFailed. cbn. rewrite Hf. simpl. rewrite Hf. simpl.
  by destruct (_ <? _).
Qed.

(** Exactly 60 seconds after the failure the tick does not reset. *)
Lemma C2_cooldown_counterexample :
  ¬ cooldown_as_stated (Sample.env 1060 false true 5)
      (Sample.world (Sample.coordinator ZNODE_SYNC_FAILED 0 990 1000)
         (Sample.statics true 995) [] ∅).
Proof.
  unfold cooldown_as_stated. intros H.
  destruct H as [_ H]; [reflexivity | split; [reflexivity | cbn; eauto] |].
  specialize (H ltac:(cbn; lia)). vm_compute in H. discriminate.
Qed.

(** C2 (amended). From a Failed state, ticks up to and including 60 seconds
    after the failure only count the tick: the phase stays Failed and
    nothing else changes.  The first working tick later than 60 seconds
    after the failure performs the full reset and returns. *)
Theorem C2_cooldown (es : list Env) (e : Env) (w : World) :
  nRequestedZnodeAssets (sync w) = ZNODE_SYNC_FAILED →
  (∀ e', e' ∈ es → GetTime e' ≤ nTimeLastFailure (sync w) + 60) →
  ∃ w1, run_ticks es w = Ok w1
        ∧ sync w1 = sync w ∧ gate w1 = gate w ∧ vNodes w1 = vNodes w
        ∧ fulfilled w1 = fulfilled w ∧ trace w1 = trace w
        ∧ nTick w1 = nTick w + Z.of_nat (length es)
        ∧ (working_tick w1 → nTimeLastFailure (sync w) + 60 < GetTime e →
           ProcessTick e w1 = Ok (Reset e (tick_counted w1))).
Proof.
  intros Hf Hes.
  assert (∃ w1, run_ticks es w = Ok w1
        ∧ sync w1 = sync w ∧ gate w1 = gate w ∧ vNodes w1 = vNodes w
        ∧ fulfilled w1 = fulfilled w ∧ trace w1 = trace w
        ∧ nTick w1 = nTick w + Z.of_nat (length es)) as (w1 & Hrun & Hs & Hrest).
  { revert w Hf Hes. induction es as [|e1 es IH]; intros w Hf Hes.
    - exists w. cbn. repeat split; try done. lia.
    - assert (ProcessTick e1 w = Ok (tick_counted w)) as Htick.
      { destruct (decide (Z.rem (nTick w) ZNODE_SYNC_TICK_SECONDS = 0)) as [Hr|Hr];
          [destruct (pCurrentBlockIndex (sync w)) as [cur|] eqn:Hc|].
        - rewrite ProcessTick_failed; [|split; [done|rewrite Hc; eauto]|done].
          specialize (Hes e1 ltac:(left)).
          destruct (Z.ltb_spec (nTimeLastFailure (sync w) + 1 * 60) (GetTime e1)); [lia|done].
        - apply ProcessTick_not_working. intros [_ H]. rewrite Hc in H.
          by eapply is_Some_None.
        - apply ProcessTick_not_working. by intros [H _]. }
      destruct (IH (tick_counted w)) as (w1 & Hrun & Hs & Hg & Hv & HF & Ht & Hn).
      { done. }
      { intros e' He'. apply Hes. by right. }
      exists w1. cbn [run_ticks]. rewrite Htick. repeat split; try done.
      rewrite Hn. cbn. lia. }
  exists w1. repeat split; try tauto.
  intros Hw Hlate. rewrite ProcessTick_failed; [|done|by rewrite Hs].
  rewrite Hs. by rewrite (proj2 (Z.ltb_lt _ _)) by lia.
Qed.

Lemma C2_cooldown_witness :
  ∃ w1, run_ticks [Sample.env 1010 false true 5; Sample.env 1060 false true 5]
          (Sample.world (Sample.coordinator ZNODE_SYNC_FAILED 0 990 1000)
             (Sample.statics true 995) [] ∅) = Ok w1
        ∧ nRequestedZnodeAssets (sync w1) = ZNODE_SYNC_FAILED.
Proof.
  destruct (C2_cooldown
              [Sample.env 1010 false true 5; Sample.env 1060 false true 5]
              (Sample.env 1061 false true 5)
              (Sample.world (Sample.coordinator ZNODE_SYNC_FAILED 0 990 1000)
                 (Sample.statics true 995) [] ∅))
    as (w1 & Hrun & Hs & _).
  - reflexivity.
  - intros e' He'. apply list_elem_of_In in He'. cbn in He'.
    destruct He' as [<- | [<- | []]]; cbn; lia.
  - exists w1. split; [exact Hrun|]. rewrite Hs. reflexivity.
Defined.

(** ** The loop over the peers *)

Lemma HasFulfilledRequest_true a l w :
  HasFulfilledRequest a l w = true ↔ (a, l) ∈ fulfilled w.
Proof. unfold HasFulfilledRequest. by rewrite bool_decide_eq_true. Qed.

Lemma HasFulfilledRequest_false a l w :
  HasFulfilledRequest a l w = false ↔ (a, l) ∉ fulfilled w.
Proof. unfold HasFulfilledRequest. by rewrite bool_decide_eq_false. Qed.

Lemma sync_source_spec e p :
  fZnode p || (fZNode e && fInbound p) = false ↔ sync_source e p.
Proof. unfold sync_source. by rewrite orb_false_iff. Qed.

Lemma foldl_AddFulfilledRequest_frame l nodes w :
  let w' := foldl (fun w pnode => AddFulfilledRequest (addr pnode) l w) w nodes in
  sync w' = sync w ∧ gate w' = gate w ∧ nTick w' = nTick w
  ∧ vNodes w' = vNodes w ∧ trace w' = trace w ∧ fulfilled w ⊆ fulfilled w'.
Proof.
  revert w. induction nodes as [|p nodes IH]; intros w; cbn; [done|].
  destruct (IH (AddFulfilledRequest (addr p) l w)) as (H1 & H2 & H3 & H4 & H5 & HF).
  rewrite H1, H2, H3, H4, H5.
  repeat split; try done. etrans; [|exact HF]. cbn. set_solver.
Qed.

Lemma foldl_RemoveFulfilledRequest_frame nodes w :
  let w' := foldl (fun w pnode =>
             RemoveFulfilledRequest (addr pnode) full_sync
               (RemoveFulfilledRequest (addr pnode) znode_payment_sync
                  (RemoveFulfilledRequest (addr pnode) znode_list_sync
                     (RemoveFulfilledRequest (addr pnode) spork_sync w)))) w nodes in
  sync w' = sync w ∧ gate w' = gate w ∧ nTick w' = nTick w
  ∧ vNodes w' = vNodes w ∧ trace w' = trace w ∧ fulfilled w' ⊆ fulfilled w.
Proof.
  revert w. induction nodes as [|p nodes IH]; intros w; cbn; [done|].
  match goal with |- context [foldl ?f ?w0 nodes] =>
    destruct (IH w0) as (H1 & H2 & H3 & H4 & H5 & HF) end.
  rewrite H1, H2, H3, H4, H5.
  repeat split; try done. etrans; [exact HF|]. cbn. set_solver.
Qed.

Lemma ClearFulfilledRequests_frame e w :
  let w' := ClearFulfilledRequests e w in
  sync w' = sync w ∧ gate w' = gate w ∧ nTick w' = nTick w
  ∧ vNodes w' = vNodes w ∧ trace w' = trace w ∧ fulfilled w' ⊆ fulfilled w.
Proof.
  unfold ClearFulfilledRequests. destruct (negb (lockRecv e)); [done|].
  apply foldl_RemoveFulfilledRequest_frame.
Qed.

Lemma foldl_RemoveFulfilledRequest_spec nodes w a l :
  (a, l) ∈ fulfilled
      (foldl (fun w pnode =>
             RemoveFulfilledRequest (addr pnode) full_sync
               (RemoveFulfilledRequest (addr pnode) znode_payment_sync
                  (RemoveFulfilledRequest (addr pnode) znode_list_sync
                     (RemoveFulfilledRequest (addr pnode) spork_sync w)))) w nodes)
  ↔ (a, l) ∈ fulfilled w ∧ ¬ (a ∈ addr <$> nodes ∧ l ∈ sync_labels).
Proof.
  revert w. induction nodes as [|p nodes IH]; intros w; cbn [foldl].
  - rewrite fmap_nil, elem_of_nil. tauto.
  - rewrite IH, fmap_cons, elem_of_cons.
    unfold RemoveFulfilledRequest, with_fulfilled. cbn [fulfilled].
    unfold sync_labels. rewrite !elem_of_cons, elem_of_nil.
    rewrite !elem_of_difference, !elem_of_singleton.
    split.
    + intros [((((HF & H1) & H2) & H3) & H4) Hn]. split; [done|].
      intros [[-> | Ha] Hl]; [|tauto].
      destruct Hl as [-> | [-> | [-> | [-> | []]]]]; done.
    + intros [HF Hn]. repeat split; try done;
        try (intros [= -> ->]; apply Hn; tauto).
      intros [Ha Hl]. apply Hn. tauto.
Qed.

(** What a [continue] of the loop body can have done: marked the peer for
    disconnection, asked it for the sporks, or recorded a roster or payment
    request that the peer is too old to receive. *)
Lemma peer_body_Continue e p w w' :
  peer_body e p w = Continue w' →
  sync w' = sync w ∧ gate w' = gate w ∧ nTick w' = nTick w
  ∧ fulfilled w ⊆ fulfilled w'
  ∧ (∀ a, (a, full_sync) ∈ fulfilled w' → (a, full_sync) ∈ fulfilled w)
  ∧ (∀ a, (a, spork_sync) ∈ fulfilled w' →
          (a, spork_sync) ∈ fulfilled w
          ∨ (a = addr p ∧ trace w' = trace w ++ [PushMessage (node_id p) GETSPORKS]))
  ∧ (trace w' = trace w
     ∨ trace w' = trace w ++ [PushMessage (node_id p) GETSPORKS])
  ∧ (eligible e w p → regtest e = false → (addr p, spork_sync) ∉ fulfilled w →
     trace w' = trace w ++ [PushMessage (node_id p) GETSPORKS]).
Proof.
  unfold peer_body, switch_and_return, eligible.
  destruct (fZnode p || (fZNode e && fInbound p)) eqn:Hrole.
  { intros [= <-]. repeat split; auto.
    intros [[Ha Hb] _]. rewrite Ha, Hb in Hrole. done. }
  destruct (regtest e); [done|].
  destruct (HasFulfilledRequest (addr p) full_sync w) eqn:Hfull.
  { intros [= <-]. apply HasFulfilledRequest_true in Hfull. cbn.
    repeat split; auto. naive_solver. }
  destruct (HasFulfilledRequest (addr p) spork_sync w) eqn:Hspork; cbn.
  2:{ intros [= <-]. cbn. repeat split; auto; set_solver. }
  apply HasFulfilledRequest_true in Hspork.
  intros H.
  assert (sync w' = sync w ∧ gate w' = gate w ∧ nTick w' = nTick w
          ∧ trace w' = trace w
          ∧ (fulfilled w' = fulfilled w
             ∨ fulfilled w' = {[(addr p, znode_list_sync)]} ∪ fulfilled w
             ∨ fulfilled w' = {[(addr p, znode_payment_sync)]} ∪ fulfilled w))
    as (-> & -> & -> & -> & HF).
  { repeat case_match; simplify_eq; cbn; auto 10. }
  repeat split; auto; try done.
  - destruct HF as [-> | [-> | ->]]; set_solver.
  - intros a. destruct HF as [-> | [-> | ->]]; [done| |];
      intros [[=]%elem_of_singleton|]%elem_of_union; done.
  - intros a. destruct HF as [-> | [-> | ->]]; [by left| |];
      (intros [[=]%elem_of_singleton|]%elem_of_union; by left).
Qed.

Lemma IsBlockchainSynced_frame fb e w b w' :
  IsBlockchainSynced fb e w = (b, w') →
  nTick w' = nTick w ∧ vNodes w' = vNodes w ∧ fulfilled w' = fulfilled w
  ∧ trace w' = trace w
  ∧ (¬ idle e w → sync w' = sync w)
  ∧ (idle e w → sync w' = sync (Reset e w)).
Proof.
  rewrite IsBlockchainSynced_unfold. intros [= <- <-].
  destruct (gate_frame fb e w) as (? & ? & ? & ?).
  repeat split; try done.
  - apply gate_sync_not_idle.
  - apply gate_sync_idle.
Qed.

Lemma SwitchToNextAsset_frame e w w' :
  SwitchToNextAsset e w = Ok w' →
  gate w' = gate w ∧ nTick w' = nTick w ∧ vNodes w' = vNodes w
  ∧ nCountFailures (sync w') = nCountFailures (sync w)
  ∧ nTimeLastFailure (sync w') = nTimeLastFailure (sync w)
  ∧ pCurrentBlockIndex (sync w') = pCurrentBlockIndex (sync w)
  ∧ (nRequestedZnodeAssets (sync w) ≠ ZNODE_SYNC_MNW →
     trace w' = trace w ∧ fulfilled w' ⊆ fulfilled w)
  ∧ (nRequestedZnodeAssets (sync w) = ZNODE_SYNC_MNW →
     trace w' = trace w ++ [ManageState]
     ∧ nRequestedZnodeAssets (sync w') = ZNODE_SYNC_FINISHED).
Proof.
  unfold SwitchToNextAsset.
  destruct (nRequestedZnodeAssets (sync w)) eqn:Ha; try done;
    try (intros [= <-]; cbn; repeat split; done).
  - intros [= <-]. cbn.
    destruct (ClearFulfilledRequests_frame e w) as (H1 & H2 & H3 & H4 & H5 & H6).
    cbn in *. rewrite H1, H2, H3, H4, H5. repeat split; done.
  - destruct (negb (lockRecv e)); intros [= <-]; [cbn; repeat split; done|].
    match goal with |- context [foldl ?f ?w0 ?l] =>
      destruct (foldl_AddFulfilledRequest_frame full_sync l w0)
        as (H1 & H2 & H3 & H4 & H5 & H6) end.
    cbn in *. rewrite H1, H2, H3, H4, H5. repeat split; done.
Qed.

(** A [return] of the loop body sends phase-specific requests to the peer
    at hand only. *)
Lemma peer_body_Return_targets e p w w' :
  peer_body e p w = Return w' →
  ∃ evs, trace w' = trace w ++ evs
         ∧ ∀ i, i ∈ phase_specific_targets evs → i = node_id p.
Proof.
  unfold peer_body, switch_and_return.
  assert (∀ w0, SwitchToNextAsset e w = Ok w0 →
            ∃ evs, trace w0 = trace w ++ evs
                   ∧ ∀ i, i ∈ phase_specific_targets evs → i = node_id p) as Hsw.
  { intros w0 H0. apply SwitchToNextAsset_frame in H0 as (_&_&_&_&_&_& Hn & Hm).
    destruct (decide (nRequestedZnodeAssets (sync w) = ZNODE_SYNC_MNW)) as [Hd|Hd].
    - exists [ManageState]. split; [by apply Hm|]. cbn. set_solver.
    - exists []. rewrite app_nil_r. split; [by apply Hn|]. cbn. set_solver. }
  assert (∃ evs, trace w = trace w ++ evs
                 ∧ ∀ i, i ∈ phase_specific_targets evs → i = node_id p) as Hnil.
  { exists []. rewrite app_nil_r. split; [done|]. cbn. set_solver. }
  intros H.
  repeat case_match; simplify_eq; cbn; eauto;
    try (eexists; split; [reflexivity|]; cbn; set_solver).
  eexists [_; _]. rewrite <- app_assoc. split; [reflexivity|]. cbn. set_solver.
Qed.

Lemma phase_specific_targets_app evs1 evs2 :
  phase_specific_targets (evs1 ++ evs2)
  = phase_specific_targets evs1 ++ phase_specific_targets evs2.
Proof. apply omap_app. Qed.

(** One run of the loop sends phase-specific requests to at most one peer. *)
Lemma ProcessTick_peers_targets e nodes w w' :
  ProcessTick_peers e nodes w = Ok w' →
  ∃ evs, trace w' = trace w ++ evs
         ∧ ∀ i j, i ∈ phase_specific_targets evs →
                  j ∈ phase_specific_targets evs → i = j.
Proof.
  revert w. induction nodes as [|p nodes IH]; intros w; cbn.
  - intros [= <-]. exists []. rewrite app_nil_r. split; [done|]. cbn. set_solver.
  - destruct (peer_body e p w) as [w1|w1|what] eqn:Hb; [| |done].
    + intros H. apply IH in H as (evs & Ht & Hone).
      apply peer_body_Continue in Hb as (_&_&_&_&_&_& [Hb|Hb] &_).
      * exists evs. by rewrite Ht, Hb.
      * exists ([PushMessage (node_id p) GETSPORKS] ++ evs).
        split; [by rewrite Ht, Hb, <- app_assoc|].
        by rewrite phase_specific_targets_app.
    + intros [= <-]. apply peer_body_Return_targets in Hb as (evs & Ht & Hp).
      exists evs. split; [done|]. intros i j Hi Hj.
      by rewrite (Hp i Hi), (Hp j Hj).
Qed.

(** In normal mode a peer that is eligible and not yet recorded for the
    sporks is asked for them, and the loop goes on (lines 362-369). *)
Lemma peer_body_asks_sporks e p w :
  regtest e = false → eligible e w p → (addr p, spork_sync) ∉ fulfilled w →
  peer_body e p w
  = Continue (emit (PushMessage (node_id p) GETSPORKS)
                (AddFulfilledRequest (addr p) spork_sync w)).
Proof.
  intros Hr [Hs Hf] Hsp. unfold peer_body.
  apply sync_source_spec in Hs. rewrite Hs, Hr.
  apply HasFulfilledRequest_false in Hf, Hsp. by rewrite Hf, Hsp.
Qed.

(** *** What the loop does to the peers *)

Lemma Forall2_flag_raised_refl l : Forall2 flag_raised l l.
Proof. induction l; constructor; [by left|done]. Qed.

Lemma Forall2_flag_raised_trans l1 l2 l3 :
  Forall2 flag_raised l1 l2 → Forall2 flag_raised l2 l3 → Forall2 flag_raised l1 l3.
Proof.
  intros H. revert l3. induction H as [|q1 q2 l1 l2 Hq _ IH]; intros l3 H3.
  - by inversion H3.
  - inversion H3 as [|? q3 ? l3' Hq' H3']; subst. constructor; [|by apply IH].
    destruct Hq as [-> | ->], Hq' as [-> | ->]; by (left + right).
Qed.

Lemma disconnect_flag_raised p w : Forall2 flag_raised (vNodes w) (vNodes (disconnect p w)).
Proof.
  cbn. induction (vNodes w) as [|q l IH]; cbn; constructor; [|done].
  destruct (node_id q =? node_id p); by (left + right).
Qed.

Lemma peer_body_peers e p w :
  match peer_body e p w with
  | Continue w' | Return w' =>
    Forall2 flag_raised (vNodes w) (vNodes w')
    ∧ (regtest e = true → vNodes w' = vNodes w)
  | Throw _ => True
  end.
Proof.
  unfold peer_body, switch_and_return.
  pose proof (Forall2_flag_raised_refl (vNodes w)) as Hrefl.
  destruct (SwitchToNextAsset e w) as [w2|] eqn:Hsw.
  - apply SwitchToNextAsset_frame in Hsw as (_ & _ & Hv & _).
    repeat case_match; simplify_eq; cbn; rewrite ?Hv; try done.
    split; [apply (disconnect_flag_raised p w)|done].
  - repeat case_match; simplify_eq; cbn; try done.
    split; [apply (disconnect_flag_raised p w)|done].
Qed.

Lemma ProcessTick_peers_peers e nodes w w' :
  ProcessTick_peers e nodes w = Ok w' →
  Forall2 flag_raised (vNodes w) (vNodes w')
  ∧ (regtest e = true → vNodes w' = vNodes w).
Proof.
  revert w. induction nodes as [|p nodes IH]; intros w; cbn [ProcessTick_peers].
  { intros [= <-]. split; [apply Forall2_flag_raised_refl|done]. }
  pose proof (peer_body_peers e p w) as Hb.
  destruct (peer_body e p w) as [w1|w1|what]; [| |done].
  - intros [H1 H2]%IH. destruct Hb as [Hb1 Hb2]. split.
    + by eapply Forall2_flag_raised_trans.
    + intros Hr. by rewrite (H2 Hr), (Hb2 Hr).
  - by intros [= <-].
Qed.

(** What [disconnect] does to the peer list: every peer of the given id has
    its flag set, the peer itself is among them when it is connected, and
    the peers of another id are left as they are. *)
Lemma disconnect_marks p w :
  (∀ q, q ∈ vNodes (disconnect p w) → node_id q = node_id p → fDisconnect q = true)
  ∧ (p ∈ vNodes w →
     ∃ q, q ∈ vNodes (disconnect p w) ∧ node_id q = node_id p ∧ addr q = addr p
          ∧ fDisconnect q = true)
  ∧ (∀ q, q ∈ vNodes w → node_id q ≠ node_id p → q ∈ vNodes (disconnect p w)).
Proof.
  unfold disconnect. cbn [vNodes with_vNodes].
  split; [|split].
  - intros q Hq Hid. apply list_elem_of_In, in_map_iff in Hq as (q0 & <- & _).
    destruct (Z.eqb_spec (node_id q0) (node_id p)) as [_|Hne]; [done|].
    by destruct Hne.
  - intros Hp. exists (set_fDisconnect true p).
    split; [|done]. apply list_elem_of_In, in_map_iff. exists p.
    rewrite Z.eqb_refl. split; [done|]. by apply list_elem_of_In.
  - intros q Hq Hne. apply list_elem_of_In, in_map_iff. exists q.
    rewrite (proj2 (Z.eqb_neq _ _) Hne). split; [done|]. by apply list_elem_of_In.
Qed.

(** Peers that are marked stay marked when flags are only raised. *)
Lemma flag_raised_keeps_marked l l' i :
  Forall2 flag_raised l l' →
  (∀ q, q ∈ l → node_id q = i → fDisconnect q = true) →
  ∀ q', q' ∈ l' → node_id q' = i → fDisconnect q' = true.
Proof.
  induction 1 as [|q q' l l' Hq _ IH]; intros Hall q0 Hq0 Hid.
  { by apply elem_of_nil in Hq0. }
  apply elem_of_cons in Hq0 as [-> | Hq0].
  - destruct Hq as [-> | ->]; [|done]. apply Hall; [by left|done].
  - apply IH; [|done..]. intros q1 Hq1. apply Hall. by right.
Qed.

(** In normal mode the loop body returns in one of three ways: after a
    roster or payment request to the peer at hand, which is a sync source
    of a recent enough version that already got the spork request; after
    [Fail], on a timeout without attempts; or after [SwitchToNextAsset], on
    a timeout with attempts or on enough payment data. *)
Lemma peer_body_Return_shape e p w w' :
  regtest e = false →
  peer_body e p w = Return w' →
  (* a request *)
  ((nRequestedZnodeAssets (sync w) = ZNODE_SYNC_LIST
    ∨ nRequestedZnodeAssets (sync w) = ZNODE_SYNC_MNW)
   ∧ ¬ timed_out e w
   ∧ sync w' = set_attempt (nRequestedZnodeAttempt (sync w) + 1) (sync w)
   ∧ vNodes w' = vNodes w
   ∧ (∃ evs, trace w' = trace w ++ evs ∧ phase_specific_targets evs ≠ []
             ∧ ∀ i, i ∈ phase_specific_targets evs → i = node_id p)
   ∧ sync_source e p
   ∧ GetMinZnodePaymentsProto e ≤ nVersion p
   ∧ (addr p, spork_sync) ∈ fulfilled w
   ∧ fulfilled w ⊆ fulfilled w')
  (* a failure *)
  ∨ (w' = Fail e w ∧ timed_out e w ∧ nRequestedZnodeAttempt (sync w) = 0)
  (* a transition *)
  ∨ (SwitchToNextAsset e w = Ok w'
     ∧ ((nRequestedZnodeAssets (sync w) = ZNODE_SYNC_LIST ∧ timed_out e w
         ∧ nRequestedZnodeAttempt (sync w) ≠ 0)
        ∨ (nRequestedZnodeAssets (sync w) = ZNODE_SYNC_MNW
           ∧ (timed_out e w ∧ nRequestedZnodeAttempt (sync w) ≠ 0
              ∨ nRequestedZnodeAttempt (sync w) > 1 ∧ IsEnoughData e = true)))).
Proof.
  intros Hr. unfold peer_body, switch_and_return, timed_out. rewrite Hr.
  destruct (fZnode p || (fZNode e && fInbound p)) eqn:Hrole; [done|].
  apply sync_source_spec in Hrole.
  destruct (HasFulfilledRequest (addr p) full_sync w); [done|].
  destruct (HasFulfilledRequest (addr p) spork_sync w) eqn:Hsp; [|done].
  apply HasFulfilledRequest_true in Hsp. cbn [negb].
  destruct (nRequestedZnodeAssets (sync w)) eqn:Ha; try done.
  - (* roster *)
    destruct (Z.ltb_spec (nTimeLastZnodeList (sync w))
                (GetTime e - ZNODE_SYNC_TIMEOUT_SECONDS)) as [Hto|Hto].
    + destruct (Z.eqb_spec (nRequestedZnodeAttempt (sync w)) 0) as [Hz|Hz].
      * intros [= <-]. right. left. done.
      * destruct (SwitchToNextAsset e w) as [w2|] eqn:Hsw; [|done].
        intros [= <-]. right. right. split; [done|]. left. done.
    + destruct (HasFulfilledRequest (addr p) znode_list_sync w); [done|].
      destruct (Z.ltb_spec (nVersion p) (GetMinZnodePaymentsProto e)); [done|].
      intros [= <-]. left.
      split; [by left|]. split; [lia|]. split; [done|]. split; [done|].
      split; [|split; [done|]; split; [lia|]; split; [done|]; cbn; set_solver].
      exists [DsegUpdate (node_id p)]. cbn. split; [done|]. split; [done|]. set_solver.
  - (* payment votes *)
    destruct (Z.ltb_spec (nTimeLastPaymentVote (sync w))
                (GetTime e - ZNODE_SYNC_TIMEOUT_SECONDS)) as [Hto|Hto].
    + destruct (Z.eqb_spec (nRequestedZnodeAttempt (sync w)) 0) as [Hz|Hz].
      * intros [= <-]. right. left. done.
      * destruct (SwitchToNextAsset e w) as [w2|] eqn:Hsw; [|done].
        intros [= <-]. right. right. split; [done|]. right. split; [done|]. by left.
    + destruct ((nRequestedZnodeAttempt (sync w) >? 1) && IsEnoughData e) eqn:Hen.
      * destruct (SwitchToNextAsset e w) as [w2|] eqn:Hsw; [|done].
        intros [= <-]. right. right. split; [done|]. right. split; [done|]. right.
        apply andb_true_iff in Hen as [Hgt ->]. apply Z.gtb_gt in Hgt. done.
      * destruct (HasFulfilledRequest (addr p) znode_payment_sync w); [done|].
        destruct (Z.ltb_spec (nVersion p) (GetMinZnodePaymentsProto e)); [done|].
        intros [= <-]. left.
        split; [by right|]. split; [lia|]. split; [done|]. split; [done|].
        split; [|split; [done|]; split; [lia|]; split; [done|]; cbn; set_solver].
        exists [PushMessage (node_id p) (ZNODEPAYMENTSYNC (GetStorageLimit e));
                RequestLowDataPaymentBlocks (node_id p)].
        cbn. rewrite <- app_assoc. split; [done|]. split; [done|]. set_solver.
Qed.

(** ** The setup of the tick *)

Lemma ProcessTick_bootstrap_frame e w r :
  ProcessTick_bootstrap e w = Ok r →
  trace (setup_world r) = trace w ∧ vNodes (setup_world r) = vNodes w
  ∧ fulfilled (setup_world r) ⊆ fulfilled w.
Proof.
  unfold ProcessTick_bootstrap.
  assert (∃ wait w1, (if regtest e then (false, w)
            else let '(synced, w') := IsBlockchainSynced false e w in
                 (negb synced && (asset_code (nRequestedZnodeAssets (sync w'))
                                  >? asset_code ZNODE_SYNC_SPORKS), w')) = (wait, w1)
          ∧ trace w1 = trace w ∧ vNodes w1 = vNodes w ∧ fulfilled w1 = fulfilled w)
    as (wait & w1 & -> & Ht1 & Hv1 & Hf1).
  { destruct (regtest e); [by exists false, w|].
    destruct (IsBlockchainSynced false e w) as [b w1] eqn:Hg.
    apply IsBlockchainSynced_frame in Hg as (_ & ? & ? & ? & _).
    eexists _, w1. by split. }
  destruct wait; [intros [= <-]; cbn; by rewrite Ht1, Hv1, Hf1|].
  assert (∃ adv w2, (if bool_decide (nRequestedZnodeAssets (sync w1) = ZNODE_SYNC_INITIAL)
            then (true, w1)
            else if bool_decide (nRequestedZnodeAssets (sync w1) = ZNODE_SYNC_SPORKS)
                 then IsBlockchainSynced false e w1 else (false, w1)) = (adv, w2)
          ∧ trace w2 = trace w1 ∧ vNodes w2 = vNodes w1 ∧ fulfilled w2 = fulfilled w1
          ∧ (adv = true → nRequestedZnodeAssets (sync w2) ≠ ZNODE_SYNC_MNW))
    as (adv & w2 & -> & Ht2 & Hv2 & Hf2 & Hadv).
  { case_bool_decide as Hi; [exists true, w1; by rewrite Hi|].
    case_bool_decide as Hs; [|by exists false, w1].
    destruct (IsBlockchainSynced false e w1) as [b w2] eqn:Hg.
    apply IsBlockchainSynced_frame in Hg as (_ & ? & ? & ? & Hni & Hid).
    exists b, w2. repeat split; try done. intros _.
    destruct (idle_dec e w1) as [Hidle|Hidle];
      [rewrite (Hid Hidle) | rewrite (Hni Hidle), Hs]; done. }
  destruct adv; [|intros [= <-]; cbn; by rewrite Ht2, Hv2, Hf2, Ht1, Hv1, Hf1].
  destruct (SwitchToNextAsset e w2) as [w3|] eqn:Hsw; [|done].
  intros [= <-]. cbn.
  apply SwitchToNextAsset_frame in Hsw as (_ & _ & Hv3 & _ & _ & _ & Hn & _).
  destruct (Hn (Hadv eq_refl)) as [Ht3 Hf3].
  by rewrite Ht3, Hv3, Ht2, Hv2, Ht1, Hv1, <- Hf1, <- Hf2.
Qed.

Lemma ProcessTick_setup_frame e w r :
  ProcessTick_setup e w = Ok r →
  trace (setup_world r) = trace w ∧ vNodes (setup_world r) = vNodes w
  ∧ fulfilled (setup_world r) ⊆ fulfilled w.
Proof.
  unfold ProcessTick_setup.
  repeat case_match; try (intros [= <-]; done);
    intros (? & ? & ?)%ProcessTick_bootstrap_frame; done.
Qed.

(** ** The tick never throws *)

Lemma peer_body_no_throw e p w what : peer_body e p w ≠ Throw what.
Proof.
  unfold peer_body, switch_and_return.
  destruct (nRequestedZnodeAssets (sync w)) eqn:Ha;
    try (repeat case_match; done);
    (destruct (SwitchToNextAsset_returns e w) as (w2 & ->); [by rewrite Ha|]);
    repeat case_match; done.
Qed.

Lemma ProcessTick_peers_returns e nodes w : ∃ w', ProcessTick_peers e nodes w = Ok w'.
Proof.
  revert w. induction nodes as [|p nodes IH]; intros w; cbn; [by eauto|].
  destruct (peer_body e p w) as [w1|w1|what] eqn:Hb; [done|by eauto|].
  by apply peer_body_no_throw in Hb.
Qed.

Lemma ProcessTick_bootstrap_returns e w : ∃ r, ProcessTick_bootstrap e w = Ok r.
Proof.
  unfold ProcessTick_bootstrap.
  destruct (if regtest e then _ else _) as [wait w1]. destruct wait; [by eauto|].
  case_bool_decide as Hi.
  { destruct (SwitchToNextAsset_returns e w1) as (w2 & ->); [by rewrite Hi|by eauto]. }
  case_bool_decide as Hs; [|by eauto].
  destruct (IsBlockchainSynced false e w1) as [b w2] eqn:Hg.
  destruct b; [|by eauto].
  apply IsBlockchainSynced_frame in Hg as (_ & _ & _ & _ & Hni & Hid).
  destruct (SwitchToNextAsset_returns e w2) as (w3 & ->); [|by eauto].
  destruct (idle_dec e w1) as [Hidle|Hidle];
    [rewrite (Hid Hidle) | rewrite (Hni Hidle), Hs]; done.
Qed.

(** Every tick returns: the transition function is never called in the
    Failed phase. *)
Lemma ProcessTick_returns e w : ∃ w', ProcessTick e w = Ok w'.
Proof.
  unfold ProcessTick.
  assert (∃ r, ProcessTick_setup e w = Ok r) as (r & ->).
  { unfold ProcessTick_setup. repeat case_match; eauto using ProcessTick_bootstrap_returns. }
  destruct r; [by eauto|apply ProcessTick_peers_returns].
Qed.

(** ** The events of a call *)

Lemma new_events_app w w' evs : trace w' = trace w ++ evs → new_events w w' = evs.
Proof. unfold new_events. intros ->. by rewrite drop_app_length. Qed.

(** A pair that is not the one element of a sample ledger. *)
Ltac not_in_sample_ledger :=
  let H := fresh in
  intros H; cbv [Sample.world fulfilled] in H;
  apply elem_of_singleton in H; discriminate H.

(** ** Ticks in the syncing phases *)

Lemma ProcessTick_setup_syncing e w :
  working_tick w →
  nRequestedZnodeAssets (sync w) ≠ ZNODE_SYNC_FINISHED →
  nRequestedZnodeAssets (sync w) ≠ ZNODE_SYNC_FAILED →
  ProcessTick_setup e w = ProcessTick_bootstrap e (tick_counted w).
Proof.
  intros Hw Hn1 Hn2. unfold ProcessTick_setup.
  rewrite (working_tick_rem w Hw), (working_tick_index w Hw).
  unfold IsSynced, IsFailed. cbn.
  rewrite (bool_decide_eq_false_2 _ Hn1). cbn.
  by rewrite (bool_decide_eq_false_2 _ Hn2).
Qed.

(** Lines 282-288: Finished with an empty roster resets and goes on. *)
Lemma ProcessTick_setup_resync e w :
  working_tick w →
  nRequestedZnodeAssets (sync w) = ZNODE_SYNC_FINISHED →
  CountZnodes e = 0 →
  ProcessTick_setup e w = ProcessTick_bootstrap e (Reset e (tick_counted w)).
Proof.
  intros Hw Hf Hn. unfold ProcessTick_setup.
  rewrite (working_tick_rem w Hw), (working_tick_index w Hw).
  unfold IsSynced, IsFailed. cbn. rewrite Hf, Hn. simpl. done.
Qed.

(** Past the sporks, with the chain judged synced and no idle reset, the
    tick goes on to the peers. *)
Lemma ProcessTick_bootstrap_synced e w w1 :
  regtest e = false →
  nRequestedZnodeAssets (sync w) ≠ ZNODE_SYNC_INITIAL →
  nRequestedZnodeAssets (sync w) ≠ ZNODE_SYNC_SPORKS →
  ¬ idle e w →
  IsBlockchainSynced false e w = (true, w1) →
  ProcessTick_bootstrap e w = Ok (Proceed w1).
Proof.
  intros Hr Hn1 Hn2 Hi Hg. unfold ProcessTick_bootstrap. rewrite Hr, Hg. cbn.
  apply IsBlockchainSynced_frame in Hg as (_ & _ & _ & _ & Hs & _).
  rewrite (Hs Hi).
  by rewrite (bool_decide_eq_false_2 _ Hn1), (bool_decide_eq_false_2 _ Hn2).
Qed.

(** In regtest the gate is consulted in the spork phase only. *)
Lemma ProcessTick_bootstrap_regtest e w :
  regtest e = true →
  nRequestedZnodeAssets (sync w) ≠ ZNODE_SYNC_INITIAL →
  nRequestedZnodeAssets (sync w) ≠ ZNODE_SYNC_SPORKS →
  ProcessTick_bootstrap e w = Ok (Proceed w).
Proof.
  intros Hr Hn1 Hn2. unfold ProcessTick_bootstrap. rewrite Hr.
  by rewrite (bool_decide_eq_false_2 _ Hn1), (bool_decide_eq_false_2 _ Hn2).
Qed.

Lemma ProcessTick_bootstrap_regtest_sporks e w w1 :
  regtest e = true →
  nRequestedZnodeAssets (sync w) = ZNODE_SYNC_SPORKS →
  IsBlockchainSynced false e w = (false, w1) →
  ProcessTick_bootstrap e w = Ok (Proceed w1).
Proof.
  intros Hr Hs Hg. unfold ProcessTick_bootstrap. rewrite Hr, Hs. simpl.
  by rewrite Hg.
Qed.

(** From Initial the bootstrap clears the ledger, moves to the sporks and
    goes on to the peers; the gate, when consulted, can at most repeat the
    reset. *)
Lemma ProcessTick_bootstrap_initial e w :
  nRequestedZnodeAssets (sync w) = ZNODE_SYNC_INITIAL →
  ∃ w1, ProcessTick_bootstrap e w
        = Ok (Proceed (after_switch e
               (with_sync (set_assets ZNODE_SYNC_SPORKS) (ClearFulfilledRequests e w1))))
        ∧ (sync w1 = sync w ∨ sync w1 = sync (Reset e w))
        ∧ vNodes w1 = vNodes w ∧ trace w1 = trace w ∧ fulfilled w1 = fulfilled w.
Proof.
  intros Hi. unfold ProcessTick_bootstrap.
  assert (∃ w1, (if regtest e then (false, w)
            else let '(synced, w') := IsBlockchainSynced false e w in
                 (negb synced && (asset_code (nRequestedZnodeAssets (sync w'))
                                  >? asset_code ZNODE_SYNC_SPORKS), w')) = (false, w1)
          ∧ (sync w1 = sync w ∨ sync w1 = sync (Reset e w))
          ∧ vNodes w1 = vNodes w ∧ trace w1 = trace w ∧ fulfilled w1 = fulfilled w)
    as (w1 & -> & Hs & Hrest).
  { destruct (regtest e); [exists w; by auto|].
    destruct (IsBlockchainSynced false e w) as [b w1] eqn:Hg.
    apply IsBlockchainSynced_frame in Hg as (_ & ? & ? & ? & Hni & Hid).
    exists w1.
    assert (sync w1 = sync w ∨ sync w1 = sync (Reset e w)) as Hs
      by (destruct (idle_dec e w); auto).
    split; [|by auto].
    assert (nRequestedZnodeAssets (sync w1) = ZNODE_SYNC_INITIAL) as ->
      by (destruct Hs as [-> | ->]; done).
    by rewrite andb_false_r. }
  exists w1. split; [|done].
  assert (nRequestedZnodeAssets (sync w1) = ZNODE_SYNC_INITIAL) as Hi1
    by (destruct Hs as [-> | ->]; done).
  rewrite Hi1. simpl. unfold SwitchToNextAsset. by rewrite Hi1.
Qed.

(** In regtest the first sync source of the snapshot is served and the tick
    returns; the znode connections before it are skipped. *)
Lemma ProcessTick_peers_regtest e nodes w :
  regtest e = true →
  (∃ p, p ∈ nodes ∧ sync_source e p) →
  ∃ p, p ∈ nodes ∧ sync_source e p ∧ ProcessTick_peers e nodes w = Ok
    (incr_attempt
       (let a := nRequestedZnodeAttempt (sync w) in
        if a <=? 2 then emit (PushMessage (node_id p) GETSPORKS) w
        else if a <? 4 then emit (DsegUpdate (node_id p)) w
        else if a <? 6 then
          emit (PushMessage (node_id p) (ZNODEPAYMENTSYNC (CountZnodes e))) w
        else with_sync (set_assets ZNODE_SYNC_FINISHED) w)).
Proof.
  intros Hr. induction nodes as [|p0 nodes IH]; intros (p & Hp & Hsrc).
  { by apply elem_of_nil in Hp. }
  cbn [ProcessTick_peers]. unfold peer_body at 1.
  destruct (fZnode p0 || (fZNode e && fInbound p0)) eqn:Hrole.
  - apply elem_of_cons in Hp as [-> | Hp].
    { apply sync_source_spec in Hsrc. congruence. }
    destruct IH as (q & Hq & Hqs & ->); [by eauto|].
    exists q. split; [by right|done].
  - rewrite Hr. exists p0. split; [by left|]. split; [by apply sync_source_spec|done].
Qed.

Lemma ProcessTick_peers_regtest_none e nodes w :
  (∀ p, p ∈ nodes → ¬ sync_source e p) →
  ProcessTick_peers e nodes w = Ok w.
Proof.
  induction nodes as [|p0 nodes IH]; intros Hall; [done|].
  cbn [ProcessTick_peers]. unfold peer_body at 1.
  destruct (fZnode p0 || (fZNode e && fInbound p0)) eqn:Hrole.
  - apply IH. intros p Hp. apply Hall. by right.
  - destruct (Hall p0); [by left|by apply sync_source_spec].
Qed.

(** In normal mode the body returns in the roster and payment phases only. *)
Lemma ProcessTick_peers_keeps_sync e nodes w :
  regtest e = false →
  nRequestedZnodeAssets (sync w) ≠ ZNODE_SYNC_LIST →
  nRequestedZnodeAssets (sync w) ≠ ZNODE_SYNC_MNW →
  ∃ w', ProcessTick_peers e nodes w = Ok w' ∧ sync w' = sync w.
Proof.
  intros Hr. revert w. induction nodes as [|p0 nodes IH]; intros w Hl Hm.
  { by exists w. }
  cbn [ProcessTick_peers].
  assert (∃ w1, peer_body e p0 w = Continue w1) as (w1 & Hb).
  { unfold peer_body. rewrite Hr. repeat case_match; by eauto. }
  rewrite Hb. apply peer_body_Continue in Hb as (Hs & _).
  destruct (IH w1) as (w' & Hp & Hs'); [by rewrite Hs|by rewrite Hs|].
  exists w'. split; [done|]. by rewrite Hs'.
Qed.

(** The sufficiency shortcut inside the loop (lines 426-431): in the payment
    phase with more than one attempt and enough data, the first peer that
    gets past the spork step makes the tick finish the sync. *)
Lemma ProcessTick_peers_enough_data e nodes w :
  regtest e = false →
  nRequestedZnodeAssets (sync w) = ZNODE_SYNC_MNW →
  nRequestedZnodeAttempt (sync w) > 1 →
  IsEnoughData e = true →
  (∃ p, p ∈ nodes ∧ eligible e w p ∧ (addr p, spork_sync) ∈ fulfilled w) →
  ∃ w', ProcessTick_peers e nodes w = Ok w'
        ∧ nRequestedZnodeAssets (sync w') = ZNODE_SYNC_FINISHED.
Proof.
  intros Hr. revert w.
  induction nodes as [|p0 nodes IH]; intros w Hm Ha He (p & Hp & Hel & Hsp).
  { by apply elem_of_nil in Hp. }
  cbn [ProcessTick_peers].
  destruct (peer_body e p0 w) as [w1|w1|what] eqn:Hb.
  - (* the body continued: the good peer is further down *)
    pose proof Hb as (Hs & _ & _ & Hsub & Hfull & _)%peer_body_Continue.
    apply IH; [by rewrite Hs|by rewrite Hs|done|].
    apply elem_of_cons in Hp as [-> | Hp].
    + exfalso. revert Hb. unfold peer_body, switch_and_return.
      destruct Hel as [Hsrc Hnf]. apply sync_source_spec in Hsrc.
      apply HasFulfilledRequest_false in Hnf. apply HasFulfilledRequest_true in Hsp.
      rewrite Hsrc, Hr, Hnf, Hsp, Hm, He. cbn.
      rewrite (proj2 (Z.gtb_gt _ _)) by lia. cbn.
      destruct (SwitchToNextAsset e w); by repeat case_match.
    + exists p. split; [done|]. split; [|set_solver].
      destruct Hel as [? Hnf]. split; [done|]. intros ?. apply Hnf. eauto.
  - (* the body returned: it can only have finished the sync *)
    exists w1. split; [done|]. revert Hb. unfold peer_body, switch_and_return.
    rewrite Hr, Hm, He.
    rewrite (proj2 (Z.gtb_gt _ _)) by lia.
    assert ((nRequestedZnodeAttempt (sync w) =? 0) = false) as ->
      by (apply Z.eqb_neq; lia).
    cbn.
    destruct (SwitchToNextAsset e w) as [w2|] eqn:Hsw.
    + apply SwitchToNextAsset_frame in Hsw as (_&_&_&_&_&_&_& Hfin).
      destruct (Hfin Hm) as [_ Hfin']. repeat case_match; intros [= <-]; done.
    + by repeat case_match.
  - (* the transition function does not throw from the payment phase *)
    exfalso. revert Hb. unfold peer_body, switch_and_return. rewrite Hm.
    destruct (SwitchToNextAsset_returns e w) as (w2 & ->); [by rewrite Hm|].
    by repeat case_match.
Qed.

(** ** The sufficiency shortcut *)

(** The one connected peer was not asked for the sporks yet: it is asked
    now, the loop moves on (line 368) and ends, and the test of line 426 is
    never reached. *)
Lemma C5_sufficiency_shortcut_counterexample :
  ¬ sufficiency_shortcut_as_stated (Sample.env 1000 false true 5)
      (Sample.world (Sample.coordinator ZNODE_SYNC_MNW 2 995 0)
         (Sample.statics true 995) [Sample.peer 1] ∅).
Proof.
  unfold sufficiency_shortcut_as_stated. intros H.
  destruct H as (w' & Ht & Hf);
    [split; [reflexivity | cbn; eauto] | reflexivity | cbn; lia | reflexivity
     | cbn; unfold ZNODE_SYNC_TIMEOUT_SECONDS; lia |].
  vm_compute in Ht. injection Ht as <-. discriminate Hf.
Qed.

(** C5 (amended). In normal mode, in the payment phase with more than one
    attempt and a ledger that reports enough data, a working tick whose gate
    evaluation judges the chain synced (without an idle reset) finishes the
    sync as soon as the snapshot holds one eligible peer already recorded
    for the sporks, timeout or not. *)
Theorem C5_sufficiency_shortcut (e : Env) (w : World) :
  working_tick w →
  regtest e = false →
  nRequestedZnodeAssets (sync w) = ZNODE_SYNC_MNW →
  nRequestedZnodeAttempt (sync w) > 1 →
  IsEnoughData e = true →
  ¬ idle e w →
  (IsBlockchainSynced false e (tick_counted w)).1 = true →
  (∃ p, p ∈ vNodes w ∧ eligible e w p ∧ (addr p, spork_sync) ∈ fulfilled w) →
  ∃ w', ProcessTick e w = Ok w'
        ∧ nRequestedZnodeAssets (sync w') = ZNODE_SYNC_FINISHED.
Proof.
  intros Hw Hr Hm Ha He Hi Hg Hpeer. unfold ProcessTick.
  rewrite ProcessTick_setup_syncing by (done || by rewrite Hm).
  destruct (IsBlockchainSynced false e (tick_counted w)) as [b w1] eqn:Hgate.
  cbn in Hg. subst b.
  rewrite (ProcessTick_bootstrap_synced e (tick_counted w) w1)
    by (done || by (cbn; rewrite Hm)).
  apply IsBlockchainSynced_frame in Hgate as (_ & Hv & Hf & _ & Hs & _).
  specialize (Hs Hi). cbn in Hv, Hf, Hs.
  apply ProcessTick_peers_enough_data; try done.
  - by rewrite Hs.
  - by rewrite Hs.
  - rewrite Hv. unfold eligible. by rewrite Hf.
Qed.

Lemma C5_sufficiency_shortcut_witness :
  ∃ w', ProcessTick (Sample.env 1000 false true 5)
          (Sample.world (Sample.coordinator ZNODE_SYNC_MNW 2 995 0)
             (Sample.statics true 995) [Sample.peer 1] {[ (101, spork_sync) ]})
        = Ok w'
        ∧ nRequestedZnodeAssets (sync w') = ZNODE_SYNC_FINISHED.
Proof.
  apply (C5_sufficiency_shortcut (Sample.env 1000 false true 5)
           (Sample.world (Sample.coordinator ZNODE_SYNC_MNW 2 995 0)
              (Sample.statics true 995) [Sample.peer 1] {[ (101, spork_sync) ]})).
  - split; [reflexivity | cbn; eauto].
  - reflexivity.
  - reflexivity.
  - cbn. lia.
  - reflexivity.
  - unfold idle. cbn. lia.
  - vm_compute. reflexivity.
  - exists (Sample.peer 1). split; [by left|]. split.
    + split; [done|]. not_in_sample_ledger.
    + change ((101, spork_sync) ∈ ({[ (101, spork_sync) ]} : gset (Z * string))).
      by apply elem_of_singleton.
Defined.

(** ** The regtest quick mode *)

(** C10. In regtest, on a working tick that reaches the peer loop with six
    or more attempts and a sync source in the snapshot, the asset is set to
    Finished by the assignment of line 343 and the tick returns normally:
    the attempt counter is incremented, the phase start and the governance
    timestamp keep their values, nothing is sent (no activation, no event at
    all), and the ledger and the peers are untouched.  The loop is reached
    with the counter intact from the roster, payment and governance phases,
    and from the spork phase when the gate answers not-synced without an
    idle reset. *)
Theorem C10_regtest_finishes_by_assignment (e : Env) (w : World) :
  working_tick w →
  regtest e = true →
  6 ≤ nRequestedZnodeAttempt (sync w) →
  (∃ p, p ∈ vNodes w ∧ sync_source e p) →
  (nRequestedZnodeAssets (sync w) = ZNODE_SYNC_LIST
   ∨ nRequestedZnodeAssets (sync w) = ZNODE_SYNC_MNW
   ∨ nRequestedZnodeAssets (sync w) = ZNODE_SYNC_GOVERNANCE
   ∨ (nRequestedZnodeAssets (sync w) = ZNODE_SYNC_SPORKS
      ∧ ¬ idle e w
      ∧ (IsBlockchainSynced false e (tick_counted w)).1 = false)) →
  ∃ w', ProcessTick e w = Ok w'
        ∧ nRequestedZnodeAssets (sync w') = ZNODE_SYNC_FINISHED
        ∧ nRequestedZnodeAttempt (sync w') = nRequestedZnodeAttempt (sync w) + 1
        ∧ nTimeAssetSyncStarted (sync w') = nTimeAssetSyncStarted (sync w)
        ∧ nTimeLastGovernanceItem (sync w') = nTimeLastGovernanceItem (sync w)
        ∧ trace w' = trace w
        ∧ fulfilled w' = fulfilled w
        ∧ vNodes w' = vNodes w
        ∧ (* the loop itself, from any state, Failed included *)
          ∀ nodes w0,
            6 ≤ nRequestedZnodeAttempt (sync w0) →
            (∃ p, p ∈ nodes ∧ sync_source e p) →
            ProcessTick_peers e nodes w0
            = Ok (incr_attempt (with_sync (set_assets ZNODE_SYNC_FINISHED) w0)).
Proof.
  intros Hw Hr Ha Hpeer Hphase.
  assert (∀ nodes w0,
            6 ≤ nRequestedZnodeAttempt (sync w0) →
            (∃ p, p ∈ nodes ∧ sync_source e p) →
            ProcessTick_peers e nodes w0
            = Ok (incr_attempt (with_sync (set_assets ZNODE_SYNC_FINISHED) w0)))
    as Hloop.
  { intros nodes w0 Ha0 Hp0.
    destruct (ProcessTick_peers_regtest e nodes w0 Hr Hp0) as (p & _ & _ & ->).
    cbv zeta.
    assert ((nRequestedZnodeAttempt (sync w0) <=? 2) = false) as ->
      by (apply Z.leb_gt; lia).
    assert ((nRequestedZnodeAttempt (sync w0) <? 4) = false) as ->
      by (apply Z.ltb_ge; lia).
    assert ((nRequestedZnodeAttempt (sync w0) <? 6) = false) as ->
      by (apply Z.ltb_ge; lia).
    done. }
  unfold ProcessTick.
  assert (∃ w1, ProcessTick_setup e w = Ok (Proceed w1)
                ∧ sync w1 = sync w ∧ vNodes w1 = vNodes w
                ∧ trace w1 = trace w ∧ fulfilled w1 = fulfilled w)
    as (w1 & -> & Hs & Hv & Ht & Hf).
  { destruct Hphase as [Hp | [Hp | [Hp | (Hp & Hi & Hg)]]].
    1-3: exists (tick_counted w);
         rewrite ProcessTick_setup_syncing by (done || by rewrite Hp);
         rewrite ProcessTick_bootstrap_regtest by (done || by (cbn; rewrite Hp));
         done.
    rewrite ProcessTick_setup_syncing by (done || by rewrite Hp).
    destruct (IsBlockchainSynced false e (tick_counted w)) as [b w1] eqn:Hgate.
    cbn in Hg. subst b. exists w1.
    rewrite (ProcessTick_bootstrap_regtest_sporks e (tick_counted w) w1) by done.
    apply IsBlockchainSynced_frame in Hgate as (_ & ? & ? & ? & Hs & _).
    by rewrite (Hs Hi). }
  rewrite Hloop; [|by rewrite Hs|by rewrite Hv].
  eexists. split; [reflexivity|]. cbn. by rewrite Hs.
Qed.

Lemma C10_regtest_finishes_by_assignment_witness :
  ∃ w', ProcessTick (Sample.env 1000 true true 5)
          (Sample.world (Sample.coordinator ZNODE_SYNC_LIST 6 995 0)
             (Sample.statics false 995) [Sample.peer 1] ∅) = Ok w'
        ∧ nRequestedZnodeAssets (sync w') = ZNODE_SYNC_FINISHED
        ∧ nRequestedZnodeAttempt (sync w') = 7
        ∧ nTimeAssetSyncStarted (sync w') = 995
        ∧ trace w' = [].
Proof.
  destruct (C10_regtest_finishes_by_assignment (Sample.env 1000 true true 5)
              (Sample.world (Sample.coordinator ZNODE_SYNC_LIST 6 995 0)
                 (Sample.statics false 995) [Sample.peer 1] ∅))
    as (w' & Ht & H1 & H2 & H3 & _ & H4 & _).
  - split; [reflexivity | cbn; eauto].
  - reflexivity.
  - cbn. lia.
  - exists (Sample.peer 1). split; [by left | done].
  - by left.
  - exists w'. exact (conj Ht (conj H1 (conj H2 (conj H3 H4)))).
Defined.

(** ** The failure counter *)

Lemma count_kept_refl w : count_kept w w.
Proof. by left. Qed.

Lemma count_kept_trans w1 w2 w3 : count_kept w1 w2 → count_kept w2 w3 → count_kept w1 w3.
Proof. unfold count_kept. intros [H1|H1] [H2|H2]; rewrite ?H2, ?H1; auto. Qed.

Lemma peer_body_count e p w :
  match peer_body e p w with
  | Continue w' | Return w' => nCountFailures (sync w') = nCountFailures (sync w)
  | Throw _ => True
  end.
Proof.
  destruct (peer_body e p w) as [w'|w'|what] eqn:Hb; [| |done].
  { apply peer_body_Continue in Hb as (-> & _). done. }
  revert Hb. unfold peer_body, switch_and_return.
  destruct (SwitchToNextAsset e w) as [w2|] eqn:Hsw.
  - apply SwitchToNextAsset_frame in Hsw as (_ & _ & _ & Hc & _).
    repeat case_match; intros [= <-]; done.
  - repeat case_match; intros [= <-]; done.
Qed.

Lemma ProcessTick_peers_count e nodes w w' :
  ProcessTick_peers e nodes w = Ok w' →
  nCountFailures (sync w') = nCountFailures (sync w).
Proof.
  revert w. induction nodes as [|p nodes IH]; intros w; cbn; [by intros [= <-]|].
  pose proof (peer_body_count e p w) as Hc.
  destruct (peer_body e p w) as [w1|w1|what]; [| |done].
  - intros ->%IH. done.
  - by intros [= <-].
Qed.

Lemma IsBlockchainSynced_count fb e w : count_kept w (IsBlockchainSynced fb e w).2.
Proof.
  destruct (IsBlockchainSynced fb e w) as [b w'] eqn:Hg.
  apply IsBlockchainSynced_frame in Hg as (_ & _ & _ & _ & Hni & Hid).
  unfold count_kept. cbn.
  destruct (idle_dec e w) as [Hi|Hi]; [right; by rewrite (Hid Hi)|left; by rewrite (Hni Hi)].
Qed.

Lemma ProcessTick_bootstrap_count e w r :
  ProcessTick_bootstrap e w = Ok r → count_kept w (setup_world r).
Proof.
  unfold ProcessTick_bootstrap.
  assert (∃ wait w1, (if regtest e then (false, w)
            else let '(synced, w') := IsBlockchainSynced false e w in
                 (negb synced && (asset_code (nRequestedZnodeAssets (sync w'))
                                  >? asset_code ZNODE_SYNC_SPORKS), w')) = (wait, w1)
          ∧ count_kept w w1) as (wait & w1 & -> & Hk1).
  { destruct (regtest e); [exists false, w; split; [done|apply count_kept_refl]|].
    pose proof (IsBlockchainSynced_count false e w) as Hk.
    destruct (IsBlockchainSynced false e w) as [b w1]. eexists _, w1. by split. }
  destruct wait; [intros [= <-]; exact Hk1|].
  assert (∃ adv w2, (if bool_decide (nRequestedZnodeAssets (sync w1) = ZNODE_SYNC_INITIAL)
            then (true, w1)
            else if bool_decide (nRequestedZnodeAssets (sync w1) = ZNODE_SYNC_SPORKS)
                 then IsBlockchainSynced false e w1 else (false, w1)) = (adv, w2)
          ∧ count_kept w1 w2) as (adv & w2 & -> & Hk2).
  { repeat case_match; try (eexists _, w1; split; [done|apply count_kept_refl]).
    pose proof (IsBlockchainSynced_count false e w1) as Hk.
    destruct (IsBlockchainSynced false e w1) as [b w2]. eexists _, w2. by split. }
  pose proof (count_kept_trans _ _ _ Hk1 Hk2) as Hk.
  destruct adv; [|by intros [= <-]].
  destruct (SwitchToNextAsset e w2) as [w3|] eqn:Hsw; [|done].
  intros [= <-]. apply SwitchToNextAsset_frame in Hsw as (_ & _ & _ & Hc & _).
  eapply count_kept_trans; [exact Hk|by left].
Qed.

Lemma ProcessTick_count e w w' : ProcessTick e w = Ok w' → count_kept w w'.
Proof.
  unfold ProcessTick.
  destruct (ProcessTick_setup e w) as [r|] eqn:Hs; [|done].
  assert (count_kept w (setup_world r)) as Hk.
  { revert Hs. unfold ProcessTick_setup.
    repeat case_match; try (intros [= <-]; by (left + right));
      intros Hb%ProcessTick_bootstrap_count;
      (eapply count_kept_trans; [|exact Hb]); by (left + right). }
  destruct r as [w1|w1]; [by intros [= <-]|].
  intros Hp%ProcessTick_peers_count. eapply count_kept_trans; [exact Hk|by left].
Qed.

Lemma step_count w w' : step w w' → count_kept w w'.
Proof.
  destruct 1 as [e w w' H|fb e w|pindex w|w|e w|e w|e w w' H|w w' Hs _ _].
  - by apply ProcessTick_count in H.
  - apply IsBlockchainSynced_count.
  - by left.
  - by left.
  - by right.
  - by left.
  - apply SwitchToNextAsset_frame in H as (_ & _ & _ & Hc & _). by left.
  - left. by rewrite Hs.
Qed.

(** C9. In every reachable state the failure counter is 0: [Reset] sets it
    to 0 and no operation, [Fail] included, writes anything else to it. *)
Theorem C9_failure_counter_stays_zero (w : World) :
  reachable w → nCountFailures (sync w) = 0.
Proof.
  induction 1 as [e w|w w' _ IH Hstep]; [done|].
  destruct (step_count w w' Hstep) as [Hc|Hc]; [by rewrite Hc|done].
Qed.

Lemma C9_failure_counter_stays_zero_witness :
  nCountFailures
    (sync (Fail (Sample.env 1031 false true 5)
             (Reset (Sample.env 1000 false true 5)
                (Sample.world (Sample.coordinator ZNODE_SYNC_LIST 0 995 0)
                   (Sample.statics true 995) [Sample.peer 1] ∅)))) = 0.
Proof.
  apply C9_failure_counter_stays_zero.
  eapply reachable_step; [apply reachable_init | apply step_Fail].
Defined.

(** ** One phase-specific request per tick *)

(** In normal mode the body returns only at a sync source already recorded
    for the sporks, in the roster or payment phase. *)
Lemma peer_body_Return_source e p w w' :
  regtest e = false →
  peer_body e p w = Return w' →
  sync_source e p ∧ (addr p, spork_sync) ∈ fulfilled w
  ∧ (nRequestedZnodeAssets (sync w) = ZNODE_SYNC_LIST
     ∨ nRequestedZnodeAssets (sync w) = ZNODE_SYNC_MNW).
Proof.
  intros Hr. unfold peer_body. rewrite Hr.
  destruct (fZnode p || (fZNode e && fInbound p)) eqn:Hrole; [done|].
  apply sync_source_spec in Hrole.
  destruct (HasFulfilledRequest (addr p) full_sync w); [done|].
  destruct (HasFulfilledRequest (addr p) spork_sync w) eqn:Hsp; [|done].
  apply HasFulfilledRequest_true in Hsp. cbn [negb].
  destruct (nRequestedZnodeAssets (sync w)); try done; auto.
Qed.

Lemma peer_body_Return_early e p w w' :
  regtest e = false →
  peer_body e p w = Return w' →
  ∃ evs, trace w' = trace w ++ evs ∧ returned_early e w w' p evs.
Proof.
  intros Hr Hb. unfold returned_early.
  apply (peer_body_Return_shape e p w w' Hr) in Hb
    as [(Ha & Hnto & Hs & _ & (evs & Hev & Hne & Hall) & _ & Hver & _)
       | [(-> & Hto & Hz) | (Hsw & Hcase)]].
  - exists evs. split; [done|]. left.
    split; [by rewrite Hs|]. split; [|done].
    unfold timed_out in *. by rewrite Hs.
  - exists []. rewrite app_nil_r. split; [done|]. right. split; [done|]. by left.
  - pose proof Hsw as (_ & _ & _ & _ & _ & _ & Hn & Hm)%SwitchToNextAsset_frame.
    destruct Hcase as [(Ha & Hto & Hz) | (Ha & Hwhy)].
    + exists []. rewrite app_nil_r.
      split; [by apply Hn; rewrite Ha|]. right. split; [done|]. right. left.
      split; [done|]. split; [done|]. split; [done|].
      revert Hsw. unfold SwitchToNextAsset. rewrite Ha. by intros [= <-].
    + exists [ManageState]. destruct (Hm Ha) as [Ht Hfin].
      split; [done|]. right. split; [done|]. right. right. done.
Qed.

(** A step of the loop that goes on keeps what [returned_early] looks at;
    it sends the spork request at most. *)
Lemma returned_early_Continue e w w1 w' r pre evs :
  sync w1 = sync w →
  phase_specific_targets pre = [] →
  returned_early e w1 w' r evs → returned_early e w w' r (pre ++ evs).
Proof.
  unfold returned_early, timed_out. intros Hs Hpre.
  rewrite phase_specific_targets_app, Hpre. cbn [app]. by rewrite Hs.
Qed.

(** The spork requests over a step of the loop that goes on: what the rest
    of the loop covers from the state after the step, the whole loop covers
    from the state before it. *)
Lemma spork_coverage_step e p0 w w1 pre (L Q : list CNode) evs :
  regtest e = false →
  peer_body e p0 w = Continue w1 →
  trace w1 = trace w ++ pre →
  (∀ p, p ∈ L → eligible e w1 p → (addr p, spork_sync) ∉ fulfilled w1 →
        ∃ q, q ∈ Q ∧ addr q = addr p ∧ PushMessage (node_id q) GETSPORKS ∈ evs) →
  ∀ p, p ∈ p0 :: L → eligible e w p → (addr p, spork_sync) ∉ fulfilled w →
       ∃ q, q ∈ p0 :: Q ∧ addr q = addr p
            ∧ PushMessage (node_id q) GETSPORKS ∈ pre ++ evs.
Proof.
  intros Hr Hb Hpre Hcov p Hp Hel Hns.
  pose proof Hb as (_&_&_& Hsub & Hfull & Hspork & Htr & Hask)%peer_body_Continue.
  apply elem_of_cons in Hp as [-> | Hp].
  - exists p0. split; [by left|]. split; [done|].
    specialize (Hask Hel Hr Hns). rewrite Hpre in Hask.
    apply app_inv_head in Hask. subst pre. set_solver.
  - destruct (decide ((addr p, spork_sync) ∈ fulfilled w1)) as [Hin|Hnin].
    + destruct (Hspork _ Hin) as [?|[Ha Hsent]]; [done|].
      exists p0. split; [by left|]. split; [done|].
      rewrite Hpre in Hsent. apply app_inv_head in Hsent. subst pre. set_solver.
    + destruct (Hcov p Hp) as (q & Hq & Haq & Hev); [|done|].
      { destruct Hel as [? Hnf]. split; [done|]. intros ?. apply Hnf. eauto. }
      exists q. split; [by right|]. split; [done|]. set_solver.
Qed.

(** One run of the normal-mode loop: either it asks every eligible, not yet
    recorded address of the list for the sporks, or it returns at a peer
    [r] of the list in one of the ways of [returned_early], having asked
    the addresses before [r]. *)
Lemma ProcessTick_peers_sporks_or_return e nodes w w' :
  regtest e = false →
  ProcessTick_peers e nodes w = Ok w' →
  ∃ evs, trace w' = trace w ++ evs
    ∧ ((∀ p, p ∈ nodes → eligible e w p → (addr p, spork_sync) ∉ fulfilled w →
             ∃ q, q ∈ nodes ∧ addr q = addr p
                  ∧ PushMessage (node_id q) GETSPORKS ∈ evs)
       ∨ ∃ pre r post,
           nodes = pre ++ r :: post ∧ sync_source e r
           ∧ (nRequestedZnodeAssets (sync w) = ZNODE_SYNC_LIST
              ∨ nRequestedZnodeAssets (sync w) = ZNODE_SYNC_MNW)
           ∧ returned_early e w w' r evs
           ∧ ∀ p, p ∈ pre ++ [r] → eligible e w p →
                  (addr p, spork_sync) ∉ fulfilled w →
                  ∃ q, q ∈ pre ∧ addr q = addr p
                       ∧ PushMessage (node_id q) GETSPORKS ∈ evs).
Proof.
  intros Hr. revert w. induction nodes as [|p0 nodes IH]; intros w; cbn [ProcessTick_peers].
  { intros [= <-]. exists []. rewrite app_nil_r. split; [done|]. left.
    intros p Hp. by apply elem_of_nil in Hp. }
  destruct (peer_body e p0 w) as [w1|w1|what] eqn:Hb; [| |done].
  - intros (evs & Hev & Hcase)%IH.
    pose proof Hb as (Hs & _ & _ & _ & _ & _ & Htr & _)%peer_body_Continue.
    assert (∃ pre, trace w1 = trace w ++ pre ∧ phase_specific_targets pre = [])
      as (pre & Hpre & Hno).
    { destruct Htr as [Htr|Htr]; [exists []; by rewrite app_nil_r|by eexists]. }
    exists (pre ++ evs). split; [by rewrite Hev, Hpre, <- app_assoc|].
    destruct Hcase as [Hall | (pre_l & r & post & -> & Hsrc & Ha & Hearly & Hcov)].
    + left. by apply (spork_coverage_step e p0 w w1 pre nodes nodes evs).
    + right. exists (p0 :: pre_l), r, post.
      split; [done|]. split; [done|]. split; [by rewrite <- Hs|].
      split; [by apply (returned_early_Continue e w w1)|].
      by apply (spork_coverage_step e p0 w w1 pre (pre_l ++ [r]) pre_l evs).
  - intros [= <-].
    destruct (peer_body_Return_early e p0 w w1 Hr Hb) as (evs & Hev & Hearly).
    destruct (peer_body_Return_source e p0 w w1 Hr Hb) as (Hsrc & Hsp & Ha).
    exists evs. split; [done|]. right. exists [], p0, nodes.
    split; [done|]. split; [done|]. split; [done|]. split; [done|].
    cbn [app]. intros p [-> | Hp]%elem_of_cons _ Hns; [done|].
    by apply elem_of_nil in Hp.
Qed.

(** The state in which the loop of a tick starts, when the bootstrap of
    lines 312-320 goes on to it: the coordinator as the bootstrap found it,
    or an asset in which the loop does not return early, or the roster
    phase just entered, which is not timed out. *)
Lemma ProcessTick_bootstrap_loop_state e w w1 :
  ProcessTick_bootstrap e w = Ok (Proceed w1) →
  sync w1 = sync w
  ∨ (nRequestedZnodeAssets (sync w1) ≠ ZNODE_SYNC_LIST
     ∧ nRequestedZnodeAssets (sync w1) ≠ ZNODE_SYNC_MNW)
  ∨ (nRequestedZnodeAssets (sync w1) = ZNODE_SYNC_LIST ∧ ¬ timed_out e w1).
Proof.
  unfold ProcessTick_bootstrap.
  assert (∃ wait w0, (if regtest e then (false, w)
            else let '(synced, w') := IsBlockchainSynced false e w in
                 (negb synced && (asset_code (nRequestedZnodeAssets (sync w'))
                                  >? asset_code ZNODE_SYNC_SPORKS), w')) = (wait, w0)
          ∧ (sync w0 = sync w
             ∨ nRequestedZnodeAssets (sync w0) = ZNODE_SYNC_INITIAL))
    as (wait & w0 & -> & Hs0).
  { destruct (regtest e); [exists false, w; by auto|].
    destruct (IsBlockchainSynced false e w) as [b w0] eqn:Hg.
    apply IsBlockchainSynced_frame in Hg as (_ & _ & _ & _ & Hni & Hid).
    eexists _, w0. split; [done|].
    destruct (idle_dec e w) as [Hi|Hi]; [right; by rewrite (Hid Hi)|left; auto]. }
  destruct wait; [done|].
  case_bool_decide as Hinit.
  { unfold SwitchToNextAsset. rewrite Hinit. intros [= <-]. right. left.
    cbn. destruct (ClearFulfilledRequests_frame e w0) as (Hc & _).
    cbn in Hc. done. }
  destruct Hs0 as [Hs0|Hs0]; [|done].
  case_bool_decide as Hsp; [|intros [= <-]; by left].
  destruct (IsBlockchainSynced false e w0) as [b w2] eqn:Hg.
  apply IsBlockchainSynced_frame in Hg as (_ & _ & _ & _ & Hni & Hid).
  destruct (idle_dec e w0) as [Hi|Hi].
  - (* a reset by the gate: the asset is Initial *)
    specialize (Hid Hi).
    destruct b.
    + unfold SwitchToNextAsset. rewrite Hid. cbn. intros [= <-]. right. left.
      cbn. done.
    + intros [= <-]. right. left. rewrite Hid. cbn. done.
  - specialize (Hni Hi).
    destruct b; [|intros [= <-]; left; by rewrite Hni].
    unfold SwitchToNextAsset. rewrite Hni, Hsp. intros [= <-]. right. right.
    split; [done|]. unfold timed_out, ZNODE_SYNC_TIMEOUT_SECONDS. cbn. lia.
Qed.

(** The bootstrap goes on to the loop unless the chain gate holds back an
    asset past the sporks (line 312). *)
Lemma ProcessTick_bootstrap_proceeds e w :
  (nRequestedZnodeAssets (sync w) = ZNODE_SYNC_INITIAL
   ∨ nRequestedZnodeAssets (sync w) = ZNODE_SYNC_SPORKS
   ∨ regtest e = true ∨ idle e w
   ∨ (IsBlockchainSynced false e w).1 = true) →
  ∃ w1, ProcessTick_bootstrap e w = Ok (Proceed w1).
Proof.
  intros Hgo. destruct (ProcessTick_bootstrap_returns e w) as (r & Hret).
  destruct r as [w1|w1]; [|by eauto].
  exfalso. revert Hret. unfold ProcessTick_bootstrap.
  assert (∃ w0, (if regtest e then (false, w)
            else let '(synced, w') := IsBlockchainSynced false e w in
                 (negb synced && (asset_code (nRequestedZnodeAssets (sync w'))
                                  >? asset_code ZNODE_SYNC_SPORKS), w')) = (false, w0))
    as (w0 & ->).
  { destruct (regtest e) eqn:Hr; [by eauto|].
    destruct (IsBlockchainSynced false e w) as [b w0] eqn:Hg.
    exists w0. f_equal.
    apply IsBlockchainSynced_frame in Hg as (_ & _ & _ & _ & Hni & Hid).
    destruct (idle_dec e w) as [Hi|Hi].
    { rewrite (Hid Hi). cbn. by rewrite andb_false_r. }
    rewrite (Hni Hi).
    destruct Hgo as [-> | [-> | [? | [? | Hb]]]]; try done;
      try (cbn; by rewrite andb_false_r).
    cbn in Hb. by rewrite Hb. }
  repeat case_match; done.
Qed.

(** The loop of a tick that gets to it, from the coordinator as the tick
    found it, unless the loop starts in a state from which it can return
    only on a request. *)
Lemma ProcessTick_setup_loop_state e w w1 :
  ProcessTick_setup e w = Ok (Proceed w1) →
  sync w1 = sync w
  ∨ (nRequestedZnodeAssets (sync w1) ≠ ZNODE_SYNC_LIST
     ∧ nRequestedZnodeAssets (sync w1) ≠ ZNODE_SYNC_MNW)
  ∨ (nRequestedZnodeAssets (sync w1) = ZNODE_SYNC_LIST ∧ ¬ timed_out e w1).
Proof.
  unfold ProcessTick_setup.
  destruct (negb (Z.rem (nTick w) ZNODE_SYNC_TICK_SECONDS =? 0)); [done|].
  destruct (negb (bool_decide _)); [done|].
  destruct (IsSynced (with_nTick (nTick w + 1) w) && negb (CountZnodes e =? 0));
    [done|].
  set (w0 := if IsSynced (with_nTick (nTick w + 1) w)
             then Reset e (with_nTick (nTick w + 1) w)
             else with_nTick (nTick w + 1) w).
  assert (sync w0 = sync w
          ∨ nRequestedZnodeAssets (sync w0) = ZNODE_SYNC_INITIAL) as H0.
  { unfold w0. destruct (IsSynced _); [by right|by left]. }
  clearbody w0. destruct (IsFailed w0); [done|].
  intros [Hs | [Hn | Hl]]%ProcessTick_bootstrap_loop_state.
  - destruct H0 as [H0|H0]; [left; by rewrite Hs|].
    right. left. by rewrite Hs, H0.
  - by right; left.
  - by right; right.
Qed.

(** Roster phase, two peers: the first one already gave its sporks, gets the
    roster request, and the tick returns (line 399); the second one, who was
    never asked for the sporks, is not asked in this tick. *)
Lemma C8_one_request_counterexample :
  ¬ one_request_as_stated (Sample.env 1000 false true 5)
      (Sample.world (Sample.coordinator ZNODE_SYNC_LIST 0 995 0)
         (Sample.statics true 995) [Sample.peer 1; Sample.peer 2]
         {[ (101, spork_sync) ]}).
Proof.
  unfold one_request_as_stated. intros H.
  edestruct H as [_ H2]; [reflexivity | split; [reflexivity | cbn; eauto] | |].
  { vm_compute. reflexivity. }
  specialize (H2 (Sample.peer 2)).
  cbv [new_events trace Sample.world length drop] in H2.
  assert (PushMessage (node_id (Sample.peer 2)) GETSPORKS ∈ [DsegUpdate 1]) as Hin.
  { apply H2.
    - set_solver.
    - split; [done|]. cbn. set_solver.
    - cbn. set_solver. }
  set_solver.
Qed.

(** C8 (amended). In normal mode every tick returns and within it at most
    one peer receives a phase-specific request.  When the tick gets to the
    per-peer pass (a working tick, not in Failed, in Finished only with an
    empty roster, and with an asset past the sporks only when the gate
    judges the chain synced or resets on idleness), it either asks every
    eligible, not yet recorded address of the snapshot for the sporks, or
    returns at a sync source [r] of the snapshot in one of the ways of
    [returned_early]: on a roster or payment request to [r], or on a
    timeout or the sufficiency exit of the roster or payment phase; the
    addresses before [r] have been asked, those after [r] are not looked
    at in this tick. *)
Theorem C8_one_phase_request_per_tick (e : Env) (w : World) :
  regtest e = false →
  ∃ w', ProcessTick e w = Ok w'
    ∧ (∀ i j, i ∈ phase_specific_targets (new_events w w') →
              j ∈ phase_specific_targets (new_events w w') → i = j)
    ∧ (working_tick w →
       nRequestedZnodeAssets (sync w) ≠ ZNODE_SYNC_FAILED →
       (nRequestedZnodeAssets (sync w) = ZNODE_SYNC_FINISHED → CountZnodes e = 0) →
       (nRequestedZnodeAssets (sync w) = ZNODE_SYNC_LIST
        ∨ nRequestedZnodeAssets (sync w) = ZNODE_SYNC_MNW
        ∨ nRequestedZnodeAssets (sync w) = ZNODE_SYNC_GOVERNANCE →
        idle e w ∨ (IsBlockchainSynced false e (tick_counted w)).1 = true) →
       (∀ p, p ∈ vNodes w → eligible e w p → (addr p, spork_sync) ∉ fulfilled w →
             ∃ q, q ∈ vNodes w ∧ addr q = addr p
                  ∧ PushMessage (node_id q) GETSPORKS ∈ new_events w w')
       ∨ ∃ pre r post,
           vNodes w = pre ++ r :: post ∧ sync_source e r
           ∧ returned_early e w w' r (new_events w w')
           ∧ ∀ p, p ∈ pre ++ [r] → eligible e w p →
                  (addr p, spork_sync) ∉ fulfilled w →
                  ∃ q, q ∈ pre ∧ addr q = addr p
                       ∧ PushMessage (node_id q) GETSPORKS ∈ new_events w w').
Proof.
  intros Hr. destruct (ProcessTick_returns e w) as (w' & Hret).
  exists w'. split; [done|]. split.
  { revert Hret. unfold ProcessTick.
    destruct (ProcessTick_setup e w) as [[w1|w1]|] eqn:Hs; [| |done].
    - intros [= <-]. apply ProcessTick_setup_frame in Hs as (Ht & _). cbn in Ht.
      rewrite (new_events_app w w1 []) by (by rewrite app_nil_r).
      cbn. set_solver.
    - intros Hp. apply ProcessTick_setup_frame in Hs as (Ht & Hv & Hf). cbn in *.
      apply ProcessTick_peers_targets in Hp as (evs & Hevs & Hone).
      rewrite (new_events_app w w' evs) by (by rewrite Hevs, Ht). done. }
  intros Hw Hnf Hfin Hgate.
  (* the tick gets to the loop *)
  assert (∃ w1, ProcessTick_setup e w = Ok (Proceed w1)) as (w1 & Hs).
  { destruct (decide (nRequestedZnodeAssets (sync w) = ZNODE_SYNC_FINISHED)) as [Hf|Hf].
    - rewrite ProcessTick_setup_resync by auto.
      destruct (ProcessTick_bootstrap_initial e (Reset e (tick_counted w)))
        as (w2 & -> & _); [done|]. by eauto.
    - rewrite ProcessTick_setup_syncing by done.
      apply ProcessTick_bootstrap_proceeds.
      destruct (nRequestedZnodeAssets (sync w)) eqn:Ha; try done; auto;
        (destruct Hgate as [Hi | Hg]; [by auto | by auto 6 | by auto 6]). }
  pose proof (ProcessTick_setup_frame e w _ Hs) as (Ht & Hv & Hf).
  pose proof (ProcessTick_setup_loop_state e w w1 Hs) as Hstate.
  cbn [setup_world] in Ht, Hv, Hf.
  revert Hret. unfold ProcessTick. rewrite Hs.
  intros (evs & Hev & Hcase)%ProcessTick_peers_sporks_or_return; [|done].
  rewrite (new_events_app w w' evs) by (by rewrite Hev, Ht).
  assert (∀ p, eligible e w p → eligible e w1 p) as Hel.
  { intros p [Hsrc Hnf']. split; [done|]. intros Hin. by apply Hnf', Hf. }
  assert (∀ p, (addr p, spork_sync) ∉ fulfilled w → (addr p, spork_sync) ∉ fulfilled w1)
    as Hns.
  { intros p Hn Hin. by apply Hn, Hf. }
  rewrite Hv in Hcase.
  destruct Hcase as [Hall | (pre & r & post & Hsplit & Hsrc & Ha & Hearly & Hcov)].
  { left. intros p Hp Hep Hnp. by apply Hall; auto. }
  right. exists pre, r, post. split; [done|]. split; [done|].
  split; [|intros p Hp Hep Hnp; by apply Hcov; auto].
  destruct Hstate as [Hsame | [[Hn1 Hn2] | [Hl Hfresh]]].
  - revert Hearly. unfold returned_early, timed_out. by rewrite Hsame.
  - by destruct Ha.
  - destruct Hearly as [Hreq | (_ & [(Hto & _) | [(_ & Hto & _) | (Hm & _)]])];
      [by left|done|done|congruence].
Qed.

Lemma C8_one_phase_request_per_tick_witness :
  ∃ w', ProcessTick (Sample.env 1000 false true 5)
          (Sample.world (Sample.coordinator ZNODE_SYNC_SPORKS 0 995 0)
             (Sample.statics false 995) [Sample.peer 1; Sample.peer 2]
             {[ (101, spork_sync) ]}) = Ok w'
    ∧ ∃ q, addr q = addr (Sample.peer 2)
           ∧ PushMessage (node_id q) GETSPORKS
             ∈ new_events
                 (Sample.world (Sample.coordinator ZNODE_SYNC_SPORKS 0 995 0)
                    (Sample.statics false 995) [Sample.peer 1; Sample.peer 2]
                    {[ (101, spork_sync) ]}) w'.
Proof.
  destruct (C8_one_phase_request_per_tick (Sample.env 1000 false true 5)
              (Sample.world (Sample.coordinator ZNODE_SYNC_SPORKS 0 995 0)
                 (Sample.statics false 995) [Sample.peer 1; Sample.peer 2]
                 {[ (101, spork_sync) ]}))
    as (w' & Hret & _ & Hcov); [reflexivity|].
  exists w'. split; [exact Hret|].
  destruct Hcov as [Hall | (pre & r & post & _ & _ & Hearly & _)].
  - split; [reflexivity | cbn; eauto].
  - discriminate.
  - discriminate.
  - intros [Ha | [Ha | Ha]]; discriminate Ha.
  - destruct (Hall (Sample.peer 2)) as (q & _ & Ha & Hev).
    + apply list_elem_of_In. right. left. reflexivity.
    + split; [done|]. not_in_sample_ledger.
    + not_in_sample_ledger.
    + exists q. split; [exact Ha | exact Hev].
  - (* the tick ends in the spork phase: the loop did not return early *)
    exfalso.
    assert (nRequestedZnodeAssets (sync w') = ZNODE_SYNC_SPORKS) as Hsp.
    { vm_compute in Hret. by injection Hret as <-. }
    destruct Hearly as [([Ha | Ha] & _) | (_ & [(Hto & _) | [(Ha & _) | (Ha & _)]])].
    + rewrite Hsp in Ha. discriminate Ha.
    + rewrite Hsp in Ha. discriminate Ha.
    + exact Hto.
    + discriminate Ha.
    + discriminate Ha.
Defined.

(** ** The resync of a finished coordinator *)

(** The ledger after [ClearFulfilledRequests]: with the peer list locked
    the four sync records of the connected addresses are gone, without the
    lock nothing is removed. *)
Lemma ClearFulfilledRequests_ledger e w a l :
  (a, l) ∈ fulfilled (ClearFulfilledRequests e w)
  ↔ (a, l) ∈ fulfilled w
    ∧ (lockRecv e = true → ¬ (a ∈ addr <$> vNodes w ∧ l ∈ sync_labels)).
Proof.
  unfold ClearFulfilledRequests. destruct (lockRecv e); cbn [negb].
  - rewrite foldl_RemoveFulfilledRequest_spec. naive_solver.
  - naive_solver.
Qed.

Lemma sync_source_among e (nodes : list CNode) :
  (∃ p, p ∈ nodes ∧ sync_source e p) ∨ (∀ p, p ∈ nodes → ¬ sync_source e p).
Proof.
  induction nodes as [|p0 nodes [(p & Hp & Hs) | IH]].
  - right. intros p Hp. by apply elem_of_nil in Hp.
  - left. exists p. split; [by right|done].
  - destruct (fZnode p0 || (fZNode e && fInbound p0)) eqn:Hrole.
    + right. intros p [-> | Hp]%elem_of_cons; [|by apply IH].
      intros Hs%sync_source_spec. congruence.
    + left. exists p0. split; [by left|by apply sync_source_spec].
Qed.

(** One step of the normal-mode loop outside the roster and payment
    phases: the peer is passed over, marked for disconnection, or asked for
    the sporks and recorded; the loop goes on in each case. *)
Lemma peer_body_spork_pass e p w :
  regtest e = false →
  nRequestedZnodeAssets (sync w) ≠ ZNODE_SYNC_LIST →
  nRequestedZnodeAssets (sync w) ≠ ZNODE_SYNC_MNW →
  (peer_body e p w = Continue w
   ∧ (sync_source e p →
      ((addr p, full_sync) ∉ fulfilled w) ∧ (addr p, spork_sync) ∈ fulfilled w))
  ∨ (peer_body e p w = Continue (disconnect p w)
     ∧ sync_source e p ∧ (addr p, full_sync) ∈ fulfilled w)
  ∨ (peer_body e p w
     = Continue (emit (PushMessage (node_id p) GETSPORKS)
                   (AddFulfilledRequest (addr p) spork_sync w))
     ∧ sync_source e p ∧ ((addr p, full_sync) ∉ fulfilled w)
     ∧ (addr p, spork_sync) ∉ fulfilled w).
Proof.
  intros Hr Hl Hm. unfold peer_body. rewrite Hr.
  destruct (fZnode p || (fZNode e && fInbound p)) eqn:Hrole.
  { left. split; [done|]. intros Hs%sync_source_spec. congruence. }
  apply sync_source_spec in Hrole.
  destruct (HasFulfilledRequest (addr p) full_sync w) eqn:Hfull.
  { apply HasFulfilledRequest_true in Hfull. right. left. done. }
  apply HasFulfilledRequest_false in Hfull.
  destruct (HasFulfilledRequest (addr p) spork_sync w) eqn:Hsp; cbn [negb].
  2:{ apply HasFulfilledRequest_false in Hsp. right. right. done. }
  apply HasFulfilledRequest_true in Hsp. left.
  split; [|done]. by destruct (nRequestedZnodeAssets (sync w)).
Qed.

(** A whole run of that loop: it returns with the coordinator as it was;
    the records it adds are spork records of sync sources that have no
    full-sync record; it sends spork requests only, to such peers not yet
    recorded for the sporks; it marks the sync sources that have a
    full-sync record, and leaves the peers alone when there is none. *)
Lemma ProcessTick_peers_spork_pass e nodes w w' :
  regtest e = false →
  nRequestedZnodeAssets (sync w) ≠ ZNODE_SYNC_LIST →
  nRequestedZnodeAssets (sync w) ≠ ZNODE_SYNC_MNW →
  ProcessTick_peers e nodes w = Ok w' →
  sync w' = sync w
  ∧ (∀ a l, (a, l) ∈ fulfilled w'
            ↔ (a, l) ∈ fulfilled w
              ∨ (l = spork_sync ∧ ((a, full_sync) ∉ fulfilled w)
                 ∧ ∃ p, p ∈ nodes ∧ sync_source e p ∧ addr p = a))
  ∧ (∃ evs, trace w' = trace w ++ evs
            ∧ ∀ ev, ev ∈ evs →
                    ∃ q, q ∈ nodes ∧ sync_source e q
                         ∧ ((addr q, full_sync) ∉ fulfilled w)
                         ∧ ((addr q, spork_sync) ∉ fulfilled w)
                         ∧ ev = PushMessage (node_id q) GETSPORKS)
  ∧ ((∀ p, p ∈ nodes → sync_source e p → (addr p, full_sync) ∉ fulfilled w) →
     vNodes w' = vNodes w)
  ∧ (∀ p, p ∈ nodes → sync_source e p → (addr p, full_sync) ∈ fulfilled w →
          ∀ q, q ∈ vNodes w' → node_id q = node_id p → fDisconnect q = true).
Proof.
  intros Hr. revert w.
  induction nodes as [|p0 nodes IH]; intros w Hl Hm; cbn [ProcessTick_peers].
  { intros [= <-]. split; [done|]. split; [set_solver|].
    split; [|split; [done|set_solver]].
    exists []. rewrite app_nil_r. split; [done|]. set_solver. }
  destruct (peer_body_spork_pass e p0 w Hr Hl Hm)
    as [(-> & Hpass) | [(-> & Hsrc & Hfull) | (-> & Hsrc & Hfull & Hsp)]].
  - intros (Hs & HF & (evs & Ht & Hev) & Hv & Hmark)%IH; [|done..].
    split; [done|]. split; [|split; [|split]].
    + intros a l. rewrite HF. split.
      * intros [?|(? & ? & q & ? & ? & ?)]; [by left|].
        right. split; [done|]. split; [done|]. exists q. set_solver.
      * intros [?|(-> & Hnf & q & [-> | Hq]%elem_of_cons & Hq2 & <-)]; [by left| |].
        -- left. by apply Hpass.
        -- right. eauto 6.
    + exists evs. split; [done|]. intros ev (q & ? & ? & ? & ? & ?)%Hev.
      exists q. split; [by right|done].
    + intros Hnone. apply Hv. intros p Hp. apply Hnone. by right.
    + intros p [-> | Hp]%elem_of_cons Hps Hpf; [|by apply Hmark].
      by destruct (Hpass Hps).
  - intros Hrest.
    pose proof Hrest as (Hs & HF & (evs & Ht & Hev) & Hv & Hmark)%IH; [|done..].
    split; [done|]. split; [|split; [|split]].
    + intros a l. rewrite HF. cbn [fulfilled disconnect with_vNodes]. split.
      * intros [?|(? & ? & q & ? & ? & ?)]; [by left|].
        right. split; [done|]. split; [done|]. exists q. set_solver.
      * intros [?|(-> & Hnf & q & [-> | Hq]%elem_of_cons & Hq2 & <-)]; [by left|done|].
        right. eauto 6.
    + exists evs. split; [done|]. intros ev (q & ? & ? & ? & ? & ?)%Hev.
      exists q. split; [by right|done].
    + intros Hnone. exfalso. by apply (Hnone p0); [left|..].
    + intros p [-> | Hp]%elem_of_cons Hps Hpf; [|by apply Hmark].
      apply ProcessTick_peers_peers in Hrest as [Hraised _].
      apply (flag_raised_keeps_marked _ _ (node_id p0) Hraised).
      apply disconnect_marks.
  - intros (Hs & HF & (evs & Ht & Hev) & Hv & Hmark)%IH; [|done..].
    split; [done|]. split; [|split; [|split]].
    + intros a l. rewrite HF.
      cbn [fulfilled emit AddFulfilledRequest with_fulfilled].
      rewrite !elem_of_union, !elem_of_singleton. split.
      * intros [[[= -> ->]|?]|(-> & Hnf & q & ? & ? & ?)].
        -- right. split; [done|]. split; [done|]. exists p0. set_solver.
        -- by left.
        -- right. split; [done|]. split; [tauto|]. exists q. set_solver.
      * intros [?|(-> & Hnf & q & [-> | Hq]%elem_of_cons & Hq2 & <-)].
        -- left. by right.
        -- left. by left.
        -- right. split; [done|]. split; [|by eauto].
           intros [[=]|?]; done.
    + exists (PushMessage (node_id p0) GETSPORKS :: evs).
      split; [rewrite Ht; cbn; by rewrite <- app_assoc|].
      intros ev [-> | (q & ? & ? & Hqf & Hqs & ?)%Hev]%elem_of_cons.
      * exists p0. split; [by left|done].
      * exists q. split; [by right|]. split; [done|].
        revert Hqf Hqs. cbn [fulfilled emit AddFulfilledRequest with_fulfilled].
        rewrite !elem_of_union. tauto.
    + intros Hnone. rewrite Hv; [done|].
      intros p Hp Hps. cbn [fulfilled emit AddFulfilledRequest with_fulfilled].
      rewrite elem_of_union, elem_of_singleton.
      intros [[=]|?]. by apply (Hnone p); [right|..].
    + intros p [-> | Hp]%elem_of_cons Hps Hpf; [done|].
      apply Hmark; [done..|].
      cbn [fulfilled emit AddFulfilledRequest with_fulfilled].
      apply elem_of_union. by right.
Qed.

(** After the reset of line 288 the tick goes on, and line 319 moves the
    coordinator to the sporks in the same tick. *)
Lemma C1_resync_counterexample :
  ¬ resync_as_stated (Sample.env 1000 false true 0)
      (Sample.world (Sample.coordinator ZNODE_SYNC_FINISHED 0 500 0)
         (Sample.statics true 995) [Sample.peer 1] ∅).
Proof.
  unfold resync_as_stated. intros H.
  destruct H as (w' & Ht & Hi); [split; [reflexivity | cbn; eauto] | reflexivity..|].
  vm_compute in Ht. injection Ht as <-. discriminate Hi.
Qed.

(** C1 (amended). A working tick that starts in Finished with an empty
    roster performs the full reset and goes on in the same tick: it moves
    from Initial to the sporks, which clears the sync records of the
    connected addresses when the try-lock on the peer list succeeds and
    leaves the ledger alone when it fails, and runs the peer loop.  At the
    end of the tick the phase is Sporks, the failure counter and the last
    failure are 0 and the four phase timestamps are the current time.  In
    normal mode the loop asks for the sporks every sync source whose address
    has no full-sync and no spork record left (every sync source after a
    clearing), records these addresses, sends nothing else and counts no
    attempt; it changes the peers only by raising [fDisconnect], marks no
    peer after a clearing, and without a clearing marks the sync sources
    whose address has a full-sync record.  In regtest the loop sends
    the spork request to one sync source and counts one attempt, or does
    nothing when there is no sync source; it adds no record and marks no
    peer. *)
Theorem C1_resync_restarts_in_same_tick (e : Env) (w : World) :
  working_tick w →
  nRequestedZnodeAssets (sync w) = ZNODE_SYNC_FINISHED →
  CountZnodes e = 0 →
  ∃ w', ProcessTick e w = Ok w'
        ∧ nRequestedZnodeAssets (sync w') = ZNODE_SYNC_SPORKS
        ∧ nCountFailures (sync w') = 0
        ∧ nTimeLastFailure (sync w') = 0
        ∧ nTimeAssetSyncStarted (sync w') = GetTime e
        ∧ nTimeLastZnodeList (sync w') = GetTime e
        ∧ nTimeLastPaymentVote (sync w') = GetTime e
        ∧ nTimeLastGovernanceItem (sync w') = GetTime e
        ∧ (nRequestedZnodeAttempt (sync w') = 0
           ∨ (regtest e = true ∧ nRequestedZnodeAttempt (sync w') = 1))
        (* the ledger: what the clearing left, and the spork records of
           the loop *)
        ∧ (∀ a l, (a, l) ∈ fulfilled w'
                  ↔ ((a, l) ∈ fulfilled w
                     ∧ (lockRecv e = true →
                        ¬ (a ∈ addr <$> vNodes w ∧ l ∈ sync_labels)))
                    ∨ (regtest e = false ∧ l = spork_sync
                       ∧ (lockRecv e = false → (a, full_sync) ∉ fulfilled w)
                       ∧ ∃ p, p ∈ vNodes w ∧ sync_source e p ∧ addr p = a))
        (* the loop in normal mode *)
        ∧ (regtest e = false →
           nRequestedZnodeAttempt (sync w') = 0
           ∧ (∀ ev, ev ∈ new_events w w' →
                    ∃ q, q ∈ vNodes w ∧ sync_source e q
                         ∧ (lockRecv e = true
                            ∨ (((addr q, full_sync) ∉ fulfilled w)
                               ∧ (addr q, spork_sync) ∉ fulfilled w))
                         ∧ ev = PushMessage (node_id q) GETSPORKS)
           ∧ (∀ p, p ∈ vNodes w → sync_source e p →
                   lockRecv e = true
                   ∨ (((addr p, full_sync) ∉ fulfilled w)
                      ∧ (addr p, spork_sync) ∉ fulfilled w) →
                   ∃ q, q ∈ vNodes w ∧ addr q = addr p
                        ∧ PushMessage (node_id q) GETSPORKS ∈ new_events w w')
           ∧ Forall2 flag_raised (vNodes w) (vNodes w')
           ∧ (lockRecv e = true → vNodes w' = vNodes w)
           ∧ (lockRecv e = false →
              ∀ p, p ∈ vNodes w → sync_source e p →
                   (addr p, full_sync) ∈ fulfilled w →
                   ∀ q, q ∈ vNodes w' → node_id q = node_id p →
                        fDisconnect q = true))
        (* the loop in regtest *)
        ∧ (regtest e = true →
           vNodes w' = vNodes w
           ∧ ((∃ p, p ∈ vNodes w ∧ sync_source e p
                    ∧ new_events w w' = [PushMessage (node_id p) GETSPORKS]
                    ∧ nRequestedZnodeAttempt (sync w') = 1)
              ∨ ((∀ p, p ∈ vNodes w → ¬ sync_source e p)
                 ∧ new_events w w' = []
                 ∧ nRequestedZnodeAttempt (sync w') = 0))).
Proof.
  intros Hw Hf Hn. unfold ProcessTick.
  rewrite ProcessTick_setup_resync by done.
  destruct (ProcessTick_bootstrap_initial e (Reset e (tick_counted w)))
    as (w1 & -> & Hs1 & Hv1 & Ht1 & Hf1); [done|].
  assert (sync w1 = sync (Reset e (tick_counted w))) as Hs by (by destruct Hs1).
  clear Hs1. cbn [vNodes trace fulfilled Reset tick_counted with_sync with_nTick]
    in Hv1, Ht1, Hf1.
  destruct (ClearFulfilledRequests_frame e w1) as (Hc & _ & _ & Hcv & Hct & _).
  cbv zeta in Hc, Hcv, Hct.
  pose proof (ClearFulfilledRequests_ledger e w1) as Hledger.
  rewrite Hv1, Hf1 in Hledger.
  set (w2 := after_switch e
               (with_sync (set_assets ZNODE_SYNC_SPORKS) (ClearFulfilledRequests e w1))).
  assert (sync w2 = set_started (GetTime e) (set_attempt 0
            (set_assets ZNODE_SYNC_SPORKS (sync (Reset e (tick_counted w)))))) as Hs2.
  { unfold w2. cbn. by rewrite Hc, Hs. }
  assert (vNodes w2 = vNodes w) as Hv2 by (unfold w2; cbn; by rewrite Hcv, Hv1).
  assert (trace w2 = trace w) as Ht2 by (unfold w2; cbn; by rewrite Hct, Ht1).
  assert (fulfilled w2 = fulfilled (ClearFulfilledRequests e w1)) as Hf2 by done.
  clearbody w2. rewrite Hv2.
  destruct (regtest e) eqn:Hr.
  - (* regtest: the quick mode at attempt 0 *)
    destruct (sync_source_among e (vNodes w)) as [Hsome|Hnone].
    + destruct (ProcessTick_peers_regtest e (vNodes w) w2 Hr Hsome)
        as (p & Hp & Hsrc & ->).
      rewrite Hs2. cbn.
      eexists. split; [reflexivity|]. cbn. rewrite Hs2. cbn.
      repeat (split; [done|]). split; [by right|].
      split; [intros a l; rewrite Hf2, Hledger; naive_solver|].
      split; [done|]. intros _. split; [done|]. left. exists p.
      split; [done|]. split; [done|]. split; [|done].
      apply new_events_app. cbn. by rewrite Ht2.
    + rewrite ProcessTick_peers_regtest_none by naive_solver.
      exists w2. split; [done|]. rewrite Hs2. cbn.
      repeat (split; [done|]). split; [by left|].
      split; [intros a l; rewrite Hf2, Hledger; naive_solver|].
      split; [done|]. intros _. split; [done|]. right.
      split; [naive_solver|]. split; [|done].
      apply new_events_app. by rewrite Ht2, app_nil_r.
  - (* normal mode: the spork pass *)
    destruct (ProcessTick_peers_returns e (vNodes w) w2) as (w' & Hret).
    exists w'. split; [done|].
    pose proof Hret
      as (Hs' & HF & (evs & Ht & Hev) & Hv & Hmark)%ProcessTick_peers_spork_pass;
      [|done|by rewrite Hs2..].
    pose proof Hret as [Hraised _]%ProcessTick_peers_peers. rewrite Hv2 in Hraised.
    pose proof Hret as (evs' & Ht' & Hcov)%ProcessTick_peers_sporks_or_return;
      [|done].
    assert (evs' = evs) as -> by (rewrite Ht in Ht'; by apply app_inv_head in Ht').
    rewrite (new_events_app w w' evs) by (by rewrite Ht, Ht2).
    rewrite Hs', Hs2. cbn.
    repeat (split; [done|]). split; [by left|].
    split; [|split; [|done]].
    + intros a l. rewrite HF, Hf2, !Hledger.
      destruct (lockRecv e) eqn:Hlock.
      * split.
        -- intros [[? ?]|(-> & _ & p & ? & ? & <-)]; [left; by auto|].
           right. split; [done|]. split; [done|]. split; [done|]. by eauto.
        -- intros [[? ?]|(_ & -> & _ & p & Hp & ? & <-)]; [left; by auto|].
           right. split; [done|]. split; [|by eauto].
           intros [_ Hclr]. apply Hclr; [done|]. split.
           ++ by apply list_elem_of_fmap_2.
           ++ unfold sync_labels. set_solver.
      * (* without the lock nothing was cleared *)
        split.
        -- intros [[? _]|(-> & Hnf & p & ? & ? & <-)]; [left; by split|].
           right. split; [done|]. split; [done|]. split; [|by eauto].
           intros _ Hin. apply Hnf. by split.
        -- intros [[? _]|(_ & -> & Hnf & p & Hp & ? & <-)]; [left; by split|].
           right. split; [done|]. split; [|by eauto].
           intros [Hin _]. by apply Hnf.
    + intros _. split; [done|]. split; [|split; [|split; [done|split]]].
      * intros ev (q & Hq & Hqs & Hqf & Hqn & ->)%Hev.
        exists q. split; [done|]. split; [done|]. split; [|done].
        destruct (lockRecv e) eqn:Hlock; [by left|right].
        revert Hqf Hqn. rewrite Hf2, !Hledger. intros Hqf Hqn.
        split; intros Hin; [apply Hqf|apply Hqn]; by split.
      * intros p Hp Hsrc Hwhy.
        assert (((addr p, full_sync) ∉ fulfilled w2)
                ∧ (addr p, spork_sync) ∉ fulfilled w2) as [Hnf Hns].
        { rewrite Hf2, !Hledger. split.
          - intros [Hin Hclr]. destruct Hwhy as [Hlock | [? ?]]; [|done].
            apply (Hclr Hlock). split; [by apply list_elem_of_fmap_2|].
            unfold sync_labels. set_solver.
          - intros [Hin Hclr]. destruct Hwhy as [Hlock | [? ?]]; [|done].
            apply (Hclr Hlock). split; [by apply list_elem_of_fmap_2|].
            unfold sync_labels. set_solver. }
        destruct Hcov as [Hall | (pre & r & post & _ & _ & Ha & _)].
        -- by apply Hall.
        -- rewrite Hs2 in Ha. cbn in Ha. by destruct Ha.
      * intros Hlock. rewrite Hv, Hv2; [done|].
        intros p Hp Hsrc. rewrite Hf2, Hledger. intros [_ Hclr].
        apply (Hclr Hlock). split; [by apply list_elem_of_fmap_2|].
        unfold sync_labels. set_solver.
      * intros Hlock p Hp Hsrc Hfull. apply Hmark; [done..|].
        rewrite Hf2, Hledger. split; [done|]. by rewrite Hlock.
Qed.

Lemma C1_resync_restarts_in_same_tick_witness :
  ∃ w', ProcessTick (Sample.env 1000 false true 0)
          (Sample.world (Sample.coordinator ZNODE_SYNC_FINISHED 0 500 0)
             (Sample.statics true 995) [Sample.peer 1]
             {[ (101, spork_sync) ]}) = Ok w'
        ∧ nRequestedZnodeAssets (sync w') = ZNODE_SYNC_SPORKS
        ∧ nRequestedZnodeAttempt (sync w') = 0
        ∧ ∃ q, addr q = 101
               ∧ PushMessage (node_id q) GETSPORKS
                 ∈ new_events
                     (Sample.world (Sample.coordinator ZNODE_SYNC_FINISHED 0 500 0)
                        (Sample.statics true 995) [Sample.peer 1]
                        {[ (101, spork_sync) ]}) w'.
Proof.
  destruct (C1_resync_restarts_in_same_tick (Sample.env 1000 false true 0)
              (Sample.world (Sample.coordinator ZNODE_SYNC_FINISHED 0 500 0)
                 (Sample.statics true 995) [Sample.peer 1]
                 {[ (101, spork_sync) ]}))
    as (w' & Ht & Hs & _ & _ & _ & _ & _ & _ & _ & _ & Hnormal & _).
  - split; [reflexivity | cbn; eauto].
  - reflexivity.
  - reflexivity.
  - destruct (Hnormal eq_refl) as (Hatt & _ & Hcov & _).
    destruct (Hcov (Sample.peer 1)) as (q & _ & Ha & Hev).
    + apply list_elem_of_In. left. reflexivity.
    + done.
    + left. reflexivity.
    + exists w'. refine (conj Ht (conj Hs (conj Hatt _))).
      exists q. exact (conj Ha Hev).
Defined.

(** * Further properties of the coordinator *)

(** ** The transition function and the ledger *)

(** X1. [SwitchToNextAsset] throws exactly from Failed; from any other asset
    it returns, never enters Failed or Initial, never moves to an earlier
    asset, and leaves the failure record, the chain index, the statics and
    the peers alone. *)
Theorem SwitchToNextAsset_throws_exactly_from_failed (e : Env) (w : World) :
  ((∃ what, SwitchToNextAsset e w = runtime_error what)
   ↔ nRequestedZnodeAssets (sync w) = ZNODE_SYNC_FAILED)
  ∧ (∀ w', SwitchToNextAsset e w = Ok w' →
       nRequestedZnodeAssets (sync w') = next_asset (nRequestedZnodeAssets (sync w))
       ∧ nRequestedZnodeAssets (sync w') ≠ ZNODE_SYNC_FAILED
       ∧ nRequestedZnodeAssets (sync w') ≠ ZNODE_SYNC_INITIAL
       ∧ nTimeLastFailure (sync w') = nTimeLastFailure (sync w)
       ∧ pCurrentBlockIndex (sync w') = pCurrentBlockIndex (sync w)
       ∧ gate w' = gate w ∧ vNodes w' = vNodes w).
Proof.
  split.
  - split.
    + intros [what H]. destruct (decide (nRequestedZnodeAssets (sync w) = ZNODE_SYNC_FAILED))
        as [|Hn]; [done|].
      destruct (SwitchToNextAsset_returns e w Hn) as (w' & Hw). congruence.
    + intros Hf. unfold SwitchToNextAsset. rewrite Hf. by eexists.
  - intros w' H.
    pose proof H as (Hg & _ & Hv & _ & Hlf & Hci & _)%SwitchToNextAsset_frame.
    assert (nRequestedZnodeAssets (sync w')
            = next_asset (nRequestedZnodeAssets (sync w))) as Hnext.
    { clear Hg Hv Hlf Hci. revert H. unfold SwitchToNextAsset.
      destruct (nRequestedZnodeAssets (sync w)) eqn:Ha; try done;
        try (intros ?; simplify_eq; cbn; by rewrite ?Ha).
      destruct (negb (lockRecv e)); intros ?; simplify_eq; [done|].
      cbn.
      match goal with |- context [foldl ?f ?w0 ?l] =>
        destruct (foldl_AddFulfilledRequest_frame full_sync l w0) as (H1 & _) end.
      cbn in H1. by rewrite H1. }
    repeat split; try done.
    + rewrite Hnext. assert (nRequestedZnodeAssets (sync w) ≠ ZNODE_SYNC_FAILED).
      { intros Hf. unfold SwitchToNextAsset in H. by rewrite Hf in H. }
      by destruct (nRequestedZnodeAssets (sync w)).
    + rewrite Hnext. by destruct (nRequestedZnodeAssets (sync w)).
Qed.

Lemma SwitchToNextAsset_throws_exactly_from_failed_witness :
  (∃ what, SwitchToNextAsset (Sample.env 1000 false true 5)
             (Sample.world (Sample.coordinator ZNODE_SYNC_FAILED 0 990 990)
                (Sample.statics true 995) [Sample.peer 1] ∅) = runtime_error what).
Proof.
  apply (SwitchToNextAsset_throws_exactly_from_failed (Sample.env 1000 false true 5)
           (Sample.world (Sample.coordinator ZNODE_SYNC_FAILED 0 990 990)
              (Sample.statics true 995) [Sample.peer 1] ∅)).
  reflexivity.
Defined.

(** X2. With the peer list locked, [ClearFulfilledRequests] removes the four
    sync labels of every connected peer's address and nothing else; when the
    try-lock fails it changes nothing at all. *)
Theorem ClearFulfilledRequests_clears_connected_peers (e : Env) (w : World) :
  (lockRecv e = true →
   ∀ a l, (a, l) ∈ fulfilled (ClearFulfilledRequests e w)
          ↔ (a, l) ∈ fulfilled w ∧ ¬ (a ∈ addr <$> vNodes w ∧ l ∈ sync_labels))
  ∧ (lockRecv e = false → ClearFulfilledRequests e w = w).
Proof.
  unfold ClearFulfilledRequests. split; intros ->; cbn; [|done].
  intros a l. apply foldl_RemoveFulfilledRequest_spec.
Qed.

Lemma ClearFulfilledRequests_clears_connected_peers_witness :
  (101, spork_sync) ∉ fulfilled
      (ClearFulfilledRequests (Sample.env 1000 false true 5)
         (Sample.world (Sample.coordinator ZNODE_SYNC_INITIAL 0 990 0)
            (Sample.statics true 995) [Sample.peer 1] {[ (101, spork_sync) ]})).
Proof.
  intros H.
  apply (ClearFulfilledRequests_clears_connected_peers (Sample.env 1000 false true 5)
           (Sample.world (Sample.coordinator ZNODE_SYNC_INITIAL 0 990 0)
              (Sample.statics true 995) [Sample.peer 1] {[ (101, spork_sync) ]}))
    in H as [_ Hn]; [|reflexivity].
  apply Hn. split.
  - apply list_elem_of_In. left. reflexivity.
  - apply list_elem_of_In. left. reflexivity.
Defined.




(** ** The peer count of the gate *)

Lemma enough_at_same_height_spec e cur nodes n :
  enough_at_same_height e cur nodes n = true
  ↔ 1 ≤ count_at_same_height e cur nodes
    ∧ ZNODE_SYNC_ENOUGH_PEERS e ≤ n + count_at_same_height e cur nodes.
Proof.
  unfold count_at_same_height. revert n.
  induction nodes as [|p nodes IH]; intros n; cbn [enough_at_same_height List.filter].
  - cbn. split; [done|lia].
  - fold (at_same_height e cur p). destruct (at_same_height e cur p); cbn [negb length].
    + destruct (Z.geb_spec (n + 1) (ZNODE_SYNC_ENOUGH_PEERS e)).
      * split; [lia|done].
      * rewrite IH. lia.
    + apply IH.
Qed.

(** X4. The loop of the gate over the peers answers yes exactly when at
    least one peer passes the height check and the peers that pass it
    number at least the threshold [ZNODE_SYNC_ENOUGH_PEERS]: stopping at the
    threshold loses nothing. *)
Theorem enough_at_same_height_counts (e : Env) (cur : CBlockIndex) (nodes : list CNode) :
  enough_at_same_height e cur nodes 0 = true
  ↔ 1 ≤ count_at_same_height e cur nodes
    ∧ ZNODE_SYNC_ENOUGH_PEERS e ≤ count_at_same_height e cur nodes.
Proof. by rewrite enough_at_same_height_spec. Qed.

Lemma enough_at_same_height_counts_witness :
  enough_at_same_height (Sample.env 1000 false true 5) Sample.tip
    (map Sample.peer [11; 2; 12; 13; 3; 14; 15; 16]) 0 = true.
Proof.
  apply (enough_at_same_height_counts (Sample.env 1000 false true 5) Sample.tip
           (map Sample.peer [11; 2; 12; 13; 3; 14; 15; 16])).
  split; vm_compute; discriminate.
Defined.

(** ** GetAssetName *)

(** X5. The names of the assets are pairwise distinct, so a logged name
    identifies the asset, and none of them is the "UNKNOWN" of the default
    case. *)
Theorem GetAssetName_identifies_asset (w1 w2 : World) :
  (GetAssetName w1 = GetAssetName w2 →
   nRequestedZnodeAssets (sync w1) = nRequestedZnodeAssets (sync w2))
  ∧ GetAssetName w1 ≠ "UNKNOWN".
Proof.
  unfold GetAssetName.
  destruct (nRequestedZnodeAssets (sync w1)), (nRequestedZnodeAssets (sync w2));
    split; done.
Qed.

Lemma GetAssetName_identifies_asset_witness :
  nRequestedZnodeAssets (sync (Sample.world (Sample.coordinator ZNODE_SYNC_MNW 2 990 0)
                                 (Sample.statics true 995) [] ∅))
  = nRequestedZnodeAssets (sync (Sample.world (Sample.coordinator ZNODE_SYNC_MNW 0 500 0)
                                   (Sample.statics false 5) [Sample.peer 1] ∅)).
Proof.
  apply (GetAssetName_identifies_asset
           (Sample.world (Sample.coordinator ZNODE_SYNC_MNW 2 990 0)
              (Sample.statics true 995) [] ∅)
           (Sample.world (Sample.coordinator ZNODE_SYNC_MNW 0 500 0)
              (Sample.statics false 5) [Sample.peer 1] ∅)).
  reflexivity.
Defined.

(** ** The verdict of the gate *)

Lemma chain_ready_gate_enter e w : chain_ready e w → chain_ready e (gate_enter e w).
Proof.
  unfold chain_ready.
  destruct (idle_dec e w) as [Hi|Hi];
    [rewrite gate_enter_idle | rewrite gate_enter_not_idle]; done.
Qed.

(** X6. With usable chain references, the value the gate returns is the
    flag it leaves memoized, whatever the exit. *)
Theorem gate_answer_is_memoized (fb : bool) (e : Env) (w : World) :
  chain_ready e w →
  (IsBlockchainSynced fb e w).1
  = fBlockchainSynced (gate (IsBlockchainSynced fb e w).2).
Proof.
  intros Hc%chain_ready_gate_enter. rewrite IsBlockchainSynced_unfold.
  unfold IsBlockchainSynced_run. cbn [fst snd].
  destruct Hc as ([cur Hcur] & [best Hbest] & Him & Hre).
  unfold gate_decide. rewrite Hcur, Hbest, Him, Hre. cbn [orb].
  repeat case_match; simplify_eq; cbn; done.
Qed.

Lemma gate_answer_is_memoized_witness :
  (IsBlockchainSynced false (Sample.env 10000 false true 5)
     (Sample.world (Sample.coordinator ZNODE_SYNC_MNW 2 990 0)
        (Sample.statics false 995) (map Sample.peer [11; 12; 13; 14; 15; 16]) ∅)).1
  = fBlockchainSynced (gate
     (IsBlockchainSynced false (Sample.env 10000 false true 5)
        (Sample.world (Sample.coordinator ZNODE_SYNC_MNW 2 990 0)
           (Sample.statics false 995) (map Sample.peer [11; 12; 13; 14; 15; 16]) ∅)).2).
Proof.
  apply (gate_answer_is_memoized false (Sample.env 10000 false true 5)
           (Sample.world (Sample.coordinator ZNODE_SYNC_MNW 2 990 0)
              (Sample.statics false 995) (map Sample.peer [11; 12; 13; 14; 15; 16]) ∅)).
  unfold chain_ready. cbn. eauto.
Defined.

(** X7. Once the flag is memoized, the gate keeps answering synced without
    looking at the peers or the tip, and keeps the flag and the coordinator
    as they are, as long as the chain references are usable, no hour went by
    since the last evaluation, and no block is accepted while the sync is
    unfinished. *)
Theorem gate_memo_is_sticky (fb : bool) (e : Env) (w : World) :
  chain_ready e w →
  ¬ idle e w →
  fBlockchainSynced (gate w) = true →
  fb = false ∨ nRequestedZnodeAssets (sync w) = ZNODE_SYNC_FINISHED →
  (IsBlockchainSynced fb e w).1 = true
  ∧ fBlockchainSynced (gate (IsBlockchainSynced fb e w).2) = true
  ∧ sync (IsBlockchainSynced fb e w).2 = sync w
  ∧ (gate_exit fb e w = ExitThrottled ∨ gate_exit fb e w = ExitMemoized).
Proof.
  intros ([cur Hcur] & [best Hbest] & Him & Hre) Hi Hm Hfb.
  rewrite IsBlockchainSynced_unfold. unfold gate_exit, IsBlockchainSynced_run.
  rewrite gate_enter_not_idle by done. cbn [fst snd].
  unfold gate_decide. cbn. rewrite Hcur, Hbest, Him, Hre, Hm. cbn [orb].
  assert (fb && negb (IsSynced (with_gate (set_nTimeLastProcess (last_process e w)) w))
          = false) as ->.
  { destruct Hfb as [-> | Hf]; [done|]. unfold IsSynced. cbn. rewrite Hf.
    by rewrite andb_false_r. }
  repeat case_match; cbn; rewrite ?Hm; auto.
Qed.

Lemma gate_memo_is_sticky_witness :
  (IsBlockchainSynced false (Sample.env 1020 false true 5)
     (Sample.world (Sample.coordinator ZNODE_SYNC_MNW 2 990 0)
        (Sample.statics true 995) [] ∅)).1 = true.
Proof.
  apply (gate_memo_is_sticky false (Sample.env 1020 false true 5)
           (Sample.world (Sample.coordinator ZNODE_SYNC_MNW 2 990 0)
              (Sample.statics true 995) [] ∅)).
  - unfold chain_ready. cbn. eauto.
  - unfold idle. cbn. lia.
  - reflexivity.
  - by left.
Defined.

(** X8. The gate turns a cleared flag into a synced verdict only on fresh
    evidence: the chain references are usable, the local height is not
    below the checkpoint estimate when checkpoints are enabled, and either
    the connected peers number at least the threshold with at least that
    many at our height, or a block was accepted since the start and the
    best header is less than 144 blocks ahead with a tip younger than the
    maximum tip age. *)
Theorem gate_fresh_verdict_needs_evidence (fb : bool) (e : Env) (w : World) :
  fBlockchainSynced (gate w) = false →
  (IsBlockchainSynced fb e w).1 = true →
  ∃ cur best,
    pCurrentBlockIndex (sync w) = Some cur ∧ pindexBestHeader e = Some best
    ∧ fImporting e = false ∧ fReindex e = false
    ∧ (fCheckpointsEnabled e = true → GetTotalBlocksEstimate e ≤ nHeight cur)
    ∧ ((ZNODE_SYNC_ENOUGH_PEERS e ≤ Z.of_nat (length (vNodes w))
        ∧ ZNODE_SYNC_ENOUGH_PEERS e ≤ count_at_same_height e cur (vNodes w)
        ∧ gate_exit fb e w = ExitPeers)
       ∨ (fFirstBlockAccepted (gate w) = true
          ∧ nHeight best - nHeight cur < 24 * 6
          ∧ GetTime e - Z.max (GetBlockTime cur) (GetBlockTime best) < MaxTipAge e
          ∧ gate_exit fb e w = ExitTipAge)).
Proof.
  intros Hm. rewrite IsBlockchainSynced_unfold.
  unfold gate_exit, IsBlockchainSynced_run. cbn [fst snd].
  assert (∃ w0, gate_enter e w = w0 ∧ fBlockchainSynced (gate w0) = false
                ∧ pCurrentBlockIndex (sync w0) = pCurrentBlockIndex (sync w)
                ∧ vNodes w0 = vNodes w
                ∧ fFirstBlockAccepted (gate w0) = fFirstBlockAccepted (gate w))
    as (w0 & -> & Hm0 & Hc0 & Hv0 & Hf0).
  { eexists. split; [reflexivity|].
    destruct (idle_dec e w) as [Hi|Hi];
      [rewrite gate_enter_idle | rewrite gate_enter_not_idle]; done. }
  unfold gate_decide. rewrite Hc0.
  destruct (pCurrentBlockIndex (sync w)) as [cur|]; [|done].
  destruct (pindexBestHeader e) as [best|]; [|done].
  destruct (fImporting e), (fReindex e); cbn [orb]; try done.
  destruct (fb && negb (IsSynced w0)); [done|].
  destruct (negb fb && _); [cbn; by rewrite Hm0|].
  cbn. rewrite Hm0, Hv0, Hf0.
  destruct (fCheckpointsEnabled e && (nHeight cur <? GetTotalBlocksEstimate e)) eqn:Hcp;
    [done|].
  assert (fCheckpointsEnabled e = true → GetTotalBlocksEstimate e ≤ nHeight cur) as Hcp'.
  { intros Hen. rewrite Hen in Hcp. cbn in Hcp. by apply Z.ltb_ge. }
  destruct ((Z.of_nat (length (vNodes w)) >=? ZNODE_SYNC_ENOUGH_PEERS e)
            && enough_at_same_height e cur (vNodes w) 0) eqn:Hq.
  { intros _. exists cur, best. repeat split; try done. left.
    apply andb_true_iff in Hq as [Hlen Hen].
    apply enough_at_same_height_spec in Hen. cbn. split; [|split; [lia|done]].
    revert Hlen. destruct (Z.geb_spec (Z.of_nat (length (vNodes w)))
                             (ZNODE_SYNC_ENOUGH_PEERS e)); [done|discriminate]. }
  destruct (fFirstBlockAccepted (gate w)); cbn [negb]; [|done].
  cbn. intros (H1 & H2)%andb_true_iff.
  exists cur, best. repeat split; try done. right.
  apply Z.ltb_lt in H1, H2. done.
Qed.

Lemma gate_fresh_verdict_needs_evidence_witness :
  ∃ cur best,
    pCurrentBlockIndex (sync
      (Sample.world (Sample.coordinator ZNODE_SYNC_MNW 2 990 0)
         (Sample.statics false 995) (map Sample.peer [11; 12; 13; 14; 15; 16]) ∅))
    = Some cur
    ∧ pindexBestHeader (Sample.env 1020 false true 5) = Some best.
Proof.
  destruct (gate_fresh_verdict_needs_evidence false (Sample.env 1020 false true 5)
              (Sample.world (Sample.coordinator ZNODE_SYNC_MNW 2 990 0)
                 (Sample.statics false 995)
                 (map Sample.peer [11; 12; 13; 14; 15; 16]) ∅))
    as (cur & best & H1 & H2 & _).
  - reflexivity.
  - vm_compute. reflexivity.
  - exists cur, best. exact (conj H1 H2).
Defined.

(** ** The shapes of a [return] in the normal-mode loop *)

(** The loop skips the znode connections, marks the peers we fully synced
    from and asks the others for the sporks, until it meets a peer that is
    eligible and already recorded for the sporks; the phase-specific part
    of the body runs on that peer, in a state with the coordinator as at the
    start of the loop. *)
Lemma ProcessTick_peers_first_past_sporks e nodes w :
  regtest e = false →
  (∃ p, p ∈ nodes ∧ eligible e w p ∧ (addr p, spork_sync) ∈ fulfilled w) →
  ∃ p rest w1,
    p ∈ nodes
    ∧ sync w1 = sync w
    ∧ eligible e w1 p ∧ (addr p, spork_sync) ∈ fulfilled w1
    ∧ (∃ evs, trace w1 = trace w ++ evs ∧ phase_specific_targets evs = [])
    ∧ ProcessTick_peers e nodes w = ProcessTick_peers e (p :: rest) w1.
Proof.
  intros Hr. revert w.
  induction nodes as [|p0 nodes IH]; intros w (p & Hp & Hel & Hsp).
  { by apply elem_of_nil in Hp. }
  destruct (decide (eligible e w p0 ∧ (addr p0, spork_sync) ∈ fulfilled w))
    as [[Hel0 Hsp0]|Hnot].
  { exists p0, nodes, w. split; [by left|]. split; [done|]. split; [done|].
    split; [done|]. split; [|done]. exists []. by rewrite app_nil_r. }
  assert (∃ w1, peer_body e p0 w = Continue w1) as (w1 & Hb).
  { unfold peer_body. rewrite Hr.
    destruct (fZnode p0 || (fZNode e && fInbound p0)) eqn:Hrole; [by eauto|].
    destruct (HasFulfilledRequest (addr p0) full_sync w) eqn:Hfull; [by eauto|].
    destruct (HasFulfilledRequest (addr p0) spork_sync w) eqn:Hspork; [|by eauto].
    destruct Hnot. split; [split|].
    - by apply sync_source_spec.
    - by apply HasFulfilledRequest_false.
    - by apply HasFulfilledRequest_true. }
  pose proof Hb as (Hs & _ & _ & Hsub & Hfull & _ & Htr & _)%peer_body_Continue.
  apply elem_of_cons in Hp as [-> | Hp]; [by destruct Hnot|].
  destruct (IH w1) as (q & rest & w2 & Hq & Hs2 & Hel2 & Hsp2 & (evs & Hev & Hno) & Heq).
  { exists p. split; [done|]. split; [|set_solver].
    destruct Hel as [? Hnf]. split; [done|]. intros ?. apply Hnf. eauto. }
  exists q, rest, w2. split; [by right|]. split; [by rewrite Hs2|].
  split; [done|]. split; [done|]. split.
  - destruct Htr as [Htr|Htr]; rewrite Hev, Htr.
    + by exists evs.
    + exists ([PushMessage (node_id p0) GETSPORKS] ++ evs).
      split; [by rewrite <- app_assoc|]. by rewrite phase_specific_targets_app, Hno.
  - cbn [ProcessTick_peers]. by rewrite Hb.
Qed.

(** Lines 375-387 and 409-421 on a peer that got past the spork step. *)
Lemma peer_body_timeout e p w :
  regtest e = false → eligible e w p → (addr p, spork_sync) ∈ fulfilled w →
  timed_out e w →
  peer_body e p w
  = if nRequestedZnodeAttempt (sync w) =? 0 then Return (Fail e w)
    else switch_and_return e w.
Proof.
  intros Hr [Hsrc Hnf] Hsp Hto. unfold peer_body, timed_out in *.
  apply sync_source_spec in Hsrc. apply HasFulfilledRequest_false in Hnf.
  apply HasFulfilledRequest_true in Hsp. rewrite Hsrc, Hr, Hnf, Hsp. cbn [negb].
  destruct (nRequestedZnodeAssets (sync w)); try done;
    by rewrite (proj2 (Z.ltb_lt _ _)) by done.
Qed.

(** A working tick in normal mode, in the roster or payment phase, with the
    chain judged synced and no idle reset, goes straight to the peer loop. *)
Lemma ProcessTick_normal_syncing e w :
  working_tick w → regtest e = false →
  nRequestedZnodeAssets (sync w) = ZNODE_SYNC_LIST
  ∨ nRequestedZnodeAssets (sync w) = ZNODE_SYNC_MNW →
  ¬ idle e w →
  (IsBlockchainSynced false e (tick_counted w)).1 = true →
  ∃ w1, ProcessTick e w = ProcessTick_peers e (vNodes w) w1
        ∧ sync w1 = sync w ∧ vNodes w1 = vNodes w
        ∧ fulfilled w1 = fulfilled w ∧ trace w1 = trace w.
Proof.
  intros Hw Hr Ha Hi Hg. unfold ProcessTick.
  rewrite ProcessTick_setup_syncing by (done || destruct Ha as [-> | ->]; done).
  destruct (IsBlockchainSynced false e (tick_counted w)) as [b w1] eqn:Hgate.
  cbn in Hg. subst b.
  rewrite (ProcessTick_bootstrap_synced e (tick_counted w) w1)
    by (done || (cbn; destruct Ha as [-> | ->]; done)).
  apply IsBlockchainSynced_frame in Hgate as (_ & Hv & Hf & Ht & Hs & _).
  specialize (Hs Hi). exists w1. by rewrite Hv.
Qed.

(** ** Timeouts *)

(** X9. In normal mode, a working tick in the roster or payment phase whose
    phase timed out without a single attempt fails the sync: the asset
    becomes Failed, the failure is stamped with the current time, and no
    roster or payment request goes out.  The timeout is looked at on the
    first eligible peer that already got the spork request, so one such
    peer must be connected, and the chain must be judged synced. *)
Theorem timeout_without_attempt_fails (e : Env) (w : World) :
  working_tick w →
  regtest e = false →
  ¬ idle e w →
  (IsBlockchainSynced false e (tick_counted w)).1 = true →
  timed_out e w →
  nRequestedZnodeAttempt (sync w) = 0 →
  (∃ p, p ∈ vNodes w ∧ eligible e w p ∧ (addr p, spork_sync) ∈ fulfilled w) →
  ∃ w', ProcessTick e w = Ok w'
        ∧ nRequestedZnodeAssets (sync w') = ZNODE_SYNC_FAILED
        ∧ nTimeLastFailure (sync w') = GetTime e
        ∧ nRequestedZnodeAttempt (sync w') = 0
        ∧ phase_specific_targets (new_events w w') = [].
Proof.
  intros Hw Hr Hi Hg Hto Hz Hpeer.
  assert (nRequestedZnodeAssets (sync w) = ZNODE_SYNC_LIST
          ∨ nRequestedZnodeAssets (sync w) = ZNODE_SYNC_MNW) as Ha.
  { unfold timed_out in Hto. destruct (nRequestedZnodeAssets (sync w)); auto; done. }
  destruct (ProcessTick_normal_syncing e w Hw Hr Ha Hi Hg)
    as (w1 & -> & Hs1 & Hv1 & Hf1 & Ht1).
  destruct (ProcessTick_peers_first_past_sporks e (vNodes w) w1 Hr)
    as (p & rest & w2 & _ & Hs2 & Hel2 & Hsp2 & (evs & Hev & Hno) & ->).
  { unfold eligible. by rewrite Hf1. }
  cbn [ProcessTick_peers].
  rewrite peer_body_timeout; [|done..|by unfold timed_out in *; rewrite Hs2, Hs1].
  rewrite Hs2, Hs1, Hz. cbn.
  eexists. split; [reflexivity|]. cbn. rewrite Hs2, Hs1.
  repeat split; try done.
  rewrite (new_events_app w (Fail e w2) evs); [done|]. cbn. by rewrite Hev, Ht1.
Qed.

Lemma timeout_without_attempt_fails_witness :
  ∃ w', ProcessTick (Sample.env 1031 false true 5)
          (Sample.world (Sample.coordinator ZNODE_SYNC_LIST 0 1000 0)
             (Sample.statics true 1030) [Sample.peer 1] {[ (101, spork_sync) ]})
        = Ok w'
        ∧ nRequestedZnodeAssets (sync w') = ZNODE_SYNC_FAILED
        ∧ nTimeLastFailure (sync w') = 1031.
Proof.
  destruct (timeout_without_attempt_fails (Sample.env 1031 false true 5)
              (Sample.world (Sample.coordinator ZNODE_SYNC_LIST 0 1000 0)
                 (Sample.statics true 1030) [Sample.peer 1] {[ (101, spork_sync) ]}))
    as (w' & Ht & H1 & H2 & _).
  - split; [reflexivity | cbn; eauto].
  - reflexivity.
  - unfold idle. cbn. lia.
  - vm_compute. reflexivity.
  - unfold timed_out, ZNODE_SYNC_TIMEOUT_SECONDS. cbn. lia.
  - reflexivity.
  - exists (Sample.peer 1). split; [by left|]. split.
    + split; [done|]. not_in_sample_ledger.
    + change ((101, spork_sync) ∈ ({[ (101, spork_sync) ]} : gset (Z * string))).
      by apply elem_of_singleton.
  - exists w'. exact (conj Ht (conj H1 H2)).
Defined.

(** X10. In normal mode, a working tick in the roster phase whose phase
    timed out after at least one attempt moves on to the payment votes:
    the attempt counter restarts at 0, the payment phase and the phase
    start are stamped with the current time, and no request goes out in
    that tick. *)
Theorem roster_timeout_with_attempts_advances (e : Env) (w : World) :
  working_tick w →
  regtest e = false →
  ¬ idle e w →
  (IsBlockchainSynced false e (tick_counted w)).1 = true →
  nRequestedZnodeAssets (sync w) = ZNODE_SYNC_LIST →
  timed_out e w →
  nRequestedZnodeAttempt (sync w) ≠ 0 →
  (∃ p, p ∈ vNodes w ∧ eligible e w p ∧ (addr p, spork_sync) ∈ fulfilled w) →
  ∃ w', ProcessTick e w = Ok w'
        ∧ nRequestedZnodeAssets (sync w') = ZNODE_SYNC_MNW
        ∧ nRequestedZnodeAttempt (sync w') = 0
        ∧ nTimeLastPaymentVote (sync w') = GetTime e
        ∧ nTimeAssetSyncStarted (sync w') = GetTime e
        ∧ ¬ timed_out e w'
        ∧ phase_specific_targets (new_events w w') = [].
Proof.
  intros Hw Hr Hi Hg Ha Hto Hz Hpeer.
  destruct (ProcessTick_normal_syncing e w Hw Hr (or_introl Ha) Hi Hg)
    as (w1 & -> & Hs1 & Hv1 & Hf1 & Ht1).
  destruct (ProcessTick_peers_first_past_sporks e (vNodes w) w1 Hr)
    as (p & rest & w2 & _ & Hs2 & Hel2 & Hsp2 & (evs & Hev & Hno) & ->).
  { unfold eligible. by rewrite Hf1. }
  cbn [ProcessTick_peers].
  rewrite peer_body_timeout; [|done..|by unfold timed_out in *; rewrite Hs2, Hs1].
  rewrite Hs2, Hs1. rewrite (proj2 (Z.eqb_neq _ _)) by done.
  unfold switch_and_return, SwitchToNextAsset. rewrite Hs2, Hs1, Ha.
  eexists. split; [reflexivity|]. cbn. unfold timed_out. cbn.
  repeat split; try done.
  - unfold ZNODE_SYNC_TIMEOUT_SECONDS. lia.
  - match goal with |- phase_specific_targets (new_events w ?w') = [] =>
      rewrite (new_events_app w w' evs) end; [done|]. cbn. by rewrite Hev, Ht1.
Qed.

Lemma roster_timeout_with_attempts_advances_witness :
  ∃ w', ProcessTick (Sample.env 1031 false true 5)
          (Sample.world (Sample.coordinator ZNODE_SYNC_LIST 2 1000 0)
             (Sample.statics true 1030) [Sample.peer 1] {[ (101, spork_sync) ]})
        = Ok w'
        ∧ nRequestedZnodeAssets (sync w') = ZNODE_SYNC_MNW
        ∧ nRequestedZnodeAttempt (sync w') = 0.
Proof.
  destruct (roster_timeout_with_attempts_advances (Sample.env 1031 false true 5)
              (Sample.world (Sample.coordinator ZNODE_SYNC_LIST 2 1000 0)
                 (Sample.statics true 1030) [Sample.peer 1] {[ (101, spork_sync) ]}))
    as (w' & Ht & H1 & H2 & _).
  - split; [reflexivity | cbn; eauto].
  - reflexivity.
  - unfold idle. cbn. lia.
  - vm_compute. reflexivity.
  - reflexivity.
  - unfold timed_out, ZNODE_SYNC_TIMEOUT_SECONDS. cbn. lia.
  - cbn. lia.
  - exists (Sample.peer 1). split; [by left|]. split.
    + split; [done|]. not_in_sample_ledger.
    + change ((101, spork_sync) ∈ ({[ (101, spork_sync) ]} : gset (Z * string))).
      by apply elem_of_singleton.
  - exists w'. exact (conj Ht (conj H1 H2)).
Defined.

(** ** Waiting for the chain *)

(** X11. In normal mode, a working tick in the roster or payment phase that
    finds the chain not yet synced contacts no peer and changes neither the
    asset nor the attempt counter; it stamps the roster, payment and
    governance timestamps with the current time, so that the phase is not
    timed out when the wait is over. *)
Theorem tick_waits_for_chain (e : Env) (w : World) :
  working_tick w →
  regtest e = false →
  nRequestedZnodeAssets (sync w) = ZNODE_SYNC_LIST
  ∨ nRequestedZnodeAssets (sync w) = ZNODE_SYNC_MNW →
  ¬ idle e w →
  (IsBlockchainSynced false e (tick_counted w)).1 = false →
  ∃ w', ProcessTick e w = Ok w'
        ∧ nRequestedZnodeAssets (sync w') = nRequestedZnodeAssets (sync w)
        ∧ nRequestedZnodeAttempt (sync w') = nRequestedZnodeAttempt (sync w)
        ∧ nTimeAssetSyncStarted (sync w') = nTimeAssetSyncStarted (sync w)
        ∧ nTimeLastZnodeList (sync w') = GetTime e
        ∧ nTimeLastPaymentVote (sync w') = GetTime e
        ∧ nTimeLastGovernanceItem (sync w') = GetTime e
        ∧ ¬ timed_out e w'
        ∧ trace w' = trace w ∧ fulfilled w' = fulfilled w ∧ vNodes w' = vNodes w.
Proof.
  intros Hw Hr Ha Hi Hg. unfold ProcessTick.
  rewrite ProcessTick_setup_syncing by (done || destruct Ha as [-> | ->]; done).
  unfold ProcessTick_bootstrap. rewrite Hr.
  destruct (IsBlockchainSynced false e (tick_counted w)) as [b w1] eqn:Hgate.
  cbn in Hg. subst b.
  apply IsBlockchainSynced_frame in Hgate as (_ & Hv & Hf & Ht & Hs & _).
  specialize (Hs Hi). cbn in Hs, Hv, Hf, Ht. rewrite Hs.
  assert ((asset_code (nRequestedZnodeAssets (sync w)) >? asset_code ZNODE_SYNC_SPORKS)
          = true) as -> by (destruct Ha as [-> | ->]; done).
  cbn [negb andb]. eexists. split; [reflexivity|].
  unfold timed_out. cbn. rewrite Hs.
  repeat split; try done.
  unfold ZNODE_SYNC_TIMEOUT_SECONDS. destruct Ha as [-> | ->]; lia.
Qed.

Lemma tick_waits_for_chain_witness :
  ∃ w', ProcessTick (Sample.env 1031 false true 5)
          (Sample.world (Sample.coordinator ZNODE_SYNC_LIST 0 1000 0)
             (Sample.statics false 1030) [Sample.peer 1] {[ (101, spork_sync) ]})
        = Ok w'
        ∧ nTimeLastZnodeList (sync w') = 1031
        ∧ trace w' = [].
Proof.
  destruct (tick_waits_for_chain (Sample.env 1031 false true 5)
              (Sample.world (Sample.coordinator ZNODE_SYNC_LIST 0 1000 0)
                 (Sample.statics false 1030) [Sample.peer 1] {[ (101, spork_sync) ]}))
    as (w' & Ht & _ & _ & _ & H1 & _ & _ & _ & H2 & _).
  - split; [reflexivity | cbn; eauto].
  - reflexivity.
  - by left.
  - unfold idle. cbn. lia.
  - vm_compute. reflexivity.
  - exists w'. exact (conj Ht (conj H1 H2)).
Defined.

(** ** The assets a tick can reach *)

Lemma gate_keeps_not_idle fb e w :
  ¬ idle e w → ¬ idle e (IsBlockchainSynced fb e w).2.
Proof.
  intros Hi. rewrite IsBlockchainSynced_unfold. cbn [snd].
  unfold IsBlockchainSynced_run. rewrite gate_enter_not_idle by done.
  unfold idle in *. unfold gate_decide.
  repeat case_match; cbn; lia.
Qed.

Lemma SwitchToNextAsset_next e w w' :
  SwitchToNextAsset e w = Ok w' →
  nRequestedZnodeAssets (sync w') = next_asset (nRequestedZnodeAssets (sync w)).
Proof.
  unfold SwitchToNextAsset.
  destruct (nRequestedZnodeAssets (sync w)) eqn:Ha; try done;
    try (intros ?; simplify_eq; cbn; by rewrite ?Ha).
  destruct (negb (lockRecv e)); intros ?; simplify_eq; [done|].
  cbn.
  match goal with |- context [foldl ?f ?w0 ?l] =>
    destruct (foldl_AddFulfilledRequest_frame full_sync l w0) as (H1 & _) end.
  cbn in H1. by rewrite H1.
Qed.

Lemma loop_successor_sync e w1 w2 a :
  sync w1 = sync w2 → loop_successor e w1 a → loop_successor e w2 a.
Proof. unfold loop_successor, timed_out. by intros ->. Qed.

Lemma timed_out_asset e w :
  timed_out e w →
  nRequestedZnodeAssets (sync w) = ZNODE_SYNC_LIST
  ∨ nRequestedZnodeAssets (sync w) = ZNODE_SYNC_MNW.
Proof. unfold timed_out. destruct (nRequestedZnodeAssets (sync w)); auto; done. Qed.

Lemma peer_body_Return_successor e p w w' :
  peer_body e p w = Return w' → loop_successor e w (nRequestedZnodeAssets (sync w')).
Proof.
  destruct (regtest e) eqn:Hr.
  - unfold peer_body. rewrite Hr.
    destruct (fZnode p || (fZNode e && fInbound p)); [done|].
    intros [= <-]. unfold loop_successor. rewrite Hr.
    destruct (Z.leb_spec (nRequestedZnodeAttempt (sync w)) 2); [by left|].
    destruct (Z.ltb_spec (nRequestedZnodeAttempt (sync w)) 4); [by left|].
    destruct (Z.ltb_spec (nRequestedZnodeAttempt (sync w)) 6); [by left|].
    right. left. done.
  - intros H. apply (peer_body_Return_shape e p w w' Hr) in H.
    unfold loop_successor. rewrite Hr.
    destruct H as [(_ & _ & -> & _) | [(-> & Hto & _) | (Hsw & Hcase)]].
    + by left.
    + destruct (timed_out_asset e w Hto) as [Ha|Ha]; cbn.
      * right. right. left. auto.
      * right. right. right. auto.
    + apply SwitchToNextAsset_next in Hsw. rewrite Hsw.
      destruct Hcase as [(Ha & Hto & _) | (Ha & _)]; rewrite Ha; cbn.
      * right. right. left. auto.
      * right. right. right. auto.
Qed.

Lemma ProcessTick_peers_successor e nodes w w' :
  ProcessTick_peers e nodes w = Ok w' →
  loop_successor e w (nRequestedZnodeAssets (sync w')).
Proof.
  revert w. induction nodes as [|p nodes IH]; intros w; cbn [ProcessTick_peers].
  { intros [= <-]. by left. }
  destruct (peer_body e p w) as [w1|w1|what] eqn:Hb; [| |done].
  - intros H%IH. apply peer_body_Continue in Hb as (Hs & _).
    by apply (loop_successor_sync e w1 w).
  - intros [= <-]. by eapply peer_body_Return_successor.
Qed.

Lemma ProcessTick_bootstrap_asset e w r :
  ¬ idle e w →
  ProcessTick_bootstrap e w = Ok r →
  match r with
  | Returned w1 =>
    nRequestedZnodeAssets (sync w1) = nRequestedZnodeAssets (sync w)
    ∧ nRequestedZnodeAssets (sync w) ≠ ZNODE_SYNC_INITIAL
  | Proceed w1 =>
    (nRequestedZnodeAssets (sync w) = ZNODE_SYNC_INITIAL
     ∧ nRequestedZnodeAssets (sync w1) = ZNODE_SYNC_SPORKS
     ∧ nRequestedZnodeAttempt (sync w1) = 0)
    ∨ (nRequestedZnodeAssets (sync w) = ZNODE_SYNC_SPORKS
       ∧ nRequestedZnodeAssets (sync w1) = ZNODE_SYNC_LIST
       ∧ nRequestedZnodeAttempt (sync w1) = 0
       ∧ nTimeLastZnodeList (sync w1) = GetTime e)
    ∨ (nRequestedZnodeAssets (sync w) ≠ ZNODE_SYNC_INITIAL ∧ sync w1 = sync w)
  end.
Proof.
  intros Hi. unfold ProcessTick_bootstrap.
  assert (∃ wait w1, (if regtest e then (false, w)
            else let '(synced, w') := IsBlockchainSynced false e w in
                 (negb synced && (asset_code (nRequestedZnodeAssets (sync w'))
                                  >? asset_code ZNODE_SYNC_SPORKS), w')) = (wait, w1)
          ∧ sync w1 = sync w ∧ ¬ idle e w1
          ∧ (wait = true → nRequestedZnodeAssets (sync w) ≠ ZNODE_SYNC_INITIAL))
    as (wait & w1 & -> & Hs1 & Hi1 & Hwait).
  { destruct (regtest e); [by exists false, w|].
    pose proof (gate_keeps_not_idle false e w Hi) as Hk.
    destruct (IsBlockchainSynced false e w) as [b w1] eqn:Hg.
    apply IsBlockchainSynced_frame in Hg as (_ & _ & _ & _ & Hs & _).
    specialize (Hs Hi).
    eexists _, w1. split; [done|]. split; [done|]. split; [done|].
    rewrite Hs. intros (_ & Hgt)%andb_true_iff Hinit. by rewrite Hinit in Hgt. }
  destruct wait; [intros [= <-]; cbn; rewrite Hs1; by auto|].
  rewrite Hs1.
  case_bool_decide as Hinit.
  { unfold SwitchToNextAsset. rewrite Hs1, Hinit. intros [= <-]. left. done. }
  case_bool_decide as Hsp; [|intros [= <-]; right; right; by rewrite Hs1].
  destruct (IsBlockchainSynced false e w1) as [b w2] eqn:Hg.
  apply IsBlockchainSynced_frame in Hg as (_ & _ & _ & _ & Hs & _).
  specialize (Hs Hi1).
  destruct b; [|intros [= <-]; right; right; by rewrite Hs, Hs1].
  unfold SwitchToNextAsset. rewrite Hs, Hs1, Hsp. intros [= <-].
  right. left. done.
Qed.

Lemma ProcessTick_setup_cases e w r :
  ProcessTick_setup e w = Ok r →
  r = Returned (tick_counted w)
  ∨ (nRequestedZnodeAssets (sync w) = ZNODE_SYNC_FAILED
     ∧ r = Returned (Reset e (tick_counted w)))
  ∨ (nRequestedZnodeAssets (sync w) = ZNODE_SYNC_FINISHED
     ∧ ProcessTick_bootstrap e (Reset e (tick_counted w)) = Ok r)
  ∨ (nRequestedZnodeAssets (sync w) ≠ ZNODE_SYNC_FINISHED
     ∧ nRequestedZnodeAssets (sync w) ≠ ZNODE_SYNC_FAILED
     ∧ ProcessTick_bootstrap e (tick_counted w) = Ok r).
Proof.
  unfold ProcessTick_setup.
  destruct (negb (Z.rem (nTick w) ZNODE_SYNC_TICK_SECONDS =? 0));
    [intros [= <-]; by left|].
  destruct (negb (bool_decide _)); [intros [= <-]; by left|].
  unfold IsSynced, IsFailed. cbn.
  case_bool_decide as Hfin; cbn.
  - destruct (negb (CountZnodes e =? 0)); cbn; [intros [= <-]; by left|].
    simpl. intros H. right. right. left. done.
  - case_bool_decide as Hfail.
    + intros [= <-]. destruct (_ <? _); [right; left; done|by left].
    + intros H. right. right. right. done.
Qed.

Lemma tick_successors_self rt a : a ∈ tick_successors rt a.
Proof. destruct a, rt; cbn; set_solver. Qed.

Lemma loop_successor_in_table e w a' :
  nRequestedZnodeAssets (sync w) ≠ ZNODE_SYNC_INITIAL →
  nRequestedZnodeAssets (sync w) ≠ ZNODE_SYNC_FAILED →
  loop_successor e w a' →
  a' ∈ tick_successors (regtest e) (nRequestedZnodeAssets (sync w)).
Proof.
  intros Hn1 Hn2 [-> | [(-> & _ & ->) | [(-> & -> & _ & Ha) | (-> & -> & Ha)]]].
  - apply tick_successors_self.
  - destruct (nRequestedZnodeAssets (sync w)); cbn; set_solver.
  - cbn. destruct Ha as [-> | ->]; set_solver.
  - cbn. destruct Ha as [-> | ->]; set_solver.
Qed.

(** Right after a transition to the sporks or to the roster, the loop of
    the same tick cannot change the asset again. *)
Lemma loop_successor_fresh e w a' :
  nRequestedZnodeAttempt (sync w) = 0 →
  nRequestedZnodeAssets (sync w) = ZNODE_SYNC_SPORKS
  ∨ (nRequestedZnodeAssets (sync w) = ZNODE_SYNC_LIST
     ∧ nTimeLastZnodeList (sync w) = GetTime e) →
  loop_successor e w a' →
  a' = nRequestedZnodeAssets (sync w).
Proof.
  intros Hz Ha [-> | [(_ & H6 & _) | [(_ & Hl & Hto & _) | (_ & Hm & _)]]].
  - done.
  - lia.
  - unfold timed_out, ZNODE_SYNC_TIMEOUT_SECONDS in Hto. rewrite Hl in Hto.
    destruct Ha as [Ha | [_ Ht]]; [congruence|lia].
  - destruct Ha as [Ha | [Ha _]]; congruence.
Qed.

(** X12. Which asset a tick can leave behind, when the gate does no idle
    reset: a tick keeps the asset or makes one of the moves of the table
    [tick_successors].  In particular a tick never moves from the sporks,
    the roster or the payment votes back to Initial, never skips a phase,
    and a finished coordinator that restarts is in the spork phase at the
    end of the same tick. *)
Theorem tick_moves_along_the_phases (e : Env) (w : World) :
  ¬ idle e w →
  ∃ w', ProcessTick e w = Ok w'
        ∧ nRequestedZnodeAssets (sync w')
          ∈ tick_successors (regtest e) (nRequestedZnodeAssets (sync w)).
Proof.
  intros Hi. destruct (ProcessTick_returns e w) as (w' & Hret).
  exists w'. split; [done|]. revert Hret. unfold ProcessTick.
  destruct (ProcessTick_setup e w) as [r|] eqn:Hs; [|done].
  apply ProcessTick_setup_cases in Hs
    as [-> | [(Hf & ->) | [(Hfin & Hb) | (Hn1 & Hn2 & Hb)]]].
  - intros [= <-]. apply tick_successors_self.
  - intros [= <-]. rewrite Hf. cbn. set_solver.
  - apply ProcessTick_bootstrap_asset in Hb; [|done].
    destruct r as [w1|w1]; [by destruct Hb|].
    destruct Hb as [(_ & Ha1 & Hz1) | [(Hc & _) | (Hc & _)]]; [|done..].
    intros Hp%ProcessTick_peers_successor.
    apply loop_successor_fresh in Hp; [|done|by left].
    rewrite Hp, Ha1, Hfin. cbn. set_solver.
  - apply ProcessTick_bootstrap_asset in Hb; [|done]. cbn in Hb.
    destruct r as [w1|w1].
    { intros [= <-]. destruct Hb as [-> _]. apply tick_successors_self. }
    intros Hp%ProcessTick_peers_successor.
    destruct Hb as [(Ha & Ha1 & Hz1) | [(Ha & Ha1 & Hz1 & Hl1) | (Hni & Hs1)]].
    + apply loop_successor_fresh in Hp; [|done|by left].
      rewrite Hp, Ha1, Ha. cbn. set_solver.
    + apply loop_successor_fresh in Hp; [|done|by right].
      rewrite Hp, Ha1, Ha. destruct (regtest e); cbn; set_solver.
    + apply (loop_successor_sync e w1 w) in Hp; [|done].
      by apply loop_successor_in_table.
Qed.

Lemma tick_moves_along_the_phases_witness :
  ∃ w', ProcessTick (Sample.env 1031 false true 5)
          (Sample.world (Sample.coordinator ZNODE_SYNC_SPORKS 0 1000 0)
             (Sample.statics true 1030) [Sample.peer 1] ∅) = Ok w'
        ∧ nRequestedZnodeAssets (sync w')
          ∈ [ZNODE_SYNC_SPORKS; ZNODE_SYNC_LIST].
Proof.
  apply (tick_moves_along_the_phases (Sample.env 1031 false true 5)
           (Sample.world (Sample.coordinator ZNODE_SYNC_SPORKS 0 1000 0)
              (Sample.statics true 1030) [Sample.peer 1] ∅)).
  unfold idle. cbn. lia.
Defined.

(** ** The tick counter and the pacing *)

Lemma peer_body_nTick e p w :
  match peer_body e p w with
  | Continue w' | Return w' => nTick w' = nTick w
  | Throw _ => True
  end.
Proof.
  destruct (peer_body e p w) as [w'|w'|what] eqn:Hb; [| |done].
  { by apply peer_body_Continue in Hb as (_ & _ & -> & _). }
  revert Hb. unfold peer_body, switch_and_return.
  destruct (SwitchToNextAsset e w) as [w2|] eqn:Hsw.
  - apply SwitchToNextAsset_frame in Hsw as (_ & Hn & _).
    repeat case_match; intros [= <-]; done.
  - repeat case_match; intros [= <-]; done.
Qed.

Lemma ProcessTick_peers_nTick e nodes w w' :
  ProcessTick_peers e nodes w = Ok w' → nTick w' = nTick w.
Proof.
  revert w. induction nodes as [|p nodes IH]; intros w; cbn; [by intros [= <-]|].
  pose proof (peer_body_nTick e p w) as Hn.
  destruct (peer_body e p w) as [w1|w1|what]; [| |done].
  - intros ->%IH. done.
  - by intros [= <-].
Qed.

Lemma ProcessTick_bootstrap_nTick e w r :
  ProcessTick_bootstrap e w = Ok r → nTick (setup_world r) = nTick w.
Proof.
  unfold ProcessTick_bootstrap.
  assert (∃ wait w1, (if regtest e then (false, w)
            else let '(synced, w') := IsBlockchainSynced false e w in
                 (negb synced && (asset_code (nRequestedZnodeAssets (sync w'))
                                  >? asset_code ZNODE_SYNC_SPORKS), w')) = (wait, w1)
          ∧ nTick w1 = nTick w) as (wait & w1 & -> & Hn1).
  { destruct (regtest e); [by exists false, w|].
    destruct (IsBlockchainSynced false e w) as [b w1] eqn:Hg.
    apply IsBlockchainSynced_frame in Hg as (? & _). by eexists _, w1. }
  destruct wait; [by intros [= <-]|].
  assert (∃ adv w2, (if bool_decide (nRequestedZnodeAssets (sync w1) = ZNODE_SYNC_INITIAL)
            then (true, w1)
            else if bool_decide (nRequestedZnodeAssets (sync w1) = ZNODE_SYNC_SPORKS)
                 then IsBlockchainSynced false e w1 else (false, w1)) = (adv, w2)
          ∧ nTick w2 = nTick w1) as (adv & w2 & -> & Hn2).
  { repeat case_match; try by eexists _, w1.
    destruct (IsBlockchainSynced false e w1) as [b w2] eqn:Hg.
    apply IsBlockchainSynced_frame in Hg as (? & _). by eexists _, w2. }
  destruct adv; [|intros [= <-]; cbn; congruence].
  destruct (SwitchToNextAsset e w2) as [w3|] eqn:Hsw; [|done].
  intros [= <-]. apply SwitchToNextAsset_frame in Hsw as (_ & Hn3 & _).
  cbn. congruence.
Qed.

Lemma ProcessTick_nTick e w w' : ProcessTick e w = Ok w' → nTick w' = nTick w + 1.
Proof.
  unfold ProcessTick.
  destruct (ProcessTick_setup e w) as [r|] eqn:Hs; [|done].
  assert (nTick (setup_world r) = nTick w + 1) as Hr.
  { apply ProcessTick_setup_cases in Hs as [-> | [(_ & ->) | [(_ & Hb) | (_ & _ & Hb)]]];
      try done; by apply ProcessTick_bootstrap_nTick in Hb. }
  destruct r as [w1|w1]; [by intros [= <-]|].
  intros Hp%ProcessTick_peers_nTick. cbn in Hr. congruence.
Qed.

(** X13. A run of ticks never ends in the exception of
    [SwitchToNextAsset], whatever the state it starts from, Failed
    included, and every invocation, working or not, advances the tick
    counter by exactly one. *)
Theorem run_ticks_never_throws (es : list Env) (w : World) :
  ∃ w', run_ticks es w = Ok w' ∧ nTick w' = nTick w + Z.of_nat (length es).
Proof.
  revert w. induction es as [|e es IH]; intros w; cbn [run_ticks].
  - exists w. split; [done|]. cbn. lia.
  - destruct (ProcessTick_returns e w) as (w1 & Hw1). rewrite Hw1.
    destruct (IH w1) as (w' & -> & Hn). exists w'. split; [done|].
    apply ProcessTick_nTick in Hw1. cbn [length]. lia.
Qed.

Lemma mod6_succ n : 0 ≤ n → n `mod` 6 ≤ 4 → (n + 1) `mod` 6 = n `mod` 6 + 1.
Proof. intros. Z.div_mod_to_equations. lia. Qed.

(** X14. Only every sixth invocation works: when the tick counter is not a
    multiple of 6, the invocations up to the next multiple only count, and
    leave the coordinator, the statics, the peers, the ledger and the trace
    as they are, whatever their environments. *)
Theorem invocations_between_working_ticks_only_count (es : list Env) (w : World) :
  0 ≤ nTick w →
  1 ≤ nTick w `mod` 6 →
  Z.of_nat (length es) ≤ 6 - nTick w `mod` 6 →
  ∃ w', run_ticks es w = Ok w'
        ∧ nTick w' = nTick w + Z.of_nat (length es)
        ∧ sync w' = sync w ∧ gate w' = gate w ∧ vNodes w' = vNodes w
        ∧ fulfilled w' = fulfilled w ∧ trace w' = trace w.
Proof.
  revert w. induction es as [|e es IH]; intros w Hpos Hmod Hlen; cbn [run_ticks].
  - exists w. repeat split; try done. cbn. lia.
  - rewrite ProcessTick_not_working.
    2:{ intros [Hrem _]. unfold ZNODE_SYNC_TICK_SECONDS in Hrem.
        rewrite Z.rem_mod_nonneg in Hrem by lia. lia. }
    cbn [length] in Hlen.
    destruct es as [|e2 es].
    { exists (tick_counted w). cbn. repeat split; try done. }
    destruct (IH (tick_counted w)) as (w' & -> & Hn & Hrest).
    + cbn. lia.
    + cbn. cbn [length] in Hlen. rewrite mod6_succ by lia. lia.
    + cbn. cbn [length] in Hlen. rewrite mod6_succ by lia. cbn [length]. lia.
    + exists w'. split; [done|]. cbn in Hn. split; [cbn [length]; lia|]. exact Hrest.
Qed.

Lemma invocations_between_working_ticks_only_count_witness :
  ∃ w', run_ticks [Sample.env 1001 false true 5; Sample.env 1002 false true 5]
          (tick_counted
             (Sample.world (Sample.coordinator ZNODE_SYNC_LIST 0 1000 0)
                (Sample.statics true 1000) [Sample.peer 1] ∅)) = Ok w'
        ∧ nTick w' = 3.
Proof.
  destruct (invocations_between_working_ticks_only_count
              [Sample.env 1001 false true 5; Sample.env 1002 false true 5]
              (tick_counted
                 (Sample.world (Sample.coordinator ZNODE_SYNC_LIST 0 1000 0)
                    (Sample.statics true 1000) [Sample.peer 1] ∅)))
    as (w' & Hr & Hn & _).
  - cbn. lia.
  - vm_compute. discriminate.
  - vm_compute. discriminate.
  - exists w'. split; [exact Hr | exact Hn].
Defined.

(** ** What every operation preserves *)

(** A property of the coordinator that [Reset] establishes and that the
    elementary updates keep is kept by the loop, the gate, the tick and
    every step, and so holds in every reachable state. *)
Section Preservation.
Variable P : CZnodeSync → Prop.
Hypothesis P_Reset : ∀ e w, P (sync (Reset e w)).
Hypothesis P_Fail : ∀ e w, P (sync w) → P (sync (Fail e w)).
Hypothesis P_Switch :
  ∀ e w w', P (sync w) → SwitchToNextAsset e w = Ok w' → P (sync w').
Hypothesis P_attempt : ∀ w, P (sync w) → P (sync (incr_attempt w)).
Hypothesis P_finish :
  ∀ w, P (sync w) → P (sync (with_sync (set_assets ZNODE_SYNC_FINISHED) w)).
Hypothesis P_refresh : ∀ e w, P (sync w) → P (sync (refresh_timestamps e w)).
Hypothesis P_tip : ∀ pindex w, P (sync w) → P (sync (UpdatedBlockTip pindex w)).

Lemma peer_body_preserves e p w :
  P (sync w) →
  match peer_body e p w with
  | Continue w' | Return w' => P (sync w')
  | Throw _ => True
  end.
Proof.
  intros HP.
  destruct (peer_body e p w) as [w'|w'|what] eqn:Hb; [| |done].
  { apply peer_body_Continue in Hb as (-> & _). done. }
  destruct (regtest e) eqn:Hr.
  - revert Hb. unfold peer_body. rewrite Hr.
    destruct (fZnode p || (fZNode e && fInbound p)); [done|].
    intros [= <-].
    repeat case_match; try (apply (P_attempt (emit _ w)); exact HP).
    apply P_attempt, P_finish, HP.
  - apply (peer_body_Return_shape e p w w' Hr) in Hb
      as [(_ & _ & Hs & _) | [(-> & _) | (Hsw & _)]].
    + rewrite Hs. by apply (P_attempt w).
    + by apply P_Fail.
    + by eapply P_Switch.
Qed.

Lemma ProcessTick_peers_preserves e nodes w w' :
  P (sync w) → ProcessTick_peers e nodes w = Ok w' → P (sync w').
Proof.
  revert w. induction nodes as [|p nodes IH]; intros w HP; cbn.
  { by intros [= <-]. }
  pose proof (peer_body_preserves e p w HP) as Hb.
  destruct (peer_body e p w) as [w1|w1|what]; [| |done].
  - by apply IH.
  - by intros [= <-].
Qed.

Lemma IsBlockchainSynced_preserves fb e w :
  P (sync w) → P (sync (IsBlockchainSynced fb e w).2).
Proof.
  intros HP. destruct (IsBlockchainSynced fb e w) as [b w'] eqn:Hg.
  apply IsBlockchainSynced_frame in Hg as (_ & _ & _ & _ & Hni & Hid). cbn.
  destruct (idle_dec e w) as [Hi|Hi]; [rewrite (Hid Hi)|rewrite (Hni Hi)]; done.
Qed.

Lemma ProcessTick_bootstrap_preserves e w r :
  P (sync w) → ProcessTick_bootstrap e w = Ok r → P (sync (setup_world r)).
Proof.
  intros HP. unfold ProcessTick_bootstrap.
  assert (∃ wait w1, (if regtest e then (false, w)
            else let '(synced, w') := IsBlockchainSynced false e w in
                 (negb synced && (asset_code (nRequestedZnodeAssets (sync w'))
                                  >? asset_code ZNODE_SYNC_SPORKS), w')) = (wait, w1)
          ∧ P (sync w1)) as (wait & w1 & -> & HP1).
  { destruct (regtest e); [by exists false, w|].
    pose proof (IsBlockchainSynced_preserves false e w HP) as Hk.
    destruct (IsBlockchainSynced false e w) as [b w1]. by eexists _, w1. }
  destruct wait; [intros [= <-]; by apply P_refresh|].
  assert (∃ adv w2, (if bool_decide (nRequestedZnodeAssets (sync w1) = ZNODE_SYNC_INITIAL)
            then (true, w1)
            else if bool_decide (nRequestedZnodeAssets (sync w1) = ZNODE_SYNC_SPORKS)
                 then IsBlockchainSynced false e w1 else (false, w1)) = (adv, w2)
          ∧ P (sync w2)) as (adv & w2 & -> & HP2).
  { repeat case_match; try by eexists _, w1.
    pose proof (IsBlockchainSynced_preserves false e w1 HP1) as Hk.
    destruct (IsBlockchainSynced false e w1) as [b w2]. by eexists _, w2. }
  destruct adv; [|by intros [= <-]].
  destruct (SwitchToNextAsset e w2) as [w3|] eqn:Hsw; [|done].
  intros [= <-]. by eapply P_Switch.
Qed.

Lemma ProcessTick_preserves e w w' :
  P (sync w) → ProcessTick e w = Ok w' → P (sync w').
Proof.
  intros HP. unfold ProcessTick.
  destruct (ProcessTick_setup e w) as [r|] eqn:Hs; [|done].
  assert (P (sync (setup_world r))) as Hr.
  { apply ProcessTick_setup_cases in Hs
      as [-> | [(_ & ->) | [(_ & Hb) | (_ & _ & Hb)]]]; try done.
    - apply P_Reset.
    - eapply ProcessTick_bootstrap_preserves; [|exact Hb]. apply P_Reset.
    - eapply ProcessTick_bootstrap_preserves; [|exact Hb]. done. }
  destruct r as [w1|w1]; [by intros [= <-]|].
  by apply ProcessTick_peers_preserves.
Qed.

Lemma step_preserves w w' : step w w' → P (sync w) → P (sync w').
Proof.
  destruct 1 as [e w w' H|fb e w|pindex w|w|e w|e w|e w w' H|w w' Hs _ _];
    intros HP.
  - by eapply ProcessTick_preserves.
  - by apply IsBlockchainSynced_preserves.
  - by apply P_tip.
  - done.
  - apply P_Reset.
  - by apply P_Fail.
  - by eapply P_Switch.
  - by rewrite Hs.
Qed.

Lemma reachable_preserves w : reachable w → P (sync w).
Proof.
  induction 1 as [e w|w w' _ IH Hstep]; [apply P_Reset|].
  by eapply step_preserves.
Qed.
End Preservation.

Lemma SwitchToNextAsset_attempt e w w' :
  SwitchToNextAsset e w = Ok w' →
  nRequestedZnodeAttempt (sync w') = 0
  ∨ nRequestedZnodeAttempt (sync w') = nRequestedZnodeAttempt (sync w).
Proof.
  unfold SwitchToNextAsset.
  destruct (nRequestedZnodeAssets (sync w)); try done;
    try (intros ?; simplify_eq; by left).
  destruct (negb (lockRecv e)); intros ?; simplify_eq; [by right|by left].
Qed.

(** X15. In every state reachable from a reset coordinator the attempt
    counter is not negative and the asset is never the disabled governance
    asset: no operation of the file assigns it. *)
Theorem reachable_states_are_well_formed (w : World) :
  reachable w → well_formed (sync w).
Proof.
  apply reachable_preserves; unfold well_formed.
  - intros e w0. cbn. done.
  - intros e w0 [H1 H2]. cbn. done.
  - intros e w0 w' [H1 H2] Hsw. split.
    + destruct (SwitchToNextAsset_attempt e w0 w' Hsw) as [-> | ->]; [lia|done].
    + rewrite (SwitchToNextAsset_next e w0 w' Hsw).
      by destruct (nRequestedZnodeAssets (sync w0)).
  - intros w0 [H1 H2]. cbn. split; [lia|done].
  - intros w0 [H1 H2]. cbn. done.
  - intros e w0 [H1 H2]. cbn. done.
  - intros pindex w0 [H1 H2]. cbn. done.
Qed.

Lemma reachable_states_are_well_formed_witness :
  well_formed
    (sync (Fail (Sample.env 1031 false true 5)
             (UpdatedBlockTip (Some Sample.tip)
                (Reset (Sample.env 1000 false true 5)
                   (Sample.world (Sample.coordinator ZNODE_SYNC_GOVERNANCE (-3) 995 0)
                      (Sample.statics true 995) [Sample.peer 1] ∅))))).
Proof.
  apply reachable_states_are_well_formed.
  eapply reachable_step; [|apply step_Fail].
  eapply reachable_step; [|apply step_UpdatedBlockTip].
  apply reachable_init.
Defined.

(** ** What a tick does to the peers *)

(** X16. All a tick ever does to the connected peers is to mark some of
    them for disconnection: the peer list keeps its length and order, no
    other field of a peer changes, no mark is taken back, and in regtest
    the peers are not touched at all. *)
Theorem tick_only_marks_peers (e : Env) (w : World) :
  ∃ w', ProcessTick e w = Ok w'
        ∧ Forall2 flag_raised (vNodes w) (vNodes w')
        ∧ (regtest e = true → vNodes w' = vNodes w).
Proof.
  destruct (ProcessTick_returns e w) as (w' & Hret).
  exists w'. split; [done|]. revert Hret. unfold ProcessTick.
  destruct (ProcessTick_setup e w) as [[w1|w1]|] eqn:Hs; [| |done].
  - intros [= <-]. apply ProcessTick_setup_frame in Hs as (_ & Hv & _).
    cbn in Hv. rewrite Hv. split; [apply Forall2_flag_raised_refl|done].
  - apply ProcessTick_setup_frame in Hs as (_ & Hv & _). cbn in Hv.
    intros H%ProcessTick_peers_peers. by rewrite Hv in H.
Qed.

Lemma tick_only_marks_peers_witness :
  ∃ w', ProcessTick (Sample.env 1000 true true 5)
          (Sample.world (Sample.coordinator ZNODE_SYNC_MNW 3 995 0)
             (Sample.statics true 995) [Sample.peer 1; Sample.peer 2] ∅) = Ok w'
        ∧ vNodes w' = [Sample.peer 1; Sample.peer 2].
Proof.
  destruct (tick_only_marks_peers (Sample.env 1000 true true 5)
              (Sample.world (Sample.coordinator ZNODE_SYNC_MNW 3 995 0)
                 (Sample.statics true 995) [Sample.peer 1; Sample.peer 2] ∅))
    as (w' & Hret & _ & Hsame).
  exists w'. exact (conj Hret (Hsame eq_refl)).
Defined.

(** ** Requests and attempts *)

(** How a run of the normal-mode loop ends: either without a roster or
    payment request, with the coordinator as it was or in another asset; or
    with one request, which went to a sync source of a recent enough
    version that is recorded for the sporks, and one more attempt
    counted. *)
Lemma ProcessTick_peers_outcome e nodes w w' :
  regtest e = false →
  ProcessTick_peers e nodes w = Ok w' →
  ∃ evs, trace w' = trace w ++ evs
    ∧ ((phase_specific_targets evs = []
        ∧ (sync w' = sync w
           ∨ nRequestedZnodeAssets (sync w') ≠ nRequestedZnodeAssets (sync w)))
       ∨ (∃ p, p ∈ nodes ∧ sync_source e p
               ∧ GetMinZnodePaymentsProto e ≤ nVersion p
               ∧ (addr p, spork_sync) ∈ fulfilled w'
               ∧ phase_specific_targets evs ≠ []
               ∧ (∀ i, i ∈ phase_specific_targets evs → i = node_id p)
               ∧ sync w' = set_attempt (nRequestedZnodeAttempt (sync w) + 1) (sync w))).
Proof.
  intros Hr. revert w. induction nodes as [|p0 nodes IH]; intros w; cbn [ProcessTick_peers].
  { intros [= <-]. exists []. rewrite app_nil_r. split; [done|]. left. auto. }
  destruct (peer_body e p0 w) as [w1|w1|what] eqn:Hb; [| |done].
  - intros (evs & Hev & Hcase)%IH.
    pose proof Hb as (Hs & _ & _ & _ & _ & _ & Htr & _)%peer_body_Continue.
    assert (∃ pre, trace w1 = trace w ++ pre ∧ phase_specific_targets pre = [])
      as (pre & Hpre & Hno).
    { destruct Htr as [Htr|Htr]; [exists []; by rewrite app_nil_r|by eexists]. }
    exists (pre ++ evs). split; [by rewrite Hev, Hpre, <- app_assoc|].
    rewrite phase_specific_targets_app, Hno. cbn [app]. rewrite <- Hs.
    destruct Hcase as [Hquiet | (p & Hp & Hrest)]; [by left|].
    right. exists p. split; [by right|done].
  - intros [= <-].
    apply (peer_body_Return_shape e p0 w w1 Hr) in Hb
      as [(_ & _ & Hs & _ & (evs & Hev & Hne & Hall) & Hsrc & Hver & Hsp & Hsub)
         | [(-> & Hto & _) | (Hsw & Hcase)]].
    + exists evs. split; [done|]. right. exists p0. split; [by left|].
      split; [done|]. split; [done|]. split; [by apply Hsub|].
      split; [done|]. split; done.
    + exists []. rewrite app_nil_r. split; [done|]. left. split; [done|]. right.
      cbn. destruct (timed_out_asset e w Hto) as [-> | ->]; done.
    + pose proof (SwitchToNextAsset_next e w w1 Hsw) as Hnext.
      pose proof Hsw as (_ & _ & _ & _ & _ & _ & Hn & Hm)%SwitchToNextAsset_frame.
      destruct Hcase as [(Ha & _) | (Ha & _)].
      * exists []. rewrite app_nil_r. split; [by apply Hn; rewrite Ha|].
        left. split; [done|]. right. by rewrite Hnext, Ha.
      * exists [ManageState]. split; [by apply Hm|].
        left. split; [done|]. right. by rewrite Hnext, Ha.
Qed.

(** X17. In normal mode, whoever is sent a roster or payment request in a
    tick is a connected peer that is not a znode connection, speaks at
    least the minimum payment protocol version, and is recorded as asked
    for the sporks when the tick ends: old peers and peers never asked for
    the sporks get no such request. *)
Theorem phase_requests_go_to_qualified_peers (e : Env) (w : World) :
  regtest e = false →
  ∃ w', ProcessTick e w = Ok w'
    ∧ ∀ i, i ∈ phase_specific_targets (new_events w w') →
           ∃ p, p ∈ vNodes w ∧ node_id p = i ∧ sync_source e p
                ∧ GetMinZnodePaymentsProto e ≤ nVersion p
                ∧ (addr p, spork_sync) ∈ fulfilled w'.
Proof.
  intros Hr. destruct (ProcessTick_returns e w) as (w' & Hret).
  exists w'. split; [done|]. revert Hret. unfold ProcessTick.
  destruct (ProcessTick_setup e w) as [[w1|w1]|] eqn:Hs; [| |done].
  - intros [= <-]. apply ProcessTick_setup_frame in Hs as (Ht & _). cbn in Ht.
    rewrite (new_events_app w w1 []) by (by rewrite app_nil_r).
    cbn. set_solver.
  - apply ProcessTick_setup_frame in Hs as (Ht & Hv & _). cbn in Ht, Hv.
    intros (evs & Hev & Hcase)%ProcessTick_peers_outcome; [|done].
    rewrite (new_events_app w w' evs) by (by rewrite Hev, Ht).
    destruct Hcase as [[Hno _] | (p & Hp & Hsrc & Hver & Hsp & _ & Hall & _)].
    + rewrite Hno. set_solver.
    + intros i Hi. exists p. rewrite <- Hv. rewrite (Hall i Hi). done.
Qed.

Lemma phase_requests_go_to_qualified_peers_witness :
  ∃ w', ProcessTick (Sample.env 1000 false true 5)
          (Sample.world (Sample.coordinator ZNODE_SYNC_LIST 0 995 0)
             (Sample.statics true 995) [Sample.peer 1; Sample.peer 2]
             {[ (101, spork_sync) ]}) = Ok w'
        ∧ ∀ i, i ∈ phase_specific_targets
                     (new_events
                        (Sample.world (Sample.coordinator ZNODE_SYNC_LIST 0 995 0)
                           (Sample.statics true 995) [Sample.peer 1; Sample.peer 2]
                           {[ (101, spork_sync) ]}) w') →
               ∃ p, node_id p = i ∧ 90000 ≤ nVersion p.
Proof.
  destruct (phase_requests_go_to_qualified_peers (Sample.env 1000 false true 5)
              (Sample.world (Sample.coordinator ZNODE_SYNC_LIST 0 995 0)
                 (Sample.statics true 995) [Sample.peer 1; Sample.peer 2]
                 {[ (101, spork_sync) ]}))
    as (w' & Hret & Hq); [reflexivity|].
  exists w'. split; [exact Hret|].
  intros i Hi. destruct (Hq i Hi) as (p & _ & Hid & _ & Hver & _).
  exists p. exact (conj Hid Hver).
Defined.

(** X18. In normal mode, with no idle reset, a tick that leaves the asset
    as it was counts an attempt exactly when a roster or payment request
    went out in it: the counter goes up by one with a request and keeps its
    value without one. *)
Theorem attempts_count_the_requests (e : Env) (w : World) :
  regtest e = false →
  ¬ idle e w →
  ∃ w', ProcessTick e w = Ok w'
    ∧ (nRequestedZnodeAssets (sync w') = nRequestedZnodeAssets (sync w) →
       (phase_specific_targets (new_events w w') = []
        ∧ nRequestedZnodeAttempt (sync w') = nRequestedZnodeAttempt (sync w))
       ∨ (phase_specific_targets (new_events w w') ≠ []
          ∧ nRequestedZnodeAttempt (sync w')
            = nRequestedZnodeAttempt (sync w) + 1)).
Proof.
  intros Hr Hi. destruct (ProcessTick_returns e w) as (w' & Hret).
  exists w'. split; [done|]. revert Hret. unfold ProcessTick.
  destruct (ProcessTick_setup e w) as [r|] eqn:Hs; [|done].
  pose proof (ProcessTick_setup_frame e w r Hs) as (Ht & _).
  assert (∀ w1, sync w1 = sync w → trace w1 = trace w →
            ProcessTick_peers e (vNodes w1) w1 = Ok w' →
            nRequestedZnodeAssets (sync w') = nRequestedZnodeAssets (sync w) →
            (phase_specific_targets (new_events w w') = []
             ∧ nRequestedZnodeAttempt (sync w') = nRequestedZnodeAttempt (sync w))
            ∨ (phase_specific_targets (new_events w w') ≠ []
               ∧ nRequestedZnodeAttempt (sync w')
                 = nRequestedZnodeAttempt (sync w) + 1)) as Hloop.
  { intros w1 Hs1 Ht1 (evs & Hev & Hcase)%ProcessTick_peers_outcome Hsame; [|done].
    rewrite (new_events_app w w' evs) by (by rewrite Hev, Ht1).
    destruct Hcase as [(Hno & [Hq | Hq]) | (p & _ & _ & _ & _ & Hne & _ & Hq)].
    - left. by rewrite Hq, Hs1.
    - by rewrite Hs1 in Hq.
    - right. by rewrite Hq, Hs1. }
  assert (∀ w0, ProcessTick_bootstrap e w0 = Ok r → sync w0 = sync w →
            gate w0 = gate w → trace w0 = trace w →
            match r with
            | Returned w'0 => Ok w'0
            | Proceed w'0 => ProcessTick_peers e (vNodes w'0) w'0
            end = Ok w' →
            nRequestedZnodeAssets (sync w') = nRequestedZnodeAssets (sync w) →
            (phase_specific_targets (new_events w w') = []
             ∧ nRequestedZnodeAttempt (sync w') = nRequestedZnodeAttempt (sync w))
            ∨ (phase_specific_targets (new_events w w') ≠ []
               ∧ nRequestedZnodeAttempt (sync w')
                 = nRequestedZnodeAttempt (sync w) + 1)) as Hboot.
  { intros w0 Hb Hs0 Hg0 Ht0.
    pose proof (ProcessTick_bootstrap_frame e w0 r Hb) as (Htr & _).
    assert (¬ idle e w0) as Hi0 by (unfold idle, last_process in *; by rewrite Hg0).
    pose proof (ProcessTick_bootstrap_asset e w0 r Hi0 Hb) as Hasset.
    destruct r as [w1|w1]; cbn in Htr.
    - intros [= <-] _. left.
      rewrite (new_events_app w w1 []) by (by rewrite app_nil_r, Htr, Ht0).
      split; [done|]. revert Hb. unfold ProcessTick_bootstrap.
      destruct (if regtest e then _ else _) as [wait w2] eqn:Hw2.
      assert (sync w2 = sync w0) as Hs2.
      { revert Hw2. rewrite Hr.
        destruct (IsBlockchainSynced false e w0) as [b w3] eqn:Hg.
        apply IsBlockchainSynced_frame in Hg as (_ & _ & _ & _ & Hni & _).
        intros [= _ <-]. by apply Hni. }
      destruct wait.
      + intros [= <-]. cbn. by rewrite Hs2, Hs0.
      + repeat case_match; done.
    - destruct Hasset as [(Ha & Ha1 & _) | [(Ha & Ha1 & _) | (_ & Hs1)]].
      + intros Hp Hsame. apply ProcessTick_peers_successor in Hp.
        exfalso. rewrite Hs0 in Ha.
        destruct Hp as [Hp | [(Hrt & _) | [(_ & Hl & _) | (_ & Hm & _)]]];
          congruence.
      + intros Hp Hsame. apply ProcessTick_peers_successor in Hp.
        exfalso. rewrite Hs0 in Ha.
        destruct Hp as [Hp | [(Hrt & _) | [(_ & _ & _ & [Hp | Hp]) | (_ & Hm & _)]]];
          congruence.
      + apply Hloop; [by rewrite Hs1|by rewrite Htr]. }
  apply ProcessTick_setup_cases in Hs
    as [-> | [(Hf & ->) | [(Hfin & Hb) | (_ & _ & Hb)]]].
  - intros [= <-] _. left.
    rewrite (new_events_app w (tick_counted w) []) by (by rewrite app_nil_r). done.
  - intros [= <-]. cbn. by rewrite Hf.
  - (* the resync ends in the spork phase, another asset than Finished *)
    apply ProcessTick_bootstrap_asset in Hb; [|done].
    destruct r as [w1|w1]; [by destruct Hb|].
    destruct Hb as [(_ & Ha1 & Hz1) | [(Hc & _) | (Hc & _)]]; [|done..].
    intros Hp%ProcessTick_peers_successor Hsame.
    apply loop_successor_fresh in Hp; [|done|by left]. congruence.
  - apply (Hboot (tick_counted w)); done.
Qed.

Lemma attempts_count_the_requests_witness :
  ∃ w', ProcessTick (Sample.env 1000 false true 5)
          (Sample.world (Sample.coordinator ZNODE_SYNC_LIST 0 995 0)
             (Sample.statics true 995) [Sample.peer 1; Sample.peer 2]
             {[ (101, spork_sync) ]}) = Ok w'
    ∧ (nRequestedZnodeAssets (sync w') = ZNODE_SYNC_LIST →
       (phase_specific_targets
          (new_events
             (Sample.world (Sample.coordinator ZNODE_SYNC_LIST 0 995 0)
                (Sample.statics true 995) [Sample.peer 1; Sample.peer 2]
                {[ (101, spork_sync) ]}) w') = []
        ∧ nRequestedZnodeAttempt (sync w') = 0)
       ∨ (phase_specific_targets
            (new_events
               (Sample.world (Sample.coordinator ZNODE_SYNC_LIST 0 995 0)
                  (Sample.statics true 995) [Sample.peer 1; Sample.peer 2]
                  {[ (101, spork_sync) ]}) w') ≠ []
          ∧ nRequestedZnodeAttempt (sync w') = 0 + 1)).
Proof.
  apply (attempts_count_the_requests (Sample.env 1000 false true 5)
           (Sample.world (Sample.coordinator ZNODE_SYNC_LIST 0 995 0)
              (Sample.statics true 995) [Sample.peer 1; Sample.peer 2]
              {[ (101, spork_sync) ]})).
  - reflexivity.
  - unfold idle. cbn. lia.
Defined.

(** ** The quick mode *)

(** X19. In regtest, on a working tick in the roster, payment or governance
    phase with a sync source among the peers, what is sent is chosen by the
    attempt counter alone, not by the asset: the sporks request up to two
    attempts, the roster request below four, the payment request below six,
    nothing from six on.  One attempt is counted, the asset stays as it was
    while the counter is below six, and the request ledger, the peers and
    the memo of the gate are left alone. *)
Theorem regtest_request_follows_the_attempts (e : Env) (w : World) :
  working_tick w →
  regtest e = true →
  (∃ p, p ∈ vNodes w ∧ sync_source e p) →
  nRequestedZnodeAssets (sync w) = ZNODE_SYNC_LIST
  ∨ nRequestedZnodeAssets (sync w) = ZNODE_SYNC_MNW
  ∨ nRequestedZnodeAssets (sync w) = ZNODE_SYNC_GOVERNANCE →
  ∃ w' p, ProcessTick e w = Ok w'
    ∧ p ∈ vNodes w ∧ sync_source e p
    ∧ new_events w w' = quick_request e (nRequestedZnodeAttempt (sync w)) (node_id p)
    ∧ nRequestedZnodeAttempt (sync w') = nRequestedZnodeAttempt (sync w) + 1
    ∧ (nRequestedZnodeAttempt (sync w) < 6 →
       nRequestedZnodeAssets (sync w') = nRequestedZnodeAssets (sync w))
    ∧ fulfilled w' = fulfilled w ∧ vNodes w' = vNodes w ∧ gate w' = gate w.
Proof.
  intros Hw Hr Hpeer Hphase. unfold ProcessTick.
  rewrite ProcessTick_setup_syncing;
    [|done|destruct Hphase as [-> | [-> | ->]]; done..].
  rewrite ProcessTick_bootstrap_regtest;
    [|done|cbn; destruct Hphase as [-> | [-> | ->]]; done..].
  destruct (ProcessTick_peers_regtest e (vNodes (tick_counted w)) (tick_counted w) Hr)
    as (p & Hp & Hsrc & ->); [done|].
  eexists _, p. split; [done|]. split; [done|]. split; [done|].
  cbn [sync tick_counted with_nTick]. unfold quick_request. cbv zeta.
  destruct (Z.leb_spec (nRequestedZnodeAttempt (sync w)) 2).
  { split; [by apply new_events_app|]. done. }
  destruct (Z.ltb_spec (nRequestedZnodeAttempt (sync w)) 4).
  { split; [by apply new_events_app|]. done. }
  destruct (Z.ltb_spec (nRequestedZnodeAttempt (sync w)) 6).
  { split; [by apply new_events_app|]. done. }
  split; [apply new_events_app; cbn; by rewrite app_nil_r|].
  split; [done|]. split; [lia|done].
Qed.

Lemma regtest_request_follows_the_attempts_witness :
  ∃ w' p, ProcessTick (Sample.env 1000 true true 5)
            (Sample.world (Sample.coordinator ZNODE_SYNC_MNW 3 995 0)
               (Sample.statics true 995) [Sample.peer 1] ∅) = Ok w'
    ∧ new_events
        (Sample.world (Sample.coordinator ZNODE_SYNC_MNW 3 995 0)
           (Sample.statics true 995) [Sample.peer 1] ∅) w'
      = [DsegUpdate (node_id p)]
    ∧ nRequestedZnodeAttempt (sync w') = 4
    ∧ nRequestedZnodeAssets (sync w') = ZNODE_SYNC_MNW.
Proof.
  destruct (regtest_request_follows_the_attempts (Sample.env 1000 true true 5)
              (Sample.world (Sample.coordinator ZNODE_SYNC_MNW 3 995 0)
                 (Sample.statics true 995) [Sample.peer 1] ∅))
    as (w' & p & Hret & _ & _ & Hev & Hatt & Hasset & _).
  - split; [reflexivity|]. cbn. eauto.
  - reflexivity.
  - exists (Sample.peer 1). split; [by left | done].
  - right. left. reflexivity.
  - exists w', p. refine (conj Hret (conj Hev (conj Hatt _))).
    apply Hasset. cbn. lia.
Defined.
